(** * The AI-generation detection relay ([ai_generation_detector.py])

    A shallow embedding of the FastAPI handler [detect_deepfake] and of its
    helper [upload_asset], with the Python built-ins and library calls they
    rely on, followed by the properties of the relay: input validation,
    choice of the submission strategy, ordering of the vendor calls,
    normalisation of the vendor response and the reporting of failures.

    Conventions.  A Python [float] is an IEEE-754 binary64 value, here a
    primitive [float]; a Python [int] is a [Z]; [bool] is kept apart from
    [int] although it behaves as 0 or 1 in arithmetic.  Code that can raise
    returns in the monad [M], which threads the observable world (the vendor
    requests sent so far and the temporary files) and carries the raised
    exception. *)

From Stdlib Require Import ZArith QArith Qpower Floats String Ascii List Bool Lia.
From Stdlib Require Import Permutation Sorted DecimalString Qabs.

#[local] Set Warnings "-inexact-float".

Import ListNotations.

Local Open Scope Z_scope.
Local Open Scope string_scope.
Local Open Scope list_scope.

(** ** Python numbers *)

Module Py.

Inductive pynum :=
| PyBool (b : bool)
| PyInt (z : Z)
| PyFloat (f : float).

(** The exact value of a number on the extended rational line.  Comparisons
    of Python numbers are comparisons of these values: IEEE-754 comparison
    for two floats, and an exact comparison (no conversion of the integer to
    a float) when an [int] meets a [float]. *)
Inductive xval :=
| XNaN
| XInf (neg : bool)
| XFin (q : Q).

Definition dyadic (s : bool) (m : positive) (e : Z) : Q :=
  let sm := if s then Zneg m else Zpos m in
  match e with
  | Z0 => inject_Z sm
  | Zpos p => inject_Z (sm * Z.pow_pos 2 p)
  | Zneg p => Qmake sm (Pos.pow 2 p)
  end.

Definition sf_val (x : spec_float) : xval :=
  match x with
  | S754_zero _ => XFin 0
  | S754_infinity s => XInf s
  | S754_nan => XNaN
  | S754_finite s m e => XFin (dyadic s m e)
  end.

Definition float_val (f : float) : xval := sf_val (Prim2SF f).

Definition int_of_bool (b : bool) : Z := if b then 1 else 0.

Definition num_val (n : pynum) : xval :=
  match n with
  | PyBool b => XFin (inject_Z (int_of_bool b))
  | PyInt z => XFin (inject_Z z)
  | PyFloat f => float_val f
  end.

(** [None] when either side is a NaN (every ordered comparison is false). *)
Definition xcompare (a b : xval) : option comparison :=
  match a, b with
  | XNaN, _ | _, XNaN => None
  | XInf true, XInf true | XInf false, XInf false => Some Eq
  | XInf true, _ | _, XInf false => Some Lt
  | XInf false, _ | _, XInf true => Some Gt
  | XFin p, XFin q => Some (p ?= q)%Q
  end.

Definition py_compare (a b : pynum) : option comparison :=
  xcompare (num_val a) (num_val b).

(** [a < b], [a <= b], [a > b], [a >= b] of Python. *)
Definition py_lt (a b : pynum) : bool :=
  match py_compare a b with Some Lt => true | _ => false end.
Definition py_le (a b : pynum) : bool :=
  match py_compare a b with Some Lt | Some Eq => true | _ => false end.
Definition py_gt (a b : pynum) : bool :=
  match py_compare a b with Some Gt => true | _ => false end.
Definition py_ge (a b : pynum) : bool :=
  match py_compare a b with Some Gt | Some Eq => true | _ => false end.

Definition is_nan_num (n : pynum) : bool :=
  match num_val n with XNaN => true | _ => false end.

(** *** Arithmetic used by the handler *)

(** [float(z)] for an [int]: the nearest binary64 value (ties to even). *)
Definition float_of_int (z : Z) : float :=
  SF2Prim (binary_normalize prec emax z 0 false).

Definition int_of_num (n : pynum) : option Z :=
  match n with
  | PyBool b => Some (int_of_bool b)
  | PyInt z => Some z
  | PyFloat _ => None
  end.

Definition float_of_num (n : pynum) : float :=
  match n with
  | PyBool b => float_of_int (int_of_bool b)
  | PyInt z => float_of_int z
  | PyFloat f => f
  end.

(** [a * b]: an [int] product when both sides are [int] (or [bool]),
    otherwise the binary64 product after converting the integer side.  The
    handler multiplies by the literal [100] only, whose conversion is exact
    and cannot overflow. *)
Definition py_mul (a b : pynum) : pynum :=
  match int_of_num a, int_of_num b with
  | Some x, Some y => PyInt (x * y)
  | _, _ => PyFloat (float_of_num a * float_of_num b)%float
  end.

(** Round half to even of the non-negative rational [n / d]. *)
Definition round_half_even (n : Z) (d : positive) : Z :=
  let q := n / Zpos d in
  let r := n mod Zpos d in
  match (2 * r ?= Zpos d) with
  | Lt => q
  | Gt => q + 1
  | Eq => if Z.even q then q else q + 1
  end.

Fixpoint pow10 (n : nat) : positive :=
  match n with
  | O => 1%positive
  | S k => (10 * pow10 k)%positive
  end.

(** [round(x, ndigits)] for a float and [ndigits >= 0], as CPython computes
    it: the exact value of [x] is rounded (half to even) to [ndigits] places
    after the decimal point, and that decimal is converted back to the
    nearest binary64 value; the sign is kept, also on a zero result; NaN and
    the infinities are returned unchanged. *)
Definition float_round (f : float) (ndigits : nat) : float :=
  match Prim2SF f with
  | S754_finite s m e =>
      let scale := pow10 ndigits in
      let x := (dyadic false m e * inject_Z (Zpos scale))%Q in
      match round_half_even (Qnum x) (Qden x) with
      | Zpos n =>
          SF2Prim (SFdiv prec emax (S754_finite s n 0) (S754_finite false scale 0))
      | _ => SF2Prim (S754_zero s)
      end
  | _ => f
  end.

(** [round(x, ndigits)]: an [int] (or [bool]) rounds to itself as an [int]
    when [ndigits >= 0]. *)
Definition py_round (x : pynum) (ndigits : nat) : pynum :=
  match x with
  | PyBool b => PyInt (int_of_bool b)
  | PyInt z => PyInt z
  | PyFloat f => PyFloat (float_round f ndigits)
  end.

End Py.

(** ** Python strings, paths and base64 *)

Module PyStr.

Definition str_of_int (z : Z) : string := NilZero.string_of_int (Z.to_int z).

Definition len (s : string) : Z := Z.of_nat (String.length s).

(** [s[i:j]] for [0 <= i <= j]. *)
Definition slice (s : string) (i j : Z) : string :=
  substring (Z.to_nat i) (Z.to_nat (j - i)) s.

(** [str.lower()] on code points below 256: the ASCII capitals and the
    Latin-1 capitals (all of U+00C0..U+00DE but the multiplication sign). *)
Definition lower_char (c : ascii) : ascii :=
  let n := N_of_ascii c in
  if ((65 <=? n) && (n <=? 90))%N then ascii_of_N (n + 32)
  else if ((192 <=? n) && (n <=? 222) && negb (n =? 215))%N then ascii_of_N (n + 32)
  else c.

Fixpoint lower (s : string) : string :=
  match s with
  | EmptyString => EmptyString
  | String c r => String (lower_char c) (lower r)
  end.

(** [s.rfind(c)]: the highest index of [c] in [s], or [-1]. *)
Fixpoint rfind_from (c : ascii) (s : string) (i found : Z) : Z :=
  match s with
  | EmptyString => found
  | String a r => rfind_from c r (i + 1) (if Ascii.eqb a c then i else found)
  end.

Definition rfind (c : ascii) (s : string) : Z := rfind_from c s 0 (-1).

(** The loop of [genericpath._splitext] that skips leading dots: [true]
    when it meets a character other than the dot before [dotIndex], which
    is where the loop returns the split. *)
Fixpoint has_non_dot (seg : string) : bool :=
  match seg with
  | EmptyString => false
  | String a r => if Ascii.eqb a "."%char then has_non_dot r else true
  end.

(** [os.path.splitext] of [posixpath] (separator [/], no alternative
    separator, extension separator [.]). *)
Definition splitext (p : string) : string * string :=
  let sepIndex := rfind "/"%char p in
  let dotIndex := rfind "."%char p in
  if (dotIndex >? sepIndex) && has_non_dot (slice p (sepIndex + 1) dotIndex)
  then (slice p 0 dotIndex, slice p dotIndex (len p))
  else (p, EmptyString).

(** [x in l] for a list of strings. *)
Definition str_in (x : string) (l : list string) : bool :=
  existsb (String.eqb x) l.

(** [", ".join(parts)] on lists of pieces. *)
Fixpoint join {A} (sep : list A) (parts : list (list A)) : list A :=
  match parts with
  | [] => []
  | [p] => p
  | p :: rest => p ++ sep ++ join sep rest
  end.

(** *** [base64.b64encode] (RFC 4648, standard alphabet, padded) *)

Definition b64_alphabet : string :=
  "ABCDEFGHIJKLMNOPQRSTUVWXYZabcdefghijklmnopqrstuvwxyz0123456789+/".

Definition b64_char (n : N) : ascii :=
  match String.get (N.to_nat (N.land n 63)) b64_alphabet with
  | Some c => c
  | None => "="%char
  end.

Fixpoint b64encode (data : list Byte.byte) : string :=
  match data with
  | [] => EmptyString
  | [a] =>
      let n := (Byte.to_N a * 65536)%N in
      String (b64_char (N.shiftr n 18)) (String (b64_char (N.shiftr n 12)) "==")
  | [a; b] =>
      let n := (Byte.to_N a * 65536 + Byte.to_N b * 256)%N in
      String (b64_char (N.shiftr n 18)) (String (b64_char (N.shiftr n 12))
        (String (b64_char (N.shiftr n 6)) "="))
  | a :: b :: c :: rest =>
      let n := (Byte.to_N a * 65536 + Byte.to_N b * 256 + Byte.to_N c)%N in
      String (b64_char (N.shiftr n 18)) (String (b64_char (N.shiftr n 12))
        (String (b64_char (N.shiftr n 6)) (String (b64_char n) (b64encode rest))))
  end.

(** *** White space and [repr] on code points below 256 *)

(** [c.isspace()], the class [\s] of [re] on a [str]. *)
Definition is_space (c : ascii) : bool :=
  let n := N_of_ascii c in
  ((9 <=? n) && (n <=? 13) || (28 <=? n) && (n <=? 32) || (n =? 133) || (n =? 160))%N.

(** [c.isprintable()]. *)
Definition is_printable (c : ascii) : bool :=
  let n := N_of_ascii c in
  ((32 <=? n) && (n <=? 126) || (161 <=? n) && negb (n =? 173))%N.

Definition hex_digit (n : N) : ascii :=
  match String.get (N.to_nat (N.land n 15)) "0123456789abcdef" with
  | Some c => c
  | None => "0"%char
  end.

Definition backslash : ascii := ascii_of_N 92.
Definition single_quote : ascii := ascii_of_N 39.
Definition double_quote : ascii := ascii_of_N 34.

Fixpoint has_char (c : ascii) (s : string) : bool :=
  match s with
  | EmptyString => false
  | String a r => Ascii.eqb a c || has_char c r
  end.

(** One character of [repr(s)] inside the quote [q]. *)
Definition repr_char (q c : ascii) : string :=
  let n := N_of_ascii c in
  if Ascii.eqb c backslash || Ascii.eqb c q then String backslash (String c EmptyString)
  else if (n =? 9)%N then String backslash "t"
  else if (n =? 10)%N then String backslash "n"
  else if (n =? 13)%N then String backslash "r"
  else if is_printable c then String c EmptyString
  else String backslash (String "x"%char
         (String (hex_digit (N.shiftr n 4)) (String (hex_digit n) EmptyString))).

Fixpoint repr_chars (q : ascii) (s : string) : string :=
  match s with
  | EmptyString => EmptyString
  | String c r => (repr_char q c ++ repr_chars q r)%string
  end.

(** [repr(s)]: in single quotes, unless [s] has a single quote and no
    double one. *)
Definition py_repr (s : string) : string :=
  let q := if has_char single_quote s && negb (has_char double_quote s)
           then double_quote else single_quote in
  String q (repr_chars q s ++ String q EmptyString)%string.

End PyStr.

(** ** JSON values and exceptions *)

Module Json.
Import Py PyStr.

(** What [response.json()] returns: [true]/[false] and numbers are
    [JNum], objects are dicts in insertion order. *)
#[warnings="-register-all"]
Inductive json :=
| JNull
| JNum (n : pynum)
| JStr (s : string)
| JList (l : list json)
| JDict (d : list (string * json)).

Inductive pyerr :=
| TypeError | KeyError | IndexError | AttributeError | FileNotFoundError
| ValueError | OverflowError | OSError.

(** The exceptions the handler can meet: FastAPI's [HTTPException], the
    [requests] family ([ConnectionError], [Timeout], [HTTPError],
    [JSONDecodeError], [MissingSchema], [InvalidHeader], all subclasses of
    [RequestException]) with the message the library gave it, and the
    interpreter's own errors. *)
Inductive exn :=
| HTTPException (status_code : Z) (detail : string)
| RequestException (msg : string)
| PyError (kind : pyerr) (msg : string).

(** [str(e)].  Starlette prints an [HTTPException] as
    ["<status_code>: <detail>"]; the others print their message. *)
Definition exc_str (e : exn) : string :=
  match e with
  | HTTPException c d => (str_of_int c ++ ": " ++ d)%string
  | RequestException m => m
  | PyError _ m => m
  end.

Fixpoint dict_lookup {A} (k : string) (d : list (string * A)) : option A :=
  match d with
  | [] => None
  | (k', v) :: r => if String.eqb k k' then Some v else dict_lookup k r
  end.

(** [sub in s] for strings. *)
Fixpoint is_substring (sub s : string) : bool :=
  if String.prefix sub s then true
  else match s with
       | EmptyString => false
       | String _ r => is_substring sub r
       end.

Definition type_name (v : json) : string :=
  match v with
  | JNull => "NoneType"
  | JNum (PyBool _) => "bool"
  | JNum (PyInt _) => "int"
  | JNum (PyFloat _) => "float"
  | JStr _ => "str"
  | JList _ => "list"
  | JDict _ => "dict"
  end.

(** [key in v] for a string [key]. *)
Definition py_contains (key : string) (v : json) : exn + bool :=
  match v with
  | JDict d => inr (match dict_lookup key d with Some _ => true | None => false end)
  | JList l => inr (existsb (fun x => match x with JStr s => String.eqb s key | _ => false end) l)
  | JStr s => inr (is_substring key s)
  | _ => inl (PyError TypeError ("argument of type '" ++ type_name v ++ "' is not iterable")%string)
  end.

(** [v[key]] for a string [key]. *)
Definition py_getitem (v : json) (key : string) : exn + json :=
  match v with
  | JDict d =>
      match dict_lookup key d with
      | Some x => inr x
      | None => inl (PyError KeyError ("'" ++ key ++ "'")%string)
      end
  | JList _ => inl (PyError TypeError "list indices must be integers or slices, not str")
  | JStr _ => inl (PyError TypeError "string indices must be integers, not 'str'")
  | _ => inl (PyError TypeError ("'" ++ type_name v ++ "' object is not subscriptable")%string)
  end.

(** [len(v)]. *)
Definition py_len (v : json) : exn + Z :=
  match v with
  | JList l => inr (Z.of_nat (List.length l))
  | JDict d => inr (Z.of_nat (List.length d))
  | JStr s => inr (len s)
  | _ => inl (PyError TypeError ("object of type '" ++ type_name v ++ "' has no len()")%string)
  end.

(** [v[0]]. *)
Definition py_first (v : json) : exn + json :=
  match v with
  | JList (x :: _) => inr x
  | JList [] => inl (PyError IndexError "list index out of range")
  | JStr (String c _) => inr (JStr (String c EmptyString))
  | JStr EmptyString => inl (PyError IndexError "string index out of range")
  | JDict _ => inl (PyError KeyError "0")
  | _ => inl (PyError TypeError ("'" ++ type_name v ++ "' object is not subscriptable")%string)
  end.

(** [v.get(key, default)]: only a dict has the method. *)
Definition py_get (v : json) (key : string) (default : json) : exn + json :=
  match v with
  | JDict d => inr (match dict_lookup key d with Some x => x | None => default end)
  | _ => inl (PyError AttributeError ("'" ++ type_name v ++ "' object has no attribute 'get'")%string)
  end.

(** [v.items()]: only a dict has the method. *)
Definition py_items (v : json) : exn + list (string * json) :=
  match v with
  | JDict d => inr d
  | _ => inl (PyError AttributeError ("'" ++ type_name v ++ "' object has no attribute 'items'")%string)
  end.

End Json.

(** ** The world the handler acts on *)

Module Http.
Import Py PyStr Json.

Inductive payload :=
| JsonBody (j : json)
| DataBody (data : list Byte.byte).

(** A call handed to [requests]. *)
Record request := mkRequest {
  method : string;
  url : string;
  headers : list (string * string);
  body : payload;
  timeout : option Z
}.

(** What [requests] hands back: the status line and the outcome of
    [response.json()], either the decoded body or the message of the
    [JSONDecodeError] when the body is not JSON. *)
Record response := mkResponse {
  status_code : Z;
  reason : string;
  json_result : string + json
}.

(** The process environment: the API key variable, the vendor side of the
    network (a call either fails inside [requests], with the message of the
    exception, or yields a response) and the name [tempfile] picks for a
    suffix.  The answer is a function of the request: a run never sends the
    same request twice, so within a run this is no restriction; a statement
    that compares two runs takes the vendor to answer both alike, and says
    so.  The key is taken to be a token on one line, which [requests]
    accepts in the [Authorization] header. *)
Record env := mkEnv {
  NVIDIA_API_KEY : option string;
  network : request -> string + response;
  tmp_name : string -> string
}.

Record world := mkWorld {
  calls : list request;
  files : list (string * list Byte.byte)
}.

Definition empty_world : world := mkWorld [] [].

Definition M (A : Type) : Type := world -> world * (exn + A).

Definition ret {A} (a : A) : M A := fun w => (w, inr a).

Definition raise {A} (e : exn) : M A := fun w => (w, inl e).

Definition bind {A B} (m : M A) (k : A -> M B) : M B :=
  fun w => match m w with
           | (w1, inl e) => (w1, inl e)
           | (w1, inr a) => k a w1
           end.

Definition lift {A} (r : exn + A) : M A := fun w => (w, r).

(** [try: m finally: fin]. *)
Definition try_finally {A} (m : M A) (fin : M unit) : M A :=
  fun w => match m w with
           | (w1, r) =>
               match fin w1 with
               | (w2, inl e) => (w2, inl e)
               | (w2, inr _) => (w2, r)
               end
           end.

(** [try: m except Exception as e: h e]. *)
Definition try_except {A} (m : M A) (h : exn -> M A) : M A :=
  fun w => match m w with
           | (w1, inl e) => h e w1
           | (w1, inr a) => (w1, inr a)
           end.

Declare Scope py_scope.
Delimit Scope py_scope with py.
Notation "x <- m ;; k" := (bind m (fun x => k))
  (at level 61, m at next level, right associativity) : py_scope.
Notation "m ;;; k" := (bind m (fun _ => k))
  (at level 61, right associativity) : py_scope.

Local Open Scope py_scope.

(** *** Temporary files *)

Fixpoint remove_file (path : string) (fs : list (string * list Byte.byte)) :=
  match fs with
  | [] => []
  | (p, c) :: r => if String.eqb p path then remove_file path r else (p, c) :: remove_file path r
  end.

(** [with tempfile.NamedTemporaryFile(delete=False, suffix=...) as tmp:
    tmp.write(content); tmp_path = tmp.name], when the file can be created
    and written.  A failure of this step is not in [Http.world]; the
    handler is also given with the step left open
    ([Detector.detect_body_with]), which is where such a failure is
    followed. *)
Definition named_temporary_file (E : env) (suffix : string) (content : list Byte.byte)
  : M string :=
  fun w =>
    let path := tmp_name E suffix in
    (mkWorld (calls w) ((path, content) :: remove_file path (files w)), inr path).

(** [with open(path, "rb") as f: f.read()]. *)
Definition open_rb (path : string) : M (list Byte.byte) :=
  fun w => match dict_lookup path (files w) with
           | Some c => (w, inr c)
           | None => (w, inl (PyError FileNotFoundError
                        ("[Errno 2] No such file or directory: '" ++ path ++ "'")%string))
           end.

(** [if os.path.exists(path): os.remove(path)]. *)
Definition remove_if_exists (path : string) : M unit :=
  fun w => (mkWorld (calls w) (remove_file path (files w)), inr tt).

(** *** [requests] *)

Definition send (E : env) (rq : request) : M response :=
  fun w => (mkWorld (calls w ++ [rq]) (files w),
            match network E rq with
            | inl msg => inl (RequestException msg)
            | inr r => inr r
            end).

Definition requests_post (E : env) (u : string) (hs : list (string * string))
  (j : json) (t : option Z) : M response :=
  send E (mkRequest "POST" u hs (JsonBody j) t).

Definition requests_put (E : env) (u : string) (data : list Byte.byte)
  (hs : list (string * string)) (t : option Z) : M response :=
  send E (mkRequest "PUT" u hs (DataBody data) t).

(** [response.raise_for_status()]: an [HTTPError] on a 4xx or 5xx status. *)
Definition raise_for_status (u : string) (r : response) : M unit :=
  let c := status_code r in
  if ((400 <=? c) && (c <? 500))%Z then
    raise (RequestException
      (str_of_int c ++ " Client Error: " ++ reason r ++ " for url: " ++ u)%string)
  else if ((500 <=? c) && (c <? 600))%Z then
    raise (RequestException
      (str_of_int c ++ " Server Error: " ++ reason r ++ " for url: " ++ u)%string)
  else ret tt.

(** [response.json()]. *)
Definition response_json (r : response) : M json :=
  match json_result r with
  | inl msg => raise (RequestException msg)
  | inr j => ret j
  end.

End Http.

(** ** The relay: [upload_asset] and [detect_deepfake] *)

Module Detector.
Import Py PyStr Json Http.
Local Open Scope py_scope.

Definition ebind {A B} (r : exn + A) (k : A -> exn + B) : exn + B :=
  match r with
  | inl e => inl e
  | inr a => k a
  end.

Notation "x <-- r ;; k" := (ebind r (fun x => k))
  (at level 61, r at next level, right associativity) : py_scope.

(** The pieces of an f-string: literal text, [{n}] and [{n:.2f}]. *)
Inductive fpart :=
| FLit (s : string)
| FStr (n : pynum)
| FFix2 (n : pynum).

(** Evaluating a piece.  [{n:.2f}] converts an [int] to a float first and
    raises [OverflowError] when it is too large for one; [{n}] is [str(n)],
    which raises [ValueError] for an [int] of more than 4300 digits
    (CPython 3.11, and the releases since 3.7.14 that carry the limit).  A
    float always prints. *)
Definition max_str_digits : Z := 4300.

Definition fix2_prints (n : pynum) : bool :=
  match n with
  | PyInt z => negb (PrimFloat.is_infinity (float_of_int z))
  | _ => true
  end.

Definition str_prints (n : pynum) : bool :=
  match n with
  | PyInt z => (Z.abs z <? 10 ^ max_str_digits)%Z
  | _ => true
  end.

Definition digits_error : exn :=
  PyError ValueError
    "Exceeds the limit (4300 digits) for integer string conversion; use sys.set_int_max_str_digits() to increase the limit".

Definition formatted_piece (p : fpart) : exn + unit :=
  match p with
  | FLit _ => inr tt
  | FStr n => if str_prints n then inr tt else inl digits_error
  | FFix2 n =>
      if fix2_prints n then inr tt
      else inl (PyError OverflowError "int too large to convert to float")
  end.

(** The evaluation of an f-string, piece by piece from the left: the first
    piece that raises ends it. *)
Fixpoint formatted (l : list fpart) : exn + unit :=
  match l with
  | [] => inr tt
  | p :: r => _ <-- formatted_piece p ;; formatted r
  end.

(** [sorted(items, key=lambda x: x[1], reverse=True)] on pairs whose second
    component is a number: descending keys, equal keys in their original
    order.  This is Python's order whenever no key is a NaN.  With a NaN
    among the keys no order by weight exists, and the list Python returns
    is whatever its sorting algorithm leaves; the arrangement computed here
    is then not claimed to be Python's beyond the cases evaluated below, and
    the properties of the ranking are stated for keys without NaN. *)
Fixpoint insert_desc (x : string * pynum) (l : list (string * pynum)) :=
  match l with
  | [] => [x]
  | y :: r => if py_lt (snd x) (snd y) then y :: insert_desc x r else x :: y :: r
  end.

Fixpoint sorted_reverse (l : list (string * pynum)) : list (string * pynum) :=
  match l with
  | [] => []
  | x :: r => insert_desc x (sorted_reverse r)
  end.

(** The items of the source mapping with their weights read as numbers.  A
    weight that is not a number always makes the handler raise: in the sort
    when it is compared with a weight of another kind, or, where the sort
    goes through (a single source, or weights that are all strings or all
    lists), when it is multiplied or formatted for the sources message.
    That an exception is raised is exact; its type and text are rendered by
    the [TypeError] of a comparison with a float, and nothing below depends
    on them. *)
Fixpoint numeric_items (l : list (string * json)) : exn + list (string * pynum) :=
  match l with
  | [] => inr []
  | (k, JNum n) :: r => r' <-- numeric_items r ;; inr ((k, n) :: r')
  | (k, v) :: _ =>
      inl (PyError TypeError
        ("'<' not supported between instances of '" ++ type_name v ++ "' and 'float'")%string)
  end.

(** The score as the operand of [score * 100] and [round]. *)
Definition as_number (v : json) : exn + pynum :=
  match v with
  | JNum n => inr n
  | JStr _ | JList _ =>
      inl (PyError TypeError ("type " ++ type_name v ++ " doesn't define __round__ method")%string)
  | _ =>
      inl (PyError TypeError
        ("unsupported operand type(s) for *: '" ++ type_name v ++ "' and 'int'")%string)
  end.

Record UploadFile := mkUploadFile {
  filename : string;
  content : list Byte.byte
}.

(** The dict the handler returns. *)
Record verdict := mkVerdict {
  v_filename : string;
  is_ai_generated : bool;
  confidence : pynum;
  confidence_score : pynum;
  threshold : float;
  status : string;
  message : list fpart;
  top_sources : list (string * pynum);
  sources_message : list fpart
}.

Definition INVOKE_URL : string :=
  "https://ai.api.nvidia.com/v1/cv/hive/ai-generated-image-detection".
Definition ASSETS_URL : string := "https://api.nvcf.nvidia.com/v2/nvcf/assets".

(** The default of the [threshold] parameter: the binary64 value of the
    literal [0.016]. *)
Definition default_threshold : float := 0x1.0624dd2f1a9fcp-6%float.

Definition threshold_ok (t : float) : bool :=
  py_le (PyInt 0) (PyFloat t) && py_le (PyFloat t) (PyInt 1).

Definition extension (name : string) : string := lower (snd (splitext name)).

Definition extension_ok (ext : string) : bool :=
  str_in ext [".jpg"; ".jpeg"; ".png"].

(** [if 'data' in result and len(result['data']) > 0]. *)
Definition has_results (result : json) : exn + bool :=
  c <-- py_contains "data" result ;;
  if c then
    d <-- py_getitem result "data" ;;
    n <-- py_len d ;;
    inr (n >? 0)%Z
  else inr false.

(** Lines 161-184: the returned dict, from the score and the weighted
    sources, the two f-strings kept as their pieces.  Whether the pieces
    can be evaluated is checked by [normalize] before the dict is
    returned. *)
Definition make_verdict (name : string) (t : float) (score : pynum)
  (weighted : list (string * pynum)) : verdict :=
  let top := firstn 3 (sorted_reverse weighted) in
  let confidence_percentage := py_round (py_mul score (PyInt 100)) 2 in
  let confidence_score := py_round score 3 in
  let sources :=
    join [FLit ", "]
      (map (fun x => [FLit (fst x); FLit " ("; FFix2 (py_mul (snd x) (PyInt 100)); FLit "%)"])
         top) in
  let flagged := py_gt score (PyFloat t) in
  mkVerdict name flagged confidence_percentage confidence_score t "success"
    [FLit "This image is "; FLit (if flagged then "likely" else "unlikely");
     FLit " to be AI-generated with "; FStr confidence_percentage;
     FLit "% confidence (threshold: "; FStr (PyFloat t); FLit ")"]
    top
    (FLit "Top sources: " :: sources).

(** Lines 155-189: the verdict computed from the vendor's JSON. *)
Definition normalize (name : string) (t : float) (result : json) : exn + verdict :=
  ok <-- has_results result ;;
  if ok then
    d <-- py_getitem result "data" ;;
    detection_data <-- py_first d ;;
    ai_generated_score <-- py_get detection_data "is_ai_generated" (JNum (PyInt 0)) ;;
    possible_sources <-- py_get detection_data "possible_sources" (JDict []) ;;
    items <-- py_items possible_sources ;;
    weighted <-- numeric_items items ;;
    score <-- as_number ai_generated_score ;;
    let v := make_verdict name t score weighted in
    _ <-- formatted (sources_message v) ;;
    _ <-- formatted (message v) ;;
    inr v
  else inl (HTTPException 500 "Invalid response format from NVIDIA API").

Section Relay.

Variable E : env.

(** [f"Bearer {os.getenv('NVIDIA_API_KEY')}"], computed when the module is
    loaded. *)
Definition HEADER_AUTH : string :=
  ("Bearer " ++ match NVIDIA_API_KEY E with Some k => k | None => "None" end)%string.

(** [os.getenv('NVIDIA_API_KEY')] is truthy. *)
Definition api_key_set : bool :=
  match NVIDIA_API_KEY E with
  | Some (String _ _) => true
  | _ => false
  end.

(** The URL of a call is a string; [requests] rejects anything else before
    it sends.  What it makes of the string (scheme, host) is part of the
    answer of [network]. *)
Definition as_url (v : json) : exn + string :=
  match v with
  | JStr u => inr u
  | _ => inl (RequestException "Invalid URL: No scheme supplied")
  end.

(** [str(v)] raises: some [int] inside [v] has more than 4300 digits. *)
Fixpoint str_raises (v : json) : bool :=
  match v with
  | JNum n => negb (str_prints n)
  | JList l =>
      (fix any (l : list json) : bool :=
         match l with
         | [] => false
         | x :: r => str_raises x || any r
         end) l
  | JDict d =>
      (fix any (d : list (string * json)) : bool :=
         match d with
         | [] => false
         | (_, x) :: r => str_raises x || any r
         end) d
  | _ => false
  end.

(** The pattern of [requests] for a header value given as a [str],
    [^\S[^\r\n]*$|^$], matched at the start: the value is empty or a lone
    line feed, or it starts with a character that is not white space and
    has no carriage return and no line feed but a final one. *)
Fixpoint line_tail (s : string) : bool :=
  match s with
  | EmptyString => true
  | String c EmptyString => negb (N_of_ascii c =? 13)%N
  | String c r => negb ((N_of_ascii c =? 10) || (N_of_ascii c =? 13))%N && line_tail r
  end.

Definition header_value_ok (s : string) : bool :=
  match s with
  | EmptyString => true
  | String c r =>
      negb (is_space c) && line_tail r
      || String.eqb s (String (ascii_of_N 10) EmptyString)
  end.

(** What the asset id contributes to the scoring request (lines 137-147):
    its text [str(asset_id)] in the input reference, and the value of the
    companion header.  [requests] checks the headers when it prepares the
    call, before anything is sent: a string that matches its pattern is
    sent as it is, a header whose value is [None] is dropped, and
    [InvalidHeader] is raised for any other string and for a value of any
    other type; the text of a value that is no string is then never seen,
    unless computing it has raised already.  The message for a value of
    another type, which goes on to quote the value and its type, is given
    by its constant part. *)
Definition as_header_value (v : json) : exn + (string * option string) :=
  match v with
  | JStr s =>
      if header_value_ok s then inr (s, Some s)
      else inl (RequestException
                  ("Invalid leading whitespace, reserved character(s), or return character(s) in header value: "
                   ++ py_repr s)%string)
  | JNull => inr ("None", None)
  | _ =>
      if str_raises v then inl digits_error
      else inl (RequestException "Header part must be of type str or bytes")
  end.

Definition upload_asset (path desc mime_type : string) : M json :=
  let headers := [("Content-Type", "application/json");
                  ("Authorization", HEADER_AUTH);
                  ("accept", "application/json")] in
  let payload := JDict [("contentType", JStr mime_type); ("description", JStr desc)] in
  response <- requests_post E ASSETS_URL headers payload (Some 30) ;;
  raise_for_status ASSETS_URL response ;;;
  j <- response_json response ;;
  current_pre_signed_url <- lift (py_getitem j "uploadUrl") ;;
  asset_id <- lift (py_getitem j "assetId") ;;
  let headers_put := [("Content-Type", mime_type);
                      ("x-amz-meta-nvcf-asset-description", desc)] in
  input_data <- open_rb path ;;
  u <- lift (as_url current_pre_signed_url) ;;
  upload_response <- requests_put E u input_data headers_put (Some 300) ;;
  raise_for_status u upload_response ;;;
  ret asset_id.

(** Lines 124-144: the body and the headers of the scoring request. *)
Definition build_request (tmp_path mime_type image_b64 : string)
  : M (json * list (string * string)) :=
  if (len image_b64 <? 180000)%Z then
    ret (JDict [("input", JList [JStr ("data:" ++ mime_type ++ ";base64," ++ image_b64)%string])],
         [("Content-Type", "application/json");
          ("Authorization", HEADER_AUTH);
          ("Accept", "application/json")])
  else
    asset <- upload_asset tmp_path "Input Image" mime_type ;;
    asset_id <- lift (as_header_value asset) ;;
    ret (JDict [("input",
                 JList [JStr ("data:" ++ mime_type ++ ";asset_id," ++ fst asset_id)%string])],
         ("Content-Type", "application/json")
         :: match snd asset_id with
            | Some v => [("NVCF-INPUT-ASSET-REFERENCES", v)]
            | None => []
            end
         ++ [("Authorization", HEADER_AUTH)]).

(** Lines 104-152: from the MIME type to the decoded vendor response. *)
Definition fetch_result (ext tmp_path : string) : M json :=
  let mime_type := if str_in ext [".jpg"; ".jpeg"] then "image/jpeg" else "image/png" in
  data <- open_rb tmp_path ;;
  let image_b64 := b64encode data in
  if negb api_key_set then
    raise (HTTPException 500 "Server configuration error: NVIDIA API key not set")
  else
  rq <- build_request tmp_path mime_type image_b64 ;;
  response <- requests_post E INVOKE_URL (snd rq) (fst rq) None ;;
  raise_for_status INVOKE_URL response ;;;
  response_json response.

(** Lines 77-195: the body of the outer [try], with the step of lines
    96-100 (creating the temporary file, reading the upload and writing it)
    left open: [stage] is given the suffix and the content and returns the
    path, or raises.  The inner [try] starts only after it. *)
Definition detect_body_with (stage : string -> list Byte.byte -> M string)
  (file : UploadFile) (t : float) : M verdict :=
  if negb (threshold_ok t) then
    raise (HTTPException 400 "Threshold must be between 0 and 1")
  else
  let ext := extension (filename file) in
  if negb (extension_ok ext) then
    raise (HTTPException 400 "Invalid file type. Only jpg, jpeg, and png are supported.")
  else
  tmp_path <- stage ext (content file) ;;
  try_finally
    (result <- fetch_result ext tmp_path ;;
     lift (normalize (filename file) t result))
    (remove_if_exists tmp_path).

(** The body when the temporary file can be created and written. *)
Definition detect_body (file : UploadFile) (t : float) : M verdict :=
  detect_body_with (named_temporary_file E) file t.

(** The handler: every exception of the body is re-raised as a 500 whose
    detail is [str(e)]. *)
Definition detect_deepfake_with (stage : string -> list Byte.byte -> M string)
  (file : UploadFile) (t : float) : M verdict :=
  try_except (detect_body_with stage file t)
    (fun e => raise (HTTPException 500 (exc_str e))).

Definition detect_deepfake (file : UploadFile) (t : float) : M verdict :=
  detect_deepfake_with (named_temporary_file E) file t.

(** The route [POST /detect]: [threshold] is optional and defaults to
    [0.016]. *)
Definition post_detect (file : UploadFile) (t : option float) : M verdict :=
  detect_deepfake file (match t with Some x => x | None => default_threshold end).

(** The run of the handler up to the decoded vendor response (lines 95-152
    after a passed validation). *)
Definition vendor_result (file : UploadFile) : M json :=
  let ext := extension (filename file) in
  tmp_path <- named_temporary_file E ext (content file) ;;
  fetch_result ext tmp_path.

End Relay.

End Detector.

(** * Properties *)

(** ** The order on Python numbers *)

Module PyFacts.
Import Py.

Lemma xcompare_antisym (a b : xval) (c : comparison) :
  xcompare a b = Some c -> xcompare b a = Some (CompOpp c).
Proof.
  destruct a as [|[]|p], b as [|[]|q]; simpl; intros H;
    try discriminate; try (injection H as <-; reflexivity).
  injection H as <-. now rewrite Qcompare_antisym.
Qed.

Lemma xcompare_defined (a b : xval) :
  a <> XNaN -> b <> XNaN -> exists c, xcompare a b = Some c.
Proof.
  destruct a as [|[]|p], b as [|[]|q]; simpl; intros Ha Hb;
    try congruence; eauto.
Qed.

Lemma py_gt_lt (a b : pynum) : py_gt a b = py_lt b a.
Proof.
  unfold py_gt, py_lt, py_compare.
  destruct (xcompare (num_val a) (num_val b)) as [c|] eqn:H.
  - rewrite (xcompare_antisym _ _ _ H). now destruct c.
  - destruct (xcompare (num_val b) (num_val a)) as [c|] eqn:H'; [|reflexivity].
    apply xcompare_antisym in H'. congruence.
Qed.

Lemma py_ge_le (a b : pynum) : py_ge a b = py_le b a.
Proof.
  unfold py_ge, py_le, py_compare.
  destruct (xcompare (num_val a) (num_val b)) as [c|] eqn:H.
  - rewrite (xcompare_antisym _ _ _ H). now destruct c.
  - destruct (xcompare (num_val b) (num_val a)) as [c|] eqn:H'; [|reflexivity].
    apply xcompare_antisym in H'. congruence.
Qed.

(** Strictness: a number is above another only when it is neither equal
    to it nor below it. *)
Lemma py_gt_strict (a b : pynum) :
  py_gt a b = true -> py_compare a b <> Some Eq /\ py_lt a b = false.
Proof.
  unfold py_gt, py_lt. destruct (py_compare a b) as [[]|]; intros H;
    try discriminate; split; congruence.
Qed.

Lemma py_gt_false_of_eq (a b : pynum) :
  py_compare a b = Some Eq -> py_gt a b = false.
Proof. unfold py_gt. now intros ->. Qed.

Lemma py_gt_false_of_lt (a b : pynum) : py_lt a b = true -> py_gt a b = false.
Proof.
  unfold py_gt, py_lt. now destruct (py_compare a b) as [[]|].
Qed.

Lemma py_lt_false_ge (a b : pynum) :
  is_nan_num a = false -> is_nan_num b = false ->
  py_lt a b = false -> py_ge a b = true.
Proof.
  unfold is_nan_num, py_lt, py_ge, py_compare. intros Ha Hb.
  destruct (xcompare_defined (num_val a) (num_val b)) as [c Hc].
  - intros E. now rewrite E in Ha.
  - intros E. now rewrite E in Hb.
  - rewrite Hc. now destruct c.
Qed.

Lemma py_lt_ge (a b : pynum) : py_lt a b = true -> py_ge b a = true.
Proof.
  rewrite py_ge_le. unfold py_lt, py_le. now destruct (py_compare a b) as [[]|].
Qed.

(** The order on the extended rationals behind [xcompare]. *)
Definition xle (a b : xval) : Prop :=
  match xcompare a b with
  | Some Lt | Some Eq => True
  | _ => False
  end.

Lemma xcompare_fin (p q : Q) : xcompare (XFin p) (XFin q) = Some (p ?= q)%Q.
Proof. reflexivity. Qed.

Lemma xle_trans (a b c : xval) : xle a b -> xle b c -> xle a c.
Proof.
  unfold xle.
  destruct a as [|[]|p], b as [|[]|q], c as [|[]|r];
    try (simpl; tauto).
  rewrite !xcompare_fin.
  destruct (p ?= q)%Q eqn:H1; try tauto;
    destruct (q ?= r)%Q eqn:H2; try tauto; intros _ _.
  - apply Qeq_alt in H1, H2.
    assert (H : (p == r)%Q) by (now rewrite H1).
    now rewrite (proj1 (Qeq_alt _ _) H).
  - apply Qeq_alt in H1. apply Qlt_alt in H2.
    assert (H : (p < r)%Q) by (now rewrite H1).
    now rewrite (proj1 (Qlt_alt _ _) H).
  - apply Qlt_alt in H1. apply Qeq_alt in H2.
    assert (H : (p < r)%Q) by (now rewrite <- H2).
    now rewrite (proj1 (Qlt_alt _ _) H).
  - apply Qlt_alt in H1, H2.
    assert (H : (p < r)%Q) by (eapply Qlt_trans; eauto).
    now rewrite (proj1 (Qlt_alt _ _) H).
Qed.

Lemma py_le_xle (a b : pynum) : py_le a b = true <-> xle (num_val a) (num_val b).
Proof.
  unfold py_le, py_compare, xle.
  destruct (xcompare (num_val a) (num_val b)) as [[]|]; intuition discriminate.
Qed.

Lemma py_ge_trans (a b c : pynum) :
  py_ge a b = true -> py_ge b c = true -> py_ge a c = true.
Proof.
  rewrite !py_ge_le, !py_le_xle. intros H1 H2. eapply xle_trans; eauto.
Qed.

(** Two numbers equal to a third are not strictly ordered. *)
Lemma py_lt_not_both_eq (a b w : pynum) :
  py_lt a b = true ->
  py_compare a w = Some Eq -> py_compare b w = Some Eq -> False.
Proof.
  unfold py_lt, py_compare.
  destruct (num_val a) as [|[]|p], (num_val b) as [|[]|q], (num_val w) as [|[]|r];
    try (simpl; discriminate).
  rewrite !xcompare_fin.
  destruct (p ?= q)%Q eqn:H; try discriminate. intros _ H1 H2.
  injection H1 as H1. injection H2 as H2.
  apply Qeq_alt in H1, H2. apply Qlt_alt in H.
  rewrite H1, H2 in H. now apply Qlt_irrefl in H.
Qed.

End PyFacts.

(** ** Comparisons of floats are those of the hardware *)

Module FloatBridge.
Import Py PyFacts.
Local Open Scope Z_scope.

Definition mag (m : positive) (e : Z) : Q := (inject_Z (Zpos m) * 2 ^ e)%Q.

Lemma two_power_pos (e : Z) : (0 < 2 ^ e)%Q.
Proof. now apply Qpower_0_lt. Qed.

Lemma mag_pos m e : (0 < mag m e)%Q.
Proof.
  unfold mag. apply Qmult_lt_0_compat; [reflexivity|apply two_power_pos].
Qed.

Lemma dyadic_mag s m e :
  (dyadic s m e == if s then - mag m e else mag m e)%Q.
Proof.
  assert (H : (dyadic false m e == mag m e)%Q).
  { unfold dyadic, mag. destruct e as [|p|p].
    - cbn [Qpower]. now rewrite Qmult_1_r.
    - rewrite inject_Z_mult. apply Qmult_comp; [reflexivity|].
      change (Z.pow_pos 2 p) with (2 ^ Zpos p). now rewrite Zpower_Qpower.
    - rewrite Qmake_Qdiv. unfold Qdiv. apply Qmult_comp; [reflexivity|].
      change (2 ^ Zneg p)%Q with (/ 2 ^ Zpos p)%Q.
      apply Qinv_comp. rewrite Pos2Z.inj_pow. now rewrite Zpower_Qpower. }
  destruct s; [|exact H].
  rewrite <- H. unfold dyadic. destruct e as [|p|p].
  - reflexivity.
  - change (Zneg m) with (- Zpos m). now rewrite Z.mul_opp_l, inject_Z_opp.
  - reflexivity.
Qed.

Lemma digits2_pos_bounds (m : positive) :
  2 ^ (Zpos (digits2_pos m) - 1) <= Zpos m < 2 ^ Zpos (digits2_pos m).
Proof.
  induction m as [p IH|p IH|]; cbn [digits2_pos]; [| |cbn; lia].
  - rewrite Pos2Z.inj_succ, Z.pow_succ_r by lia.
    replace (Z.succ (Zpos (digits2_pos p)) - 1) with (Z.succ (Zpos (digits2_pos p) - 1))
      by lia.
    rewrite Z.pow_succ_r by lia. lia.
  - rewrite Pos2Z.inj_succ, Z.pow_succ_r by lia.
    replace (Z.succ (Zpos (digits2_pos p)) - 1) with (Z.succ (Zpos (digits2_pos p) - 1))
      by lia.
    rewrite Z.pow_succ_r by lia. lia.
Qed.

(** A canonical mantissa has at most 53 bits, and exactly 53 above the
    smallest exponent. *)
Lemma canonical_bounds (m : positive) (e : Z) :
  canonical_mantissa prec emax m e = true ->
  Zpos m < 2 ^ 53 /\ (-1074 <= e) /\ (-1074 < e -> 2 ^ 52 <= Zpos m).
Proof.
  unfold canonical_mantissa, fexp, SpecFloat.emin, prec, emax.
  intros H. apply Z.eqb_eq in H.
  pose proof (digits2_pos_bounds m) as [Hlo Hhi].
  assert (Hd : Zpos (digits2_pos m) <= 53) by lia.
  repeat split.
  - eapply Z.lt_le_trans; [exact Hhi|]. apply Z.pow_le_mono_r; lia.
  - lia.
  - intros He. assert (Zpos (digits2_pos m) = 53) by lia.
    replace 52 with (Zpos (digits2_pos m) - 1) by lia. exact Hlo.
Qed.

Lemma mag_lt_exponent (m1 m2 : positive) (e1 e2 : Z) :
  e1 < e2 -> Zpos m1 < 2 ^ 53 -> 2 ^ 52 <= Zpos m2 ->
  (mag m1 e1 < mag m2 e2)%Q.
Proof.
  intros He H1 H2. unfold mag.
  apply Qlt_le_trans with (inject_Z (2 ^ 53) * 2 ^ e1)%Q.
  { apply Qmult_lt_compat_r; [apply two_power_pos|]. now rewrite <- Zlt_Qlt. }
  apply Qle_trans with (inject_Z (2 ^ 52) * 2 ^ e2)%Q.
  - apply Qle_trans with (inject_Z (2 ^ 52) * 2 ^ (e1 + 1))%Q.
    + rewrite Qpower_plus by discriminate.
      change (2 ^ 53)%Z with (2 ^ 52 * 2)%Z. rewrite inject_Z_mult.
      change (2 ^ 1)%Q with (inject_Z 2). 
      rewrite (Qmult_comm (2 ^ e1)), Qmult_assoc. apply Qle_refl.
    + apply Qmult_le_l; [reflexivity|].
      apply Qpower_le_compat_l; [lia|discriminate].
  - apply Qmult_le_compat_r; [now rewrite <- Zle_Qle|].
    apply Qlt_le_weak, two_power_pos.
Qed.

Lemma mag_compare (m1 m2 : positive) (e1 e2 : Z) :
  canonical_mantissa prec emax m1 e1 = true ->
  canonical_mantissa prec emax m2 e2 = true ->
  (mag m1 e1 ?= mag m2 e2)%Q =
  match e1 ?= e2 with
  | Lt => Lt
  | Gt => Gt
  | Eq => Pos.compare_cont Eq m1 m2
  end.
Proof.
  intros C1 C2.
  destruct (canonical_bounds _ _ C1) as (U1 & L1 & N1).
  destruct (canonical_bounds _ _ C2) as (U2 & L2 & N2).
  destruct (Z.compare_spec e1 e2) as [->|He|He].
  - change (Pos.compare_cont Eq m1 m2) with (Zpos m1 ?= Zpos m2).
    unfold mag.
    destruct (Z.compare_spec (Zpos m1) (Zpos m2)) as [Hm|Hm|Hm].
    + apply Qeq_alt. injection Hm as ->. reflexivity.
    + apply Qlt_alt. apply Qmult_lt_compat_r; [apply two_power_pos|].
      now rewrite <- Zlt_Qlt.
    + apply Qgt_alt. apply Qmult_lt_compat_r; [apply two_power_pos|].
      now rewrite <- Zlt_Qlt.
  - apply Qlt_alt. apply mag_lt_exponent; auto. apply N2. lia.
  - apply Qgt_alt. apply mag_lt_exponent; auto. apply N1. lia.
Qed.

Lemma Qcompare_opp (a b : Q) : (- a ?= - b)%Q = (b ?= a)%Q.
Proof.
  unfold Qcompare. cbn [Qnum Qden Qopp].
  rewrite !Z.mul_opp_l. now rewrite Z.compare_opp.
Qed.

Lemma Qcompare_neg_pos (a b : Q) : (0 < a)%Q -> (0 < b)%Q -> (- a ?= b)%Q = Lt.
Proof.
  intros Ha Hb. apply Qlt_alt. apply Qlt_trans with 0%Q; [|assumption].
  change 0%Q with (- 0)%Q. now apply Qopp_lt_compat.
Qed.

(** On valid binary64 values, the comparison of the format is the
    comparison of the exact values. *)
Lemma sf_compare_val (a b : spec_float) :
  valid_binary a = true -> valid_binary b = true ->
  SFcompare a b = xcompare (sf_val a) (sf_val b).
Proof.
  destruct a as [sa|sa| |sa ma ea], b as [sb|sb| |sb mb eb];
    cbn [SpecFloat.valid_binary SFcompare sf_val]; intros Va Vb;
    try reflexivity; try (now destruct sa); try (now destruct sb);
    try (now destruct sa, sb).
  - (* zero, finite *)
    rewrite xcompare_fin. f_equal. rewrite (dyadic_mag sb mb eb).
    destruct sb.
    + symmetry. apply Qgt_alt. change 0%Q with (- 0)%Q.
      apply Qopp_lt_compat, mag_pos.
    + symmetry. apply Qlt_alt, mag_pos.
  - (* finite, zero *)
    rewrite xcompare_fin. f_equal. rewrite (dyadic_mag sa ma ea).
    destruct sa.
    + symmetry. apply Qlt_alt. change 0%Q with (- 0)%Q.
      apply Qopp_lt_compat, mag_pos.
    + symmetry. apply Qgt_alt, mag_pos.
  - (* finite, finite *)
    unfold bounded in Va, Vb. apply andb_prop in Va, Vb.
    destruct Va as [Ca _], Vb as [Cb _].
    rewrite xcompare_fin. f_equal.
    rewrite (dyadic_mag sa ma ea), (dyadic_mag sb mb eb).
    destruct sa, sb.
    + rewrite Qcompare_opp, (mag_compare _ _ _ _ Cb Ca).
      rewrite (Z.compare_antisym eb ea).
      destruct (eb ?= ea); cbn [CompOpp]; try reflexivity.
      change (Pos.compare_cont Eq ma mb) with (Pos.compare ma mb).
      change (Pos.compare_cont Eq mb ma) with (Pos.compare mb ma).
      now rewrite (Pos.compare_antisym mb ma), CompOpp_involutive.
    + symmetry. apply Qcompare_neg_pos; apply mag_pos.
    + symmetry. rewrite <- Qcompare_antisym.
      rewrite Qcompare_neg_pos; [reflexivity|apply mag_pos|apply mag_pos].
    + now rewrite (mag_compare _ _ _ _ Ca Cb).
Qed.

Lemma py_compare_float (x y : float) :
  py_compare (PyFloat x) (PyFloat y) = SFcompare (Prim2SF x) (Prim2SF y).
Proof.
  unfold py_compare, num_val, float_val.
  now rewrite sf_compare_val by apply Prim2SF_valid.
Qed.

(** For two floats the comparisons are those of the hardware. *)
Lemma py_lt_float (x y : float) : py_lt (PyFloat x) (PyFloat y) = (x <? y)%float.
Proof. unfold py_lt. now rewrite ltb_spec, py_compare_float. Qed.

Lemma py_le_float (x y : float) : py_le (PyFloat x) (PyFloat y) = (x <=? y)%float.
Proof. unfold py_le. now rewrite leb_spec, py_compare_float. Qed.

Lemma py_gt_float (x y : float) : py_gt (PyFloat x) (PyFloat y) = (y <? x)%float.
Proof. now rewrite py_gt_lt, py_lt_float. Qed.

Lemma xcompare_Qeq (p p' q q' : Q) :
  (p == p')%Q -> (q == q')%Q ->
  xcompare (XFin p) (XFin q) = xcompare (XFin p') (XFin q').
Proof. intros Hp Hq. rewrite !xcompare_fin. now rewrite Hp, Hq. Qed.

(** The check of line 81 compares the threshold with the integers 0 and
    1; it is the check against the floats [0.0] and [1.0]. *)
Lemma py_le_zero_float (t : float) : py_le (PyInt 0) (PyFloat t) = (0 <=? t)%float.
Proof. rewrite <- py_le_float. reflexivity. Qed.

Lemma py_le_float_one (t : float) : py_le (PyFloat t) (PyInt 1) = (t <=? 1)%float.
Proof.
  assert (H1 : float_val 1 = XFin (dyadic false 4503599627370496 (-52)))
    by (vm_compute; reflexivity).
  rewrite <- py_le_float. unfold py_le, py_compare.
  cbn [num_val]. rewrite H1.
  destruct (float_val t) as [|s|q]; try reflexivity.
  now rewrite (xcompare_Qeq q q (inject_Z 1) (dyadic false 4503599627370496 (-52))).
Qed.

End FloatBridge.

(** ** The length of a base64 encoding *)

Module Base64Facts.
Import PyStr.

Lemma list_ind3 {A} (P : list A -> Prop) :
  P [] -> (forall a, P [a]) -> (forall a b, P [a; b]) ->
  (forall a b c r, P r -> P (a :: b :: c :: r)) ->
  forall l, P l.
Proof.
  intros H0 H1 H2 H3 l.
  enough (H : P l /\ (forall a, P (a :: l)) /\ (forall a b, P (a :: b :: l)))
    by apply H.
  induction l as [|c r (IH0 & IH1 & IH2)]; repeat split; auto.
Qed.

(** Every three bytes, the last group padded, give four characters. *)
Lemma b64encode_length (data : list Byte.byte) :
  len (b64encode data) = 4 * ((Z.of_nat (length data) + 2) / 3).
Proof.
  unfold len. induction data as [|a|a b|a b c r IH] using list_ind3;
    try reflexivity.
  cbn [b64encode String.length length].
  rewrite !Nat2Z.inj_succ, IH.
  replace (Z.succ (Z.succ (Z.succ (Z.of_nat (length r)))) + 2)
    with (Z.of_nat (length r) + 2 + 1 * 3) by lia.
  rewrite Z.div_add by lia. lia.
Qed.

(** In bytes: the encoding stays under 180,000 characters exactly for
    uploads of at most 134,997 bytes. *)
Lemma b64encode_below_threshold (data : list Byte.byte) :
  len (b64encode data) < 180000 <-> Z.of_nat (length data) <= 134997.
Proof.
  rewrite b64encode_length.
  pose proof (Z.div_mod (Z.of_nat (length data) + 2) 3 ltac:(lia)) as Hd.
  pose proof (Z.mod_pos_bound (Z.of_nat (length data) + 2) 3 ltac:(lia)) as Hm.
  split; intros H; lia.
Qed.

End Base64Facts.

(** ** The ranking of the sources *)

Module RankFacts.
Import Py PyFacts Detector.

Definition weight_ge (a b : string * pynum) : Prop := py_ge (snd a) (snd b) = true.

(** The pairs whose weight equals [w]. *)
Definition same_weight (w : pynum) (p : string * pynum) : bool :=
  match py_compare (snd p) w with
  | Some Eq => true
  | _ => false
  end.

Definition no_nan (l : list (string * pynum)) : Prop :=
  Forall (fun p => is_nan_num (snd p) = false) l.

Lemma insert_desc_perm x l : Permutation (insert_desc x l) (x :: l).
Proof.
  induction l as [|y r IH]; simpl; [reflexivity|].
  destruct (py_lt (snd x) (snd y)); [|reflexivity].
  rewrite IH. apply perm_swap.
Qed.

Lemma sorted_reverse_perm l : Permutation (sorted_reverse l) l.
Proof.
  induction l as [|x r IH]; simpl; [reflexivity|].
  rewrite insert_desc_perm. now constructor.
Qed.

Lemma sorted_reverse_length l : length (sorted_reverse l) = length l.
Proof. apply Permutation_length, sorted_reverse_perm. Qed.

Lemma no_nan_perm l l' : Permutation l l' -> no_nan l -> no_nan l'.
Proof. intros H. unfold no_nan. now rewrite H. Qed.

Lemma insert_desc_sorted x l :
  is_nan_num (snd x) = false -> no_nan l ->
  StronglySorted weight_ge l -> StronglySorted weight_ge (insert_desc x l).
Proof.
  intros Hx Hl Hs. induction Hs as [|y r Hs IH Hy]; simpl.
  - repeat constructor.
  - inversion Hl as [|? ? Hny Hnr]; subst.
    destruct (py_lt (snd x) (snd y)) eqn:Hlt.
    + constructor; [now apply IH|].
      apply (Permutation_Forall (Permutation_sym (insert_desc_perm x r))).
      constructor; [|assumption]. now apply py_lt_ge.
    + assert (Hxy : weight_ge x y) by (now apply py_lt_false_ge).
      constructor; [now constructor|].
      constructor; [assumption|].
      eapply Forall_impl; [|exact Hy].
      intros z Hz. unfold weight_ge in *. eapply py_ge_trans; eauto.
Qed.

Lemma sorted_reverse_sorted l :
  no_nan l -> StronglySorted weight_ge (sorted_reverse l).
Proof.
  induction l as [|x r IH]; simpl; intros H; [constructor|].
  inversion H; subst. apply insert_desc_sorted; auto.
  eapply no_nan_perm; [|eassumption]. symmetry. apply sorted_reverse_perm.
Qed.

Lemma insert_desc_filter w x l :
  filter (same_weight w) (insert_desc x l) = filter (same_weight w) (x :: l).
Proof.
  induction l as [|y r IH]; [reflexivity|].
  cbn [insert_desc]. destruct (py_lt (snd x) (snd y)) eqn:Hlt; [|reflexivity].
  cbn [filter] in *. rewrite IH.
  destruct (same_weight w x) eqn:Hx, (same_weight w y) eqn:Hy; try reflexivity.
  exfalso. unfold same_weight in Hx, Hy.
  destruct (py_compare (snd x) w) as [[]|] eqn:Ex; try discriminate.
  destruct (py_compare (snd y) w) as [[]|] eqn:Ey; try discriminate.
  eapply py_lt_not_both_eq; eauto.
Qed.

(** Stability: the pairs of any one weight keep their original order. *)
Lemma sorted_reverse_stable w l :
  filter (same_weight w) (sorted_reverse l) = filter (same_weight w) l.
Proof.
  induction l as [|x r IH]; [reflexivity|].
  cbn [sorted_reverse]. rewrite insert_desc_filter. cbn [filter]. now rewrite IH.
Qed.

Lemma py_ge_refl (a : pynum) : is_nan_num a = false -> py_ge a a = true.
Proof.
  unfold is_nan_num, py_ge, py_compare.
  destruct (num_val a) as [|[]|p]; try reflexivity; try discriminate.
  intros _. rewrite xcompare_fin.
  now rewrite (proj1 (Qeq_alt p p) (Qeq_refl p)).
Qed.

Lemma py_ge_antisym (a b : pynum) :
  py_ge a b = true -> py_ge b a = true -> py_compare a b = Some Eq.
Proof.
  rewrite (py_ge_le b a). unfold py_ge, py_le.
  now destruct (py_compare a b) as [[]|].
Qed.

(** A descending, stable arrangement of a list is unique: two of them
    that rearrange one another and agree on the order within every weight
    are the same list. *)
Lemma stable_sorted_unique (s s' : list (string * pynum)) :
  no_nan s ->
  Permutation s s' ->
  StronglySorted weight_ge s -> StronglySorted weight_ge s' ->
  (forall w, filter (same_weight w) s = filter (same_weight w) s') ->
  s = s'.
Proof.
  revert s'. induction s as [|h t IH]; intros s' Hn Hp Hs Hs' Hf.
  - now apply Permutation_nil in Hp.
  - destruct s' as [|h' t'].
    { apply Permutation_sym, Permutation_nil in Hp. discriminate. }
    inversion Hn as [|? ? Hnh Hnt]; subst.
    inversion Hs as [|? ? Hst Hht]; subst.
    inversion Hs' as [|? ? Hst' Hht']; subst.
    assert (Hn' : no_nan (h' :: t')) by (eapply no_nan_perm; eauto).
    inversion Hn' as [|? ? Hnh' Hnt']; subst.
    assert (G1 : weight_ge h h').
    { assert (Hin : In h' (h :: t)).
      { eapply Permutation_in; [apply Permutation_sym; exact Hp|now left]. }
      destruct Hin as [->|Hin]; [now apply py_ge_refl|].
      rewrite Forall_forall in Hht. now apply Hht. }
    assert (G2 : weight_ge h' h).
    { assert (Hin : In h (h' :: t')).
      { eapply Permutation_in; [exact Hp|now left]. }
      destruct Hin as [->|Hin]; [now apply py_ge_refl|].
      rewrite Forall_forall in Hht'. now apply Hht'. }
    assert (Heq : h = h').
    { assert (E1 : same_weight (snd h) h = true).
      { unfold same_weight.
        now rewrite (py_ge_antisym _ _ (py_ge_refl _ Hnh) (py_ge_refl _ Hnh)). }
      assert (E2 : same_weight (snd h) h' = true).
      { unfold same_weight. now rewrite (py_ge_antisym _ _ G2 G1). }
      specialize (Hf (snd h)). cbn [filter] in Hf.
      rewrite E1, E2 in Hf. congruence. }
    subst h'. f_equal. apply IH; auto.
    + eapply Permutation_cons_inv; eauto.
    + intros w. specialize (Hf w). cbn [filter] in Hf.
      destruct (same_weight w h); congruence.
Qed.

(** So the ranking the handler computes is the one descending stable
    arrangement of the weighted sources. *)
Lemma sorted_reverse_unique (l s : list (string * pynum)) :
  no_nan l ->
  Permutation s l ->
  StronglySorted weight_ge s ->
  (forall w, filter (same_weight w) s = filter (same_weight w) l) ->
  s = sorted_reverse l.
Proof.
  intros Hn Hp Hs Hf. apply stable_sorted_unique; auto.
  - eapply no_nan_perm; [|exact Hn]. now symmetry.
  - rewrite Hp. symmetry. apply sorted_reverse_perm.
  - now apply sorted_reverse_sorted.
  - intros w. now rewrite sorted_reverse_stable.
Qed.

End RankFacts.

(** ** Runs of the handler *)

Module RunFacts.
Import Py PyStr Json Http Detector.
Local Open Scope py_scope.

Definition mime_type_of (ext : string) : string :=
  if str_in ext [".jpg"; ".jpeg"] then "image/jpeg" else "image/png".

(** The world once the upload has been written to its temporary file. *)
Definition staged (E : env) (file : UploadFile) (w : world) : world :=
  let path := tmp_name E (extension (filename file)) in
  mkWorld (calls w) ((path, content file) :: remove_file path (files w)).

(** The world once the [finally] clause has removed the temporary file. *)
Definition cleaned (E : env) (file : UploadFile) (w : world) : world :=
  mkWorld (calls w) (remove_file (tmp_name E (extension (filename file))) (files w)).

(** What the outer [except] makes of an outcome of the body. *)
Definition reported {A} (r : exn + A) : exn + A :=
  match r with
  | inl e => inl (HTTPException 500 (exc_str e))
  | inr a => inr a
  end.

Definition scoring_request (rq : json * list (string * string)) : request :=
  mkRequest "POST" INVOKE_URL (snd rq) (JsonBody (fst rq)) None.

(** The outcome of [raise_for_status] followed by [json()] on a response
    to a call to [u]. *)
Definition checked_json (u : string) (r : string + response) : exn + json :=
  match r with
  | inl msg => inl (RequestException msg)
  | inr resp =>
      let c := status_code resp in
      if ((400 <=? c) && (c <? 500))%Z then
        inl (RequestException
          (str_of_int c ++ " Client Error: " ++ reason resp ++ " for url: " ++ u)%string)
      else if ((500 <=? c) && (c <? 600))%Z then
        inl (RequestException
          (str_of_int c ++ " Server Error: " ++ reason resp ++ " for url: " ++ u)%string)
      else match json_result resp with
           | inl msg => inl (RequestException msg)
           | inr j => inr j
           end
  end.

(** The outcome of [raise_for_status] alone. *)
Definition checked_status (u : string) (r : string + response) : exn + response :=
  match r with
  | inl msg => inl (RequestException msg)
  | inr resp =>
      let c := status_code resp in
      if ((400 <=? c) && (c <? 500))%Z then
        inl (RequestException
          (str_of_int c ++ " Client Error: " ++ reason resp ++ " for url: " ++ u)%string)
      else if ((500 <=? c) && (c <? 600))%Z then
        inl (RequestException
          (str_of_int c ++ " Server Error: " ++ reason resp ++ " for url: " ++ u)%string)
      else inr resp
  end.

Definition reserve_request (E : env) (mime_type desc : string) : request :=
  mkRequest "POST" ASSETS_URL
    [("Content-Type", "application/json");
     ("Authorization", HEADER_AUTH E);
     ("accept", "application/json")]
    (JsonBody (JDict [("contentType", JStr mime_type); ("description", JStr desc)]))
    (Some 30).

Definition transfer_request (u mime_type desc : string) (data : list Byte.byte) : request :=
  mkRequest "PUT" u
    [("Content-Type", mime_type); ("x-amz-meta-nvcf-asset-description", desc)]
    (DataBody data) (Some 300).

(** The requests of the two strategies. *)
Definition inline_submission (E : env) (mime_type image_b64 : string)
  : json * list (string * string) :=
  (JDict [("input", JList [JStr ("data:" ++ mime_type ++ ";base64," ++ image_b64)%string])],
   [("Content-Type", "application/json");
    ("Authorization", HEADER_AUTH E);
    ("Accept", "application/json")]).

Definition asset_submission (E : env) (mime_type asset_id : string)
  : json * list (string * string) :=
  (JDict [("input", JList [JStr ("data:" ++ mime_type ++ ";asset_id," ++ asset_id)%string])],
   [("Content-Type", "application/json");
    ("NVCF-INPUT-ASSET-REFERENCES", asset_id);
    ("Authorization", HEADER_AUTH E)]).

(** The scoring request of the asset strategy for what [as_header_value]
    made of the asset id: its text and the header, if one is sent. *)
Definition referenced_submission (E : env) (mime_type : string)
  (ref : string * option string) : json * list (string * string) :=
  (JDict [("input", JList [JStr ("data:" ++ mime_type ++ ";asset_id," ++ fst ref)%string])],
   ("Content-Type", "application/json")
   :: match snd ref with
      | Some v => [("NVCF-INPUT-ASSET-REFERENCES", v)]
      | None => []
      end
   ++ [("Authorization", HEADER_AUTH E)]).

(** The scoring request sent when the reserved asset id is [None]. *)
Definition unnamed_submission (E : env) (mime_type : string)
  : json * list (string * string) :=
  (JDict [("input", JList [JStr ("data:" ++ mime_type ++ ";asset_id,None")%string])],
   [("Content-Type", "application/json");
    ("Authorization", HEADER_AUTH E)]).

Definition last_call (l : list request) : option request :=
  match rev l with
  | [] => None
  | rq :: _ => Some rq
  end.

Definition sent (w : world) (rq : request) : world :=
  mkWorld (calls w ++ [rq]) (files w).

Lemma dict_lookup_head {A} (k : string) (v : A) (d : list (string * A)) :
  dict_lookup k ((k, v) :: d) = Some v.
Proof. simpl. now rewrite String.eqb_refl. Qed.

Lemma upload_asset_run (E : env) (path desc mime_type : string) (w : world) :
  upload_asset E path desc mime_type w =
  let reserve := reserve_request E mime_type desc in
  let w1 := sent w reserve in
  match checked_json ASSETS_URL (network E reserve) with
  | inl e => (w1, inl e)
  | inr j =>
      match py_getitem j "uploadUrl" with
      | inl e => (w1, inl e)
      | inr location =>
          match py_getitem j "assetId" with
          | inl e => (w1, inl e)
          | inr asset =>
              match dict_lookup path (files w) with
              | None =>
                  (w1, inl (PyError FileNotFoundError
                     ("[Errno 2] No such file or directory: '" ++ path ++ "'")%string))
              | Some data =>
                  match as_url location with
                  | inl e => (w1, inl e)
                  | inr u =>
                      let transfer := transfer_request u mime_type desc data in
                      (sent w1 transfer,
                       match checked_status u (network E transfer) with
                       | inl e => inl e
                       | inr _ => inr asset
                       end)
                  end
              end
          end
      end
  end.
Proof.
  unfold upload_asset, bind, requests_post, requests_put, send, raise_for_status,
    response_json, open_rb, lift, raise, ret, checked_json, checked_status, sent.
  cbn zeta. fold (reserve_request E mime_type desc).
  destruct (network E (reserve_request E mime_type desc)) as [msg|resp]; [reflexivity|].
  destruct ((400 <=? status_code resp) && (status_code resp <? 500))%Z; [reflexivity|].
  destruct ((500 <=? status_code resp) && (status_code resp <? 600))%Z; [reflexivity|].
  destruct (json_result resp) as [msg|j]; [reflexivity|].
  destruct (py_getitem j "uploadUrl") as [e|location]; [reflexivity|].
  destruct (py_getitem j "assetId") as [e|asset]; [reflexivity|].
  cbn [files]. destruct (dict_lookup path (files w)) as [data|]; [|reflexivity].
  destruct (as_url location) as [e|u]; [reflexivity|].
  cbn [calls files]. fold (transfer_request u mime_type desc data).
  destruct (network E (transfer_request u mime_type desc data)) as [msg|resp2];
    [reflexivity|].
  destruct ((400 <=? status_code resp2) && (status_code resp2 <? 500))%Z; [reflexivity|].
  now destruct ((500 <=? status_code resp2) && (status_code resp2 <? 600))%Z.
Qed.

Lemma build_request_run (E : env) (path mime_type image_b64 : string) (w : world) :
  build_request E path mime_type image_b64 w =
  if (len image_b64 <? 180000)%Z then
    (w, inr (inline_submission E mime_type image_b64))
  else
    match upload_asset E path "Input Image" mime_type w with
    | (w1, inl e) => (w1, inl e)
    | (w1, inr asset) =>
        match as_header_value asset with
        | inl e => (w1, inl e)
        | inr ref => (w1, inr (referenced_submission E mime_type ref))
        end
    end.
Proof.
  unfold build_request.
  destruct (len image_b64 <? 180000)%Z; [reflexivity|].
  unfold bind, lift, ret.
  destruct (upload_asset _ _ _ _ _) as [w1 [e|asset]]; [reflexivity|].
  now destruct (as_header_value asset).
Qed.

Lemma vendor_result_run (E : env) (file : UploadFile) (w : world) :
  vendor_result E file w =
  let ext := extension (filename file) in
  let w1 := staged E file w in
  if negb (api_key_set E) then
    (w1, inl (HTTPException 500 "Server configuration error: NVIDIA API key not set"))
  else
    match build_request E (tmp_name E ext) (mime_type_of ext) (b64encode (content file)) w1 with
    | (w2, inl e) => (w2, inl e)
    | (w2, inr rq) =>
        (mkWorld (calls w2 ++ [scoring_request rq]) (files w2),
         checked_json INVOKE_URL (network E (scoring_request rq)))
    end.
Proof.
  unfold vendor_result, fetch_result, bind at 1, named_temporary_file.
  cbn zeta. unfold bind at 1, open_rb. cbn [files]. rewrite dict_lookup_head.
  fold (staged E file w). fold (mime_type_of (extension (filename file))).
  destruct (negb (api_key_set E)); [reflexivity|].
  unfold bind at 1.
  destruct (build_request _ _ _ _ _) as [w2 [e|rq]]; [reflexivity|].
  unfold bind, requests_post, send, scoring_request, checked_json, raise_for_status,
    response_json, raise, ret.
  destruct (network E _) as [msg|resp]; [reflexivity|].
  destruct ((400 <=? status_code resp) && (status_code resp <? 500))%Z; [reflexivity|].
  destruct ((500 <=? status_code resp) && (status_code resp <? 600))%Z; [reflexivity|].
  now destruct (json_result resp).
Qed.

Lemma referenced_named (E : env) (mime_type asset_id : string) :
  referenced_submission E mime_type (asset_id, Some asset_id)
  = asset_submission E mime_type asset_id.
Proof. reflexivity. Qed.

Lemma referenced_unnamed (E : env) (mime_type : string) :
  referenced_submission E mime_type ("None", None) = unnamed_submission E mime_type.
Proof. reflexivity. Qed.

(** What [as_header_value] returns: the id itself when it is a string fit
    for a header, the text [None] and no header when it is [None]. *)
Lemma as_header_value_inv (asset : json) (ref : string * option string) :
  as_header_value asset = inr ref ->
  (exists asset_id,
     asset = JStr asset_id /\ header_value_ok asset_id = true /\
     ref = (asset_id, Some asset_id)) \/
  (asset = JNull /\ ref = ("None", None)).
Proof.
  destruct asset as [|n|s|l|d]; cbn [as_header_value].
  - intros [= <-]. now right.
  - destruct (str_raises (JNum n)); discriminate.
  - destruct (header_value_ok s) eqn:Hs; [|discriminate].
    intros [= <-]. left. now exists s.
  - destruct (str_raises (JList l)); discriminate.
  - destruct (str_raises (JDict d)); discriminate.
Qed.

Lemma as_header_value_str (s : string) :
  header_value_ok s = true -> as_header_value (JStr s) = inr (s, Some s).
Proof. intros H. cbn [as_header_value]. now rewrite H. Qed.

Lemma detect_body_run (E : env) (file : UploadFile) (t : float) (w : world) :
  detect_body E file t w =
  if negb (threshold_ok t) then
    (w, inl (HTTPException 400 "Threshold must be between 0 and 1"))
  else if negb (extension_ok (extension (filename file))) then
    (w, inl (HTTPException 400
               "Invalid file type. Only jpg, jpeg, and png are supported."))
  else
    (cleaned E file (fst (vendor_result E file w)),
     ebind (snd (vendor_result E file w)) (normalize (filename file) t)).
Proof.
  unfold detect_body, detect_body_with.
  destruct (negb (threshold_ok t)); [reflexivity|].
  destruct (negb (extension_ok _)); [reflexivity|].
  unfold vendor_result, bind at 1 3 4, named_temporary_file, try_finally, bind, lift,
    remove_if_exists, cleaned.
  cbn zeta.
  now destruct (fetch_result _ _ _ _) as [w1 [e|result]].
Qed.

Lemma detect_deepfake_body (E : env) (file : UploadFile) (t : float) (w : world) :
  detect_deepfake E file t w =
  (fst (detect_body E file t w), reported (snd (detect_body E file t w))).
Proof.
  unfold detect_deepfake, detect_deepfake_with, try_except, raise.
  fold (detect_body E file t).
  now destruct (detect_body E file t w) as [w1 [e|v]].
Qed.

Lemma detect_deepfake_run (E : env) (file : UploadFile) (t : float) (w : world) :
  detect_deepfake E file t w =
  if negb (threshold_ok t) then
    (w, inl (HTTPException 500 "400: Threshold must be between 0 and 1"))
  else if negb (extension_ok (extension (filename file))) then
    (w, inl (HTTPException 500
               "400: Invalid file type. Only jpg, jpeg, and png are supported."))
  else
    (cleaned E file (fst (vendor_result E file w)),
     reported (ebind (snd (vendor_result E file w)) (normalize (filename file) t))).
Proof.
  rewrite detect_deepfake_body, detect_body_run.
  destruct (negb (threshold_ok t)); [reflexivity|].
  now destruct (negb (extension_ok _)).
Qed.

(** A vendor call went through: [requests] returned a response and
    [raise_for_status] accepted it. *)
Definition call_succeeded (E : env) (rq : request) : Prop :=
  exists resp, network E rq = inr resp /\
    ((400 <=? status_code resp) && (status_code resp <? 600))%Z = false.

(** The scoring calls: the POSTs to the detection endpoint. *)
Definition is_scoring_call (rq : request) : bool :=
  String.eqb (method rq) "POST" && String.eqb (url rq) INVOKE_URL.

Lemma status_ranges (c : Z) :
  ((400 <=? c) && (c <? 500))%Z = false ->
  ((500 <=? c) && (c <? 600))%Z = false ->
  ((400 <=? c) && (c <? 600))%Z = false.
Proof.
  rewrite !andb_false_iff, !Z.leb_gt, !Z.ltb_ge. lia.
Qed.

Lemma checked_status_ok (E : env) (rq : request) (u : string) (resp : response) :
  checked_status u (network E rq) = inr resp -> call_succeeded E rq.
Proof.
  unfold checked_status, call_succeeded.
  destruct (network E rq) as [msg|r]; [discriminate|].
  destruct ((400 <=? status_code r) && (status_code r <? 500))%Z eqn:H4; [discriminate|].
  destruct ((500 <=? status_code r) && (status_code r <? 600))%Z eqn:H5; [discriminate|].
  intros _. exists r. split; [reflexivity|]. now apply status_ranges.
Qed.

Lemma checked_json_ok (E : env) (rq : request) (u : string) (j : json) :
  checked_json u (network E rq) = inr j -> call_succeeded E rq.
Proof.
  unfold checked_json, call_succeeded.
  destruct (network E rq) as [msg|r]; [discriminate|].
  destruct ((400 <=? status_code r) && (status_code r <? 500))%Z eqn:H4; [discriminate|].
  destruct ((500 <=? status_code r) && (status_code r <? 600))%Z eqn:H5; [discriminate|].
  intros _. exists r. split; [reflexivity|]. now apply status_ranges.
Qed.

(** The calls of an upload: the reservation, then, once the reservation
    has been read, the transfer; the asset is returned only after both went
    through. *)
Lemma upload_asset_trace (E : env) (path desc mime_type : string) (w w1 : world)
  (r : exn + json) :
  upload_asset E path desc mime_type w = (w1, r) ->
  files w1 = files w /\
  match r with
  | inl e =>
      calls w1 = calls w ++ [reserve_request E mime_type desc] \/
      exists u data,
        dict_lookup path (files w) = Some data /\
        calls w1 = calls w ++ [reserve_request E mime_type desc;
                               transfer_request u mime_type desc data]
  | inr asset =>
      exists u data,
        dict_lookup path (files w) = Some data /\
        calls w1 = calls w ++ [reserve_request E mime_type desc;
                               transfer_request u mime_type desc data] /\
        call_succeeded E (reserve_request E mime_type desc) /\
        call_succeeded E (transfer_request u mime_type desc data)
  end.
Proof.
  rewrite upload_asset_run. cbn zeta.
  destruct (checked_json ASSETS_URL _) as [e|j] eqn:Hj;
    [intros [= <- <-]; split; [reflexivity|now left]|].
  destruct (py_getitem j "uploadUrl") as [e|location];
    [intros [= <- <-]; split; [reflexivity|now left]|].
  destruct (py_getitem j "assetId") as [e|asset];
    [intros [= <- <-]; split; [reflexivity|now left]|].
  destruct (dict_lookup path (files w)) as [data|] eqn:Hdata;
    [|intros [= <- <-]; split; [reflexivity|now left]].
  destruct (as_url location) as [e|u];
    [intros [= <- <-]; split; [reflexivity|now left]|].
  intros [= <- <-]. split; [reflexivity|].
  assert (Hc : calls (sent (sent w (reserve_request E mime_type desc))
                        (transfer_request u mime_type desc data))
               = calls w ++ [reserve_request E mime_type desc;
                             transfer_request u mime_type desc data]).
  { cbn [sent calls]. now rewrite <- app_assoc. }
  destruct (checked_status u _) as [e|resp] eqn:Hs.
  - right. now exists u, data.
  - exists u, data. repeat split; auto.
    + eapply checked_json_ok; eauto.
    + eapply checked_status_ok; eauto.
Qed.

Lemma detect_calls (E : env) (file : UploadFile) (t : float) (w : world) :
  threshold_ok t = true ->
  extension_ok (extension (filename file)) = true ->
  calls (fst (detect_deepfake E file t w)) = calls (fst (vendor_result E file w)).
Proof.
  intros Ht Hx. now rewrite detect_deepfake_run, Ht, Hx.
Qed.

Lemma staged_lookup (E : env) (file : UploadFile) (w : world) :
  dict_lookup (tmp_name E (extension (filename file))) (files (staged E file w))
  = Some (content file).
Proof. unfold staged. cbn [files]. apply dict_lookup_head. Qed.

End RunFacts.

(** ** Reading the vendor response *)

Module NormalizeFacts.
Import Py PyStr Json Http Detector.
Local Open Scope py_scope.

(** The first entry of the result container [data], when the response is
    an object whose [data] is a list that starts with an object. *)
Definition detection_of (result : json) : option (list (string * json)) :=
  match result with
  | JDict d =>
      match dict_lookup "data" d with
      | Some (JList (JDict dd :: _)) => Some dd
      | _ => None
      end
  | _ => None
  end.


Definition score_field (dd : list (string * json)) : json :=
  match dict_lookup "is_ai_generated" dd with
  | Some x => x
  | None => JNum (PyInt 0)
  end.

Definition sources_field (dd : list (string * json)) : json :=
  match dict_lookup "possible_sources" dd with
  | Some x => x
  | None => JDict []
  end.

(** The score and the three weights that are formatted can be printed:
    no weight among the top three is an [int] whose hundredfold is too large
    for a float, and the score is not an [int] whose hundredfold has more
    than 4300 digits. *)
Definition printable (score : pynum) (weighted : list (string * pynum)) : bool :=
  forallb (fun x => fix2_prints (py_mul (snd x) (PyInt 100)))
          (firstn 3 (sorted_reverse weighted))
  && str_prints (py_round (py_mul score (PyInt 100)) 2).

(** The detection can be turned into a verdict: the source mapping is
    absent or maps labels to numbers, the score is absent or a number, and
    they can be printed. *)
Definition renderable (dd : list (string * json)) : Prop :=
  exists items weighted score,
    sources_field dd = JDict items /\ numeric_items items = inr weighted /\
    score_field dd = JNum score /\ printable score weighted = true.

(** No weight of the source mapping is a NaN: the weights are then ordered,
    and the arrangement of [sorted_reverse] is the one Python returns. *)
Definition nan_free (dd : list (string * json)) : Prop :=
  forall items weighted,
    sources_field dd = JDict items -> numeric_items items = inr weighted ->
    RankFacts.no_nan weighted.

Definition read_detection (name : string) (t : float) (dd : list (string * json))
  : exn + verdict :=
  items <-- py_items (sources_field dd) ;;
  weighted <-- numeric_items items ;;
  score <-- as_number (score_field dd) ;;
  let v := make_verdict name t score weighted in
  _ <-- formatted (sources_message v) ;;
  _ <-- formatted (message v) ;;
  inr v.

Definition piece_prints (p : fpart) : bool :=
  match p with
  | FLit _ => true
  | FStr n => str_prints n
  | FFix2 n => fix2_prints n
  end.

Lemma forallb_map_comp {A B} (f : B -> bool) (g : A -> B) (l : list A) :
  forallb f (map g l) = forallb (fun x => f (g x)) l.
Proof. induction l as [|x r IH]; [reflexivity|]. cbn. now rewrite IH. Qed.

Lemma forallb_pointwise {A} (f g : A -> bool) (l : list A) :
  (forall x, f x = g x) -> forallb f l = forallb g l.
Proof. intros H. induction l as [|x r IH]; [reflexivity|]. cbn. now rewrite H, IH. Qed.

Lemma in_firstn {A} (n : nat) (l : list A) (x : A) : In x (firstn n l) -> In x l.
Proof.
  revert l. induction n as [|n IH]; intros [|y r]; cbn; try tauto.
  intros [->|H]; [now left|right; now apply IH].
Qed.

Lemma formatted_prints (l : list fpart) :
  formatted l = inr tt <-> forallb piece_prints l = true.
Proof.
  induction l as [|p r IH]; [now split|].
  cbn [formatted forallb]. rewrite andb_true_iff, <- IH.
  destruct p as [s|n|n]; cbn [formatted_piece piece_prints ebind].
  - tauto.
  - destruct (str_prints n); cbn [ebind]; [tauto|]. split; [discriminate|intros [[=] _]].
  - destruct (fix2_prints n); cbn [ebind]; [tauto|]. split; [discriminate|intros [[=] _]].
Qed.

Lemma formatted_unit (l : list fpart) (u : unit) :
  formatted l = inr u -> formatted l = inr tt.
Proof. now destruct u. Qed.

Lemma forallb_join (sep : list fpart) (parts : list (list fpart)) :
  forallb piece_prints sep = true ->
  forallb piece_prints (join sep parts) = forallb (forallb piece_prints) parts.
Proof.
  intros Hsep. induction parts as [|p r IH]; [reflexivity|].
  destruct r as [|q r'].
  - cbn [join forallb]. now rewrite andb_true_r.
  - change (join sep (p :: q :: r')) with (p ++ sep ++ join sep (q :: r')).
    rewrite !forallb_app, Hsep, IH. reflexivity.
Qed.

(** The two f-strings of a verdict can be evaluated exactly when score and
    weights are printable. *)
Lemma verdict_prints (name : string) (t : float) (score : pynum)
  (weighted : list (string * pynum)) :
  let v := make_verdict name t score weighted in
  (formatted (sources_message v) = inr tt /\ formatted (message v) = inr tt)
  <-> printable score weighted = true.
Proof.
  cbn zeta. rewrite !formatted_prints. unfold printable, make_verdict.
  cbn [sources_message message forallb piece_prints]. rewrite forallb_join by reflexivity.
  rewrite forallb_map_comp, !andb_true_r.
  rewrite (forallb_pointwise _ (fun x => fix2_prints (py_mul (snd x) (PyInt 100))))
    by (intros x; cbn [forallb piece_prints]; now rewrite andb_true_r).
  cbn [andb]. rewrite andb_true_iff. tauto.
Qed.

Lemma normalize_detection name t result dd :
  detection_of result = Some dd ->
  normalize name t result = read_detection name t dd.
Proof.
  unfold detection_of. destruct result as [| | | |d]; try discriminate.
  destruct (dict_lookup "data" d) as [[| | |[|[| | | |dd'] rest]|]|] eqn:Hd;
    try discriminate.
  intros [= ->].
  unfold normalize, has_results, ebind, py_contains, py_getitem. rewrite Hd.
  cbn [py_len]. cbn [length]. rewrite Nat2Z.inj_succ.
  destruct (Z.succ (Z.of_nat (length rest)) >? 0)%Z eqn:Hpos.
  - reflexivity.
  - exfalso. rewrite Z.gtb_ltb, Z.ltb_ge in Hpos. lia.
Qed.

Lemma normalize_verdict_inv name t result v :
  normalize name t result = inr v ->
  exists dd, detection_of result = Some dd /\ read_detection name t dd = inr v.
Proof.
  intros H.
  destruct (detection_of result) as [dd|] eqn:Hdet.
  - exists dd. split; [reflexivity|]. now rewrite <- (normalize_detection _ _ _ _ Hdet).
  - exfalso. revert H Hdet. unfold normalize, has_results, detection_of, ebind.
    destruct result as [| | |l|d]; cbn [py_contains py_getitem]; try discriminate.
    + destruct (is_substring "data" s); discriminate.
    + destruct (existsb _ l); discriminate.
    + destruct (dict_lookup "data" d) as [dv|]; [|discriminate].
      destruct dv as [|n|s|[|x rest]|dv]; cbn [py_len py_first]; try discriminate.
      * destruct (len s >? 0)%Z; [|discriminate]. destruct s; discriminate.
      * destruct (Z.of_nat (length (x :: rest)) >? 0)%Z; [|discriminate].
        destruct x; cbn [py_get]; discriminate.
      * destruct (Z.of_nat (length dv) >? 0)%Z; discriminate.
Qed.


Lemma read_detection_printable name t dd items weighted score :
  sources_field dd = JDict items ->
  numeric_items items = inr weighted ->
  score_field dd = JNum score ->
  printable score weighted = true ->
  read_detection name t dd = inr (make_verdict name t score weighted).
Proof.
  intros Hs Hn Hsc Hp.
  apply (verdict_prints name t) in Hp. cbn zeta in Hp. destruct Hp as [H1 H2].
  unfold read_detection, ebind. rewrite Hs, Hsc. cbn [py_items as_number].
  rewrite Hn. cbn zeta. now rewrite H1, H2.
Qed.

Lemma read_detection_inv name t dd v :
  read_detection name t dd = inr v ->
  exists items weighted score,
    sources_field dd = JDict items /\ numeric_items items = inr weighted /\
    score_field dd = JNum score /\ printable score weighted = true /\
    v = make_verdict name t score weighted.
Proof.
  unfold read_detection, ebind.
  destruct (sources_field dd) as [| | | |items]; cbn [py_items]; try discriminate.
  destruct (numeric_items items) as [e|weighted] eqn:Hn; [discriminate|].
  destruct (score_field dd) as [|score| | |]; cbn [as_number]; try discriminate.
  cbn zeta.
  destruct (formatted (sources_message _)) as [e|u1] eqn:H1; [discriminate|].
  destruct (formatted (message _)) as [e|u2] eqn:H2; [discriminate|].
  intros [= <-]. exists items, weighted, score. repeat split; auto.
  apply (verdict_prints name t). cbn zeta.
  split; eapply formatted_unit; eauto.
Qed.

(** A verdict is read off a detection exactly when it is renderable. *)
Lemma read_detection_returns name t dd :
  (exists v, read_detection name t dd = inr v) <-> renderable dd.
Proof.
  split.
  - intros [v Hv]. apply read_detection_inv in Hv.
    destruct Hv as (items & weighted & score & Hs & Hn & Hsc & Hp & _).
    now exists items, weighted, score.
  - intros (items & weighted & score & Hs & Hn & Hsc & Hp).
    eexists. eapply read_detection_printable; eauto.
Qed.

(** Weights and a score that are floats can always be printed. *)
Lemma printable_floats (score : pynum) (weighted : list (string * pynum)) :
  Forall (fun x => exists f, snd x = PyFloat f) weighted ->
  (exists f, score = PyFloat f) ->
  printable score weighted = true.
Proof.
  intros Hw [f ->]. unfold printable. rewrite andb_true_r.
  apply forallb_forall. intros x Hx.
  assert (Hin : In x weighted).
  { apply (Permutation_in x (RankFacts.sorted_reverse_perm weighted)).
    eapply in_firstn; eauto. }
  rewrite Forall_forall in Hw. destruct (Hw x Hin) as [g ->]. reflexivity.
Qed.

(** A mapping from labels to numbers, as the vendor sends it. *)
Definition as_mapping (weighted : list (string * pynum)) : json :=
  JDict (map (fun p => (fst p, JNum (snd p))) weighted).

Lemma numeric_items_map (weighted : list (string * pynum)) :
  numeric_items (map (fun p => (fst p, JNum (snd p))) weighted) = inr weighted.
Proof.
  induction weighted as [|[k n] r IH]; [reflexivity|].
  cbn [map fst snd numeric_items]. rewrite IH. reflexivity.
Qed.

Lemma numeric_items_inv (items : list (string * json)) (weighted : list (string * pynum)) :
  numeric_items items = inr weighted ->
  items = map (fun p => (fst p, JNum (snd p))) weighted.
Proof.
  revert weighted. induction items as [|[k v] r IH]; intros weighted.
  - now intros [= <-].
  - destruct v as [|n| | |]; cbn [numeric_items]; try discriminate.
    unfold ebind. destruct (numeric_items r) as [e|r'] eqn:Hr; [discriminate|].
    intros [= <-]. cbn [map fst snd]. now rewrite (IH r').
Qed.

End NormalizeFacts.

(** ** The exceptions of each stage *)

Module ErrorFacts.
Import Py PyStr Json Http Detector RunFacts NormalizeFacts.

(** What can be raised once validation has passed: anything but an
    [HTTPException] of a status other than 500. *)
Definition raised_after_validation (e : exn) : Prop :=
  match e with
  | HTTPException c _ => c = 500
  | _ => True
  end.

Lemma checked_json_error u r e :
  checked_json u r = inl e -> raised_after_validation e.
Proof.
  unfold checked_json. destruct r as [msg|resp]; [now intros [= <-]|].
  destruct ((400 <=? status_code resp) && (status_code resp <? 500))%Z; [now intros [= <-]|].
  destruct ((500 <=? status_code resp) && (status_code resp <? 600))%Z; [now intros [= <-]|].
  destruct (json_result resp); [now intros [= <-]|discriminate].
Qed.

Lemma checked_status_error u r e :
  checked_status u r = inl e -> raised_after_validation e.
Proof.
  unfold checked_status. destruct r as [msg|resp]; [now intros [= <-]|].
  destruct ((400 <=? status_code resp) && (status_code resp <? 500))%Z; [now intros [= <-]|].
  destruct ((500 <=? status_code resp) && (status_code resp <? 600))%Z; [now intros [= <-]|].
  discriminate.
Qed.

Lemma py_getitem_error v k e : py_getitem v k = inl e -> raised_after_validation e.
Proof.
  destruct v as [| | | |d]; cbn [py_getitem]; try (now intros [= <-]).
  destruct (dict_lookup k d); [discriminate|now intros [= <-]].
Qed.

Lemma py_contains_error k v e : py_contains k v = inl e -> raised_after_validation e.
Proof. destruct v; cbn [py_contains]; try discriminate; now intros [= <-]. Qed.

Lemma py_len_error v e : py_len v = inl e -> raised_after_validation e.
Proof. destruct v; cbn [py_len]; try discriminate; now intros [= <-]. Qed.

Lemma py_first_error v e : py_first v = inl e -> raised_after_validation e.
Proof.
  destruct v as [| |s|l|]; cbn [py_first]; try (now intros [= <-]).
  - destruct s; [now intros [= <-]|discriminate].
  - destruct l; [now intros [= <-]|discriminate].
Qed.

Lemma py_get_error v k d e : py_get v k d = inl e -> raised_after_validation e.
Proof. destruct v; cbn [py_get]; try discriminate; now intros [= <-]. Qed.

Lemma py_items_error v e : py_items v = inl e -> raised_after_validation e.
Proof. destruct v; cbn [py_items]; try discriminate; now intros [= <-]. Qed.

Lemma as_number_error v e : as_number v = inl e -> raised_after_validation e.
Proof. destruct v; cbn [as_number]; try discriminate; now intros [= <-]. Qed.

Lemma numeric_items_error l e : numeric_items l = inl e -> raised_after_validation e.
Proof.
  induction l as [|[k v] r IH]; [discriminate|].
  destruct v as [|n| | |]; cbn [numeric_items]; try (now intros [= <-]).
  unfold ebind. destruct (numeric_items r); [|discriminate].
  intros [= <-]. now apply IH.
Qed.

Lemma formatted_error l e : formatted l = inl e -> raised_after_validation e.
Proof.
  induction l as [|p r IH]; [discriminate|].
  cbn [formatted]. destruct p as [s|n|n]; cbn [formatted_piece ebind]; auto.
  - destruct (str_prints n); cbn [ebind]; [exact IH|now intros [= <-]].
  - destruct (fix2_prints n); cbn [ebind]; [exact IH|now intros [= <-]].
Qed.

Lemma as_header_value_error v e : as_header_value v = inl e -> raised_after_validation e.
Proof.
  destruct v as [|n|s|l|d]; cbn [as_header_value]; try discriminate;
    match goal with |- context [if ?b then _ else _] => destruct b end;
    now intros [= <-].
Qed.

Create HintDb py_errors.

#[local] Hint Resolve py_getitem_error py_contains_error py_len_error py_first_error
  py_get_error py_items_error as_number_error numeric_items_error formatted_error
  as_header_value_error checked_json_error checked_status_error : py_errors.

(** One step of a sequence in the error monad: the failure of the step is
    the failure of the sequence. *)
Ltac step_ebind :=
  match goal with
  | |- context [ebind ?r _] =>
      let e := fresh "e" in let H := fresh "H" in
      destruct r as [e|?] eqn:H; cbn [ebind];
      [intros [= <-]; eauto with py_errors|]
  end.

Lemma has_results_error result e :
  has_results result = inl e -> raised_after_validation e.
Proof.
  unfold has_results. step_ebind.
  match goal with |- context [if ?b then _ else _] => destruct b end;
    [|discriminate].
  repeat step_ebind. discriminate.
Qed.

Lemma normalize_error name t result e :
  normalize name t result = inl e -> raised_after_validation e.
Proof.
  unfold normalize.
  destruct (has_results result) as [e0|ok] eqn:H; cbn [ebind].
  - intros [= <-]. eapply has_results_error; eauto.
  - destruct ok; [|now intros [= <-]].
    repeat step_ebind. cbn zeta. repeat step_ebind. discriminate.
Qed.

Lemma upload_asset_error E path desc mime w e :
  snd (upload_asset E path desc mime w) = inl e -> raised_after_validation e.
Proof.
  rewrite upload_asset_run. cbn zeta.
  destruct (checked_json _ _) as [e0|j] eqn:Hj;
    [cbn [snd]; intros [= <-]; eauto with py_errors|].
  destruct (py_getitem j "uploadUrl") as [e0|location] eqn:H1;
    [cbn [snd]; intros [= <-]; eauto with py_errors|].
  destruct (py_getitem j "assetId") as [e0|asset] eqn:H2;
    [cbn [snd]; intros [= <-]; eauto with py_errors|].
  destruct (dict_lookup path (files w)); [|cbn [snd]; now intros [= <-]].
  destruct location; cbn [as_url snd]; try (now intros [= <-]).
  destruct (checked_status _ _) as [e0|resp] eqn:H3; [|discriminate].
  intros [= <-]; eauto with py_errors.
Qed.

Lemma vendor_result_error E file w e :
  snd (vendor_result E file w) = inl e -> raised_after_validation e.
Proof.
  rewrite vendor_result_run. cbn zeta.
  destruct (negb (api_key_set E)); [cbn [snd]; now intros [= <-]|].
  rewrite build_request_run.
  destruct (len _ <? 180000)%Z.
  - cbn [snd]. apply checked_json_error.
  - destruct (upload_asset _ _ _ _ _) as [w1 [e0|asset]] eqn:Hup.
    + cbn [snd]. intros [= <-].
      eapply upload_asset_error. rewrite Hup. reflexivity.
    + destruct (as_header_value asset) as [e0|ref] eqn:Hh.
      * cbn [snd]. intros [= <-]. eauto with py_errors.
      * cbn [snd]. apply checked_json_error.
Qed.

(** A decoded vendor response was obtained only with the API key set and
    after every vendor call of the run went through, the scoring call being
    the last of them. *)
Lemma vendor_result_success E file w result :
  snd (vendor_result E file w) = inr result ->
  api_key_set E = true /\
  exists new rq,
    calls (fst (vendor_result E file w)) = calls w ++ new ++ [scoring_request rq] /\
    Forall (call_succeeded E) (new ++ [scoring_request rq]) /\
    existsb is_scoring_call new = false.
Proof.
  rewrite vendor_result_run. cbn zeta.
  destruct (api_key_set E); cbn [negb]; [|discriminate].
  rewrite build_request_run.
  destruct (len _ <? 180000)%Z.
  - cbn [fst snd calls staged]. intros H. split; [reflexivity|].
    exists [], (inline_submission E (mime_type_of (extension (filename file)))
                 (b64encode (content file))).
    repeat split; auto. repeat constructor. eapply checked_json_ok; eauto.
  - destruct (upload_asset _ _ _ _ _) as [w1 [e0|asset]] eqn:Hup; [discriminate|].
    destruct (upload_asset_trace _ _ _ _ _ _ _ Hup) as [_ (u & data & _ & Hc & Hr & Hp)].
    destruct (as_header_value asset) as [e0|ref]; [discriminate|].
    cbn [fst snd calls]. intros H. split; [reflexivity|].
    eexists _, (referenced_submission E _ ref). rewrite Hc.
    cbn [staged calls]. rewrite <- app_assoc. split; [reflexivity|].
    split; [|reflexivity].
    repeat constructor; auto. eapply checked_json_ok; eauto.
Qed.

End ErrorFacts.

(** ** Sample runs *)

Module Scenarios.
Import Py PyStr Json Http Detector.

Definition sample_detection : list (string * json) :=
  [("is_ai_generated", JNum (PyFloat 0.02));
   ("possible_sources",
    JDict [("a", JNum (PyFloat 0.5)); ("b", JNum (PyFloat 0.3));
           ("c", JNum (PyFloat 0.1)); ("d", JNum (PyFloat 0.05))])].

Definition sample_result : json := JDict [("data", JList [JDict sample_detection])].

(** A vendor that answers every call with [200 OK] and body [j]. *)
Definition answering (j : json) : env :=
  mkEnv (Some "nvapi-0123456789")
        (fun _ => inr (mkResponse 200 "OK" (inr j)))
        (fun suffix => ("/tmp/tmpq1w2e3" ++ suffix)%string).

Definition sample_env : env := answering sample_result.

Definition sample_file : UploadFile :=
  mkUploadFile "cat.PNG" [Byte.x4d; Byte.x61; Byte.x6e].

(** An upload of 135,000 bytes: its encoding has exactly 180,000
    characters, the boundary at which the asset-upload strategy starts. *)
Definition large_file : UploadFile :=
  mkUploadFile "scan.jpeg" (repeat Byte.x00 (Z.to_nat 135000)).

(** A process started without the API key. *)
Definition keyless_env : env :=
  mkEnv None
        (fun _ => inr (mkResponse 200 "OK" (inr sample_result)))
        (fun suffix => ("/tmp/tmpq1w2e3" ++ suffix)%string).

(** A vendor whose reservation endpoint is down. *)
Definition reserve_down : env :=
  mkEnv (Some "nvapi-0123456789")
        (fun rq => if String.eqb (url rq) ASSETS_URL
                   then inl "Read timed out."
                   else inr (mkResponse 200 "OK" (inr sample_result)))
        (fun suffix => ("/tmp/tmpq1w2e3" ++ suffix)%string).

(** A vendor (or a proxy in front of it) that answers every call with
    [200 OK] and a body that is not JSON. *)
Definition garbled_env : env :=
  mkEnv (Some "nvapi-0123456789")
        (fun _ => inr (mkResponse 200 "OK"
                         (inl "Expecting value: line 1 column 1 (char 0)")))
        (fun suffix => ("/tmp/tmpq1w2e3" ++ suffix)%string).

(** A vendor that reserves an asset, accepts the transfer and scores. *)
Definition asset_env : env :=
  mkEnv (Some "nvapi-0123456789")
        (fun rq =>
           if String.eqb (url rq) ASSETS_URL then
             inr (mkResponse 200 "OK"
                    (inr (JDict [("assetId", JStr "asset-42");
                                 ("uploadUrl", JStr "https://bucket.example/put")])))
           else if String.eqb (method rq) "PUT" then
             inr (mkResponse 200 "OK" (inl "Expecting value: line 1 column 1 (char 0)"))
           else inr (mkResponse 200 "OK" (inr sample_result)))
        (fun suffix => ("/tmp/tmpq1w2e3" ++ suffix)%string).

End Scenarios.

(** ** The rounding rule *)

Module RoundFacts.
Import Py.

(** [m] is the integer nearest to [q], and the even one of the two when [q]
    lies halfway between two integers. *)
Definition nearest_even (q : Q) (m : Z) : Prop :=
  (Qabs (q - inject_Z m) <= 1 # 2)%Q /\
  ((Qabs (q - inject_Z m) == 1 # 2)%Q -> Z.even m = true).

Lemma nearest_even_Z (q : Q) (m : Z) :
  nearest_even q m <->
  (2 * Z.abs (Qnum q - m * Zpos (Qden q)) <= Zpos (Qden q))%Z /\
  ((2 * Z.abs (Qnum q - m * Zpos (Qden q)) = Zpos (Qden q))%Z -> Z.even m = true).
Proof.
  destruct q as [a b]. unfold nearest_even, Qle, Qeq, Qabs, Qminus, Qplus, Qopp, inject_Z.
  cbn [Qnum Qden].
  replace (a * 1 + - m * Zpos b)%Z with (a - m * Zpos b)%Z by ring.
  rewrite Pos.mul_1_r.
  replace (Z.abs (a - m * Zpos b) * 2)%Z with (2 * Z.abs (a - m * Zpos b))%Z by ring.
  rewrite !Z.mul_1_l. tauto.
Qed.

Lemma round_half_even_nearest (q : Q) :
  nearest_even q (round_half_even (Qnum q) (Qden q)).
Proof.
  apply nearest_even_Z. destruct q as [a b]. cbn [Qnum Qden]. unfold round_half_even.
  pose proof (Z.div_mod a (Zpos b) ltac:(lia)) as Hdm.
  pose proof (Z.mod_pos_bound a (Zpos b) ltac:(lia)) as Hr.
  set (k := (a / Zpos b)%Z) in *. set (r := (a mod Zpos b)%Z) in *.
  destruct (2 * r ?= Zpos b)%Z eqn:Hc.
  - apply Z.compare_eq in Hc.
    destruct (Z.even k) eqn:He.
    + split; [nia|]. intros _. exact He.
    + split; [nia|]. intros _. rewrite Z.even_add, He. reflexivity.
  - rewrite Z.compare_lt_iff in Hc. split; [nia|]. intros H. exfalso. nia.
  - rewrite Z.compare_gt_iff in Hc. split; [nia|]. intros H. exfalso. nia.
Qed.

Lemma nearest_even_unique (q : Q) (m m' : Z) :
  nearest_even q m -> nearest_even q m' -> m = m'.
Proof.
  rewrite !nearest_even_Z. destruct q as [a b]. cbn [Qnum Qden].
  intros [H1 E1] [H2 E2].
  assert (Hd : (Z.abs (m - m') <= 1)%Z) by nia.
  destruct (Z.eq_dec m m') as [|Hne]; [assumption|exfalso].
  assert (Hone : (m' = m + 1 \/ m = m' + 1)%Z) by lia.
  assert (T1 : (2 * Z.abs (a - m * Zpos b) = Zpos b)%Z) by nia.
  assert (T2 : (2 * Z.abs (a - m' * Zpos b) = Zpos b)%Z) by nia.
  specialize (E1 T1). specialize (E2 T2).
  destruct Hone as [->| ->].
  - rewrite Z.even_add, E1 in E2. discriminate.
  - rewrite Z.even_add, E2 in E1. discriminate.
Qed.

(** The binary64 value of the decimal [(-1)^neg * m / 10^n]: the quotient
    of the two integers, rounded to nearest, ties to even. *)
Definition of_decimal (neg : bool) (m : Z) (n : nat) : float :=
  match m with
  | Zpos p => SF2Prim (SFdiv prec emax (S754_finite neg p 0) (S754_finite false (pow10 n) 0))
  | _ => SF2Prim (S754_zero neg)
  end.

(** [y] is [x] rounded to [n] decimals: the magnitude of [x], taken exactly
    and counted in units of [10^-n], goes to the nearest integer, to the
    even one on a tie, and [y] is the binary64 value of that decimal with
    the sign of [x]; a zero, a NaN and the infinities are left as they
    are. *)
Definition rounds_to (x : float) (n : nat) (y : float) : Prop :=
  match Prim2SF x with
  | S754_finite neg m e =>
      exists k, nearest_even (dyadic false m e * inject_Z (Zpos (pow10 n))) k /\
                y = of_decimal neg k n
  | _ => y = x
  end.

Lemma float_round_rounds (x : float) (n : nat) : rounds_to x n (float_round x n).
Proof.
  unfold rounds_to, float_round.
  destruct (Prim2SF x) as [s|s| |s m e]; try reflexivity.
  exists (round_half_even (Qnum (dyadic false m e * inject_Z (Zpos (pow10 n))))
                          (Qden (dyadic false m e * inject_Z (Zpos (pow10 n))))).
  split; [apply round_half_even_nearest|]. reflexivity.
Qed.

Lemma py_mul_hundred (s : float) :
  py_mul (PyFloat s) (PyInt 100) = PyFloat (s * 100)%float.
Proof.
  unfold py_mul. cbn [int_of_num float_of_num].
  replace (float_of_int 100) with 100%float by (vm_compute; reflexivity). reflexivity.
Qed.

Lemma rounds_to_unique (x : float) (n : nat) (y y' : float) :
  rounds_to x n y -> rounds_to x n y' -> y = y'.
Proof.
  unfold rounds_to. destruct (Prim2SF x) as [s|s| |s m e]; try congruence.
  intros (k & Hk & ->) (k' & Hk' & ->).
  now rewrite (nearest_even_unique _ _ _ Hk Hk').
Qed.

End RoundFacts.

(** ** The claims about the relay *)

Module Claims.
Import Py PyStr Json Http Detector.
Import PyFacts FloatBridge RankFacts RunFacts NormalizeFacts ErrorFacts RoundFacts Scenarios.

(** The threshold check of line 81, in the comparisons of the hardware. *)
Lemma threshold_ok_float (t : float) :
  threshold_ok t = ((0 <=? t) && (t <=? 1))%float.
Proof. unfold threshold_ok. now rewrite py_le_zero_float, py_le_float_one. Qed.

(** Once validation has passed and the vendor has answered, the outcome of
    the handler is the normalised response, failures re-raised as 500. *)
Lemma detect_outcome (E : env) (file : UploadFile) (t : float) (w : world) (result : json) :
  threshold_ok t = true ->
  extension_ok (extension (filename file)) = true ->
  snd (vendor_result E file w) = inr result ->
  snd (detect_deepfake E file t w) = reported (normalize (filename file) t result).
Proof.
  intros Ht Hx Hr. rewrite detect_deepfake_run, Ht, Hx. cbn [negb snd].
  now rewrite Hr.
Qed.

Lemma reported_inr_inv {A} (r : exn + A) (a : A) : reported r = inr a -> r = inr a.
Proof. destruct r; [discriminate|]. now intros [= ->]. Qed.

(** Once validation has passed and the vendor has answered with a
    detection, the handler returns a verdict exactly when the detection is
    renderable: its source mapping is absent or maps labels to numbers, its
    score is absent or a number, and the score and the top three weights can
    be printed. *)
Lemma verdict_returned_iff (E : env) (file : UploadFile) (t : float) (w : world)
  (result : json) (dd : list (string * json)) :
  threshold_ok t = true ->
  extension_ok (extension (filename file)) = true ->
  snd (vendor_result E file w) = inr result ->
  detection_of result = Some dd ->
  (exists v, snd (detect_deepfake E file t w) = inr v) <-> renderable dd.
Proof.
  intros Ht Hx Hr Hd.
  rewrite (detect_outcome E file t w result Ht Hx Hr), (normalize_detection _ _ _ _ Hd).
  rewrite <- (read_detection_returns (filename file) t dd).
  split; intros [v Hv]; exists v.
  - now apply reported_inr_inv.
  - now rewrite Hv.
Qed.

Lemma sample_renderable : renderable sample_detection.
Proof.
  exists [("a", JNum (PyFloat 0.5)); ("b", JNum (PyFloat 0.3));
          ("c", JNum (PyFloat 0.1)); ("d", JNum (PyFloat 0.05))],
         [("a", PyFloat 0.5); ("b", PyFloat 0.3); ("c", PyFloat 0.1); ("d", PyFloat 0.05)],
         (PyFloat 0.02).
  repeat split; vm_compute; reflexivity.
Qed.

Lemma sample_nan_free : nan_free sample_detection.
Proof.
  intros items weighted [= <-] [= <-]. repeat constructor.
Qed.

(** C1: for a vendor response that contains a score and a threshold in
    [0,1], the verdict is flagged exactly when the score is strictly above
    the threshold; a score equal to the threshold is not flagged; for a
    float score the test is the hardware's [threshold < score].  With no
    NaN among the weights of the sources, a verdict is returned exactly
    when the detection is renderable. *)
Theorem flag_iff_score_above_threshold
  (E : env) (file : UploadFile) (t : float) (w : world)
  (result : json) (dd : list (string * json)) (score : pynum) :
  threshold_ok t = true ->
  extension_ok (extension (filename file)) = true ->
  snd (vendor_result E file w) = inr result ->
  detection_of result = Some dd ->
  dict_lookup "is_ai_generated" dd = Some (JNum score) ->
  (nan_free dd ->
   ((exists v, snd (detect_deepfake E file t w) = inr v) <-> renderable dd)) /\
  (forall v, snd (detect_deepfake E file t w) = inr v ->
     (is_ai_generated v = true <-> py_gt score (PyFloat t) = true) /\
     (py_compare score (PyFloat t) = Some Eq -> is_ai_generated v = false) /\
     (forall s, score = PyFloat s -> is_ai_generated v = (t <? s)%float)).
Proof.
  intros Ht Hx Hr Hd Hs.
  split; [intros _; exact (verdict_returned_iff E file t w result dd Ht Hx Hr Hd)|].
  rewrite (detect_outcome E file t w result Ht Hx Hr), (normalize_detection _ _ _ _ Hd).
  assert (Hf : score_field dd = JNum score) by (unfold score_field; now rewrite Hs).
  intros v Hv. apply reported_inr_inv, read_detection_inv in Hv.
  destruct Hv as (items & weighted & score' & _ & _ & Hf' & _ & ->).
  assert (score' = score) by congruence. subst score'.
  cbn [make_verdict is_ai_generated]. split; [reflexivity|].
  split; [apply py_gt_false_of_eq|].
  intros s ->. apply py_gt_float.
Qed.

Lemma flag_iff_score_above_threshold_witness :
  threshold_ok 0.016 = true /\
  extension_ok (extension (filename sample_file)) = true /\
  snd (vendor_result sample_env sample_file empty_world) = inr sample_result /\
  detection_of sample_result = Some sample_detection /\
  dict_lookup "is_ai_generated" sample_detection = Some (JNum (PyFloat 0.02)) /\
  (exists v, snd (detect_deepfake sample_env sample_file 0.016 empty_world) = inr v) /\
  (forall v, snd (detect_deepfake sample_env sample_file 0.016 empty_world) = inr v ->
     (is_ai_generated v = true <-> py_gt (PyFloat 0.02) (PyFloat 0.016) = true) /\
     (py_compare (PyFloat 0.02) (PyFloat 0.016) = Some Eq -> is_ai_generated v = false) /\
     (forall s, PyFloat 0.02 = PyFloat s -> is_ai_generated v = (0.016 <? s)%float)).
Proof.
  assert (H1 : threshold_ok 0.016 = true) by (vm_compute; reflexivity).
  assert (H2 : extension_ok (extension (filename sample_file)) = true)
    by (vm_compute; reflexivity).
  assert (H3 : snd (vendor_result sample_env sample_file empty_world) = inr sample_result)
    by (vm_compute; reflexivity).
  assert (H4 : detection_of sample_result = Some sample_detection) by reflexivity.
  assert (H5 : dict_lookup "is_ai_generated" sample_detection = Some (JNum (PyFloat 0.02)))
    by reflexivity.
  repeat (split; [assumption|]).
  destruct (flag_iff_score_above_threshold sample_env sample_file 0.016 empty_world
              sample_result sample_detection (PyFloat 0.02) H1 H2 H3 H4 H5) as [Hex Hall].
  split; [exact (proj2 (Hex sample_nan_free) sample_renderable)|exact Hall].
Defined.

(** The boundary cases of the specification: a score of 0.02 is flagged at
    threshold 0.016, not at 0.03, and not at 0.02 itself. *)
Example flag_boundary :
  option_map is_ai_generated
    (match snd (detect_deepfake sample_env sample_file 0.016 empty_world) with
     | inr v => Some v | inl _ => None end) = Some true /\
  option_map is_ai_generated
    (match snd (detect_deepfake sample_env sample_file 0.03 empty_world) with
     | inr v => Some v | inl _ => None end) = Some false /\
  option_map is_ai_generated
    (match snd (detect_deepfake sample_env sample_file 0.02 empty_world) with
     | inr v => Some v | inl _ => None end) = Some false.
Proof. repeat split; vm_compute; reflexivity. Qed.



(** The three shapes side by side: no [data] key and an empty [data] list
    fail with the format error; a [data] entry without fields is scored 0
    and not flagged. *)
Example container_samples :
  snd (detect_deepfake (answering (JDict [("status", JStr "ok")])) sample_file 0.5 empty_world)
    = inl (HTTPException 500 "500: Invalid response format from NVIDIA API") /\
  snd (detect_deepfake (answering (JDict [("data", JList [])])) sample_file 0.5 empty_world)
    = inl (HTTPException 500 "500: Invalid response format from NVIDIA API") /\
  snd (detect_deepfake (answering (JDict [("data", JList [JDict []])])) sample_file 0.5
         empty_world)
    = inr (make_verdict "cat.PNG" 0.5 (PyInt 0) []).
Proof. repeat split; vm_compute; reflexivity. Qed.

(** C5, amended: when the container is present and the score field is
    absent, the score defaults to 0 and an absent source mapping to the
    empty one.  The missing score never makes the call fail: with the
    sources absent too the default verdict is returned, and in general,
    with no NaN among the weights of the sources, a verdict is returned
    exactly when the detection is renderable, which is then a matter of the
    source mapping alone.  Every verdict returned has
    confidence 0 and is not flagged for any strictly positive threshold (of
    the valid range). *)
Theorem missing_score_defaults_to_zero
  (E : env) (file : UploadFile) (t : float) (w : world)
  (result : json) (dd : list (string * json)) :
  py_lt (PyInt 0) (PyFloat t) = true ->
  py_le (PyFloat t) (PyInt 1) = true ->
  extension_ok (extension (filename file)) = true ->
  snd (vendor_result E file w) = inr result ->
  detection_of result = Some dd ->
  dict_lookup "is_ai_generated" dd = None ->
  (dict_lookup "possible_sources" dd = None ->
   snd (detect_deepfake E file t w) = inr (make_verdict (filename file) t (PyInt 0) [])) /\
  (nan_free dd ->
   ((exists v, snd (detect_deepfake E file t w) = inr v) <->
    exists items weighted,
      sources_field dd = JDict items /\ numeric_items items = inr weighted /\
      printable (PyInt 0) weighted = true)) /\
  (forall v, snd (detect_deepfake E file t w) = inr v ->
     confidence_score v = PyInt 0 /\
     confidence v = PyInt 0 /\
     is_ai_generated v = false /\
     (dict_lookup "possible_sources" dd = None -> top_sources v = [])).
Proof.
  intros Hpos Hle Hx Hr Hd Hs.
  assert (Ht : threshold_ok t = true).
  { unfold threshold_ok. rewrite Hle, andb_true_r.
    unfold py_lt in Hpos. unfold py_le.
    now destruct (py_compare (PyInt 0) (PyFloat t)) as [[]|]. }
  assert (Hf : score_field dd = JNum (PyInt 0)) by (unfold score_field; now rewrite Hs).
  split; [|split].
  - intros Hp.
    rewrite (detect_outcome E file t w result Ht Hx Hr), (normalize_detection _ _ _ _ Hd).
    unfold read_detection, sources_field, score_field. now rewrite Hs, Hp.
  - intros _. rewrite (verdict_returned_iff E file t w result dd Ht Hx Hr Hd). split.
    + intros (items & weighted & score & H1 & H2 & H3 & H4).
      assert (score = PyInt 0) by congruence. subst score. now exists items, weighted.
    + intros (items & weighted & H1 & H2 & H3). now exists items, weighted, (PyInt 0).
  - rewrite (detect_outcome E file t w result Ht Hx Hr), (normalize_detection _ _ _ _ Hd).
    intros v Hv. apply reported_inr_inv, read_detection_inv in Hv.
    destruct Hv as (items & weighted & score & Hit & Hn & Hsc & _ & ->).
    assert (score = PyInt 0) by congruence. subst score.
    repeat split.
    + cbn [make_verdict is_ai_generated]. now apply py_gt_false_of_lt.
    + intros Hp. unfold sources_field in Hit. rewrite Hp in Hit.
      injection Hit as <-. cbn in Hn. now injection Hn as <-.
Qed.

Lemma missing_score_defaults_to_zero_witness :
  py_lt (PyInt 0) (PyFloat 0.016) = true /\
  py_le (PyFloat 0.016) (PyInt 1) = true /\
  extension_ok (extension (filename sample_file)) = true /\
  snd (vendor_result (answering (JDict [("data", JList [JDict []])])) sample_file empty_world)
    = inr (JDict [("data", JList [JDict []])]) /\
  detection_of (JDict [("data", JList [JDict []])]) = Some [] /\
  dict_lookup "is_ai_generated" (@nil (string * json)) = None /\
  snd (detect_deepfake (answering (JDict [("data", JList [JDict []])]))
         sample_file 0.016 empty_world)
    = inr (make_verdict (filename sample_file) 0.016 (PyInt 0) []) /\
  forall v,
    snd (detect_deepfake (answering (JDict [("data", JList [JDict []])]))
           sample_file 0.016 empty_world) = inr v ->
    confidence_score v = PyInt 0 /\
    confidence v = PyInt 0 /\
    is_ai_generated v = false /\
    (dict_lookup "possible_sources" (@nil (string * json)) = None -> top_sources v = []).
Proof.
  assert (H1 : py_lt (PyInt 0) (PyFloat 0.016) = true) by (vm_compute; reflexivity).
  assert (H2 : py_le (PyFloat 0.016) (PyInt 1) = true) by (vm_compute; reflexivity).
  assert (H3 : extension_ok (extension (filename sample_file)) = true)
    by (vm_compute; reflexivity).
  assert (H4 : snd (vendor_result (answering (JDict [("data", JList [JDict []])]))
                      sample_file empty_world) = inr (JDict [("data", JList [JDict []])]))
    by (vm_compute; reflexivity).
  assert (H5 : detection_of (JDict [("data", JList [JDict []])]) = Some []) by reflexivity.
  assert (H6 : dict_lookup "is_ai_generated" (@nil (string * json)) = None) by reflexivity.
  repeat (split; [assumption|]).
  destruct (missing_score_defaults_to_zero _ sample_file _ empty_world _ _ H1 H2 H3 H4 H5 H6)
    as (Ha & _ & Hc).
  split; [exact (Ha eq_refl)|exact Hc].
Defined.

(** C5 as stated fails: with the container present and the score absent
    the call still fails when the source mapping is there and cannot be
    read (here it is the number 5, which has no [items]), or holds a weight
    that cannot be printed (here the integer [10^400], too large for the
    float that [:.2f] needs). *)
Lemma missing_score_counterexample :
  (detection_of (JDict [("data", JList [JDict [("possible_sources", JNum (PyInt 5))]])])
     = Some [("possible_sources", JNum (PyInt 5))] /\
   dict_lookup "is_ai_generated" [("possible_sources", JNum (PyInt 5))] = None /\
   snd (detect_deepfake
          (answering (JDict [("data", JList [JDict [("possible_sources", JNum (PyInt 5))]])]))
          sample_file 0.5 empty_world)
     = inl (HTTPException 500 "'int' object has no attribute 'items'")) /\
  (detection_of
     (JDict [("data",
              JList [JDict [("possible_sources",
                             JDict [("a", JNum (PyInt (10 ^ 400)))])]])])
     = Some [("possible_sources", JDict [("a", JNum (PyInt (10 ^ 400)))])] /\
   dict_lookup "is_ai_generated"
     [("possible_sources", JDict [("a", JNum (PyInt (10 ^ 400)))])] = None /\
   snd (detect_deepfake
          (answering
             (JDict [("data",
                      JList [JDict [("possible_sources",
                                     JDict [("a", JNum (PyInt (10 ^ 400)))])]])]))
          sample_file 0.5 empty_world)
     = inl (HTTPException 500 "int too large to convert to float")).
Proof.
  repeat split; vm_compute; reflexivity.
Qed.

(** C8: the returned confidence is [round(score * 100, 2)] and the returned
    confidence score is [round(score, 3)].  For a float score the product is
    the binary64 product, and each rounding takes the exact binary value,
    counted in units of [10^-n], to the nearest integer, to the even one on
    a tie, and returns the binary64 value of that decimal; an [int] score is
    multiplied exactly and left unrounded.  The rule fixes its result, and
    on five raw scores it gives what the specification lists ([0.0165] goes
    to [0.017]).  With no NaN among the weights of the sources, a verdict
    is returned exactly when the detection is renderable. *)
Theorem confidence_rounding
  (E : env) (file : UploadFile) (t : float) (w : world)
  (result : json) (dd : list (string * json)) (score : pynum) :
  threshold_ok t = true ->
  extension_ok (extension (filename file)) = true ->
  snd (vendor_result E file w) = inr result ->
  detection_of result = Some dd ->
  score_field dd = JNum score ->
  (nan_free dd ->
   ((exists v, snd (detect_deepfake E file t w) = inr v) <-> renderable dd)) /\
  (forall v, snd (detect_deepfake E file t w) = inr v ->
     confidence v = py_round (py_mul score (PyInt 100)) 2 /\
     confidence_score v = py_round score 3 /\
     match score with
     | PyFloat s =>
         exists p c,
           confidence v = PyFloat p /\ rounds_to (s * 100)%float 2 p /\
           confidence_score v = PyFloat c /\ rounds_to s 3 c
     | PyInt z => confidence v = PyInt (z * 100) /\ confidence_score v = PyInt z
     | PyBool b =>
         confidence v = PyInt (int_of_bool b * 100) /\
         confidence_score v = PyInt (int_of_bool b)
     end) /\
  (forall x n y y', rounds_to x n y -> rounds_to x n y' -> y = y') /\
  map (fun x => (py_round (py_mul (PyFloat x) (PyInt 100)) 2, py_round (PyFloat x) 3))
      [0.0165; 0.02; 0.123456; 0.9995; 0.0004]%float
  = [(PyFloat 1.65, PyFloat 0.017); (PyFloat 2, PyFloat 0.02);
     (PyFloat 12.35, PyFloat 0.123); (PyFloat 99.95, PyFloat 1);
     (PyFloat 0.04, PyFloat 0)]%float.
Proof.
  intros Ht Hx Hr Hd Hf.
  split; [intros _; exact (verdict_returned_iff E file t w result dd Ht Hx Hr Hd)|].
  split; [|split; [exact rounds_to_unique|vm_compute; reflexivity]].
  rewrite (detect_outcome E file t w result Ht Hx Hr), (normalize_detection _ _ _ _ Hd).
  intros v Hv. apply reported_inr_inv, read_detection_inv in Hv.
  destruct Hv as (items & weighted & score' & _ & _ & Hf' & _ & ->).
  assert (score' = score) by congruence. subst score'.
  cbn [make_verdict confidence confidence_score].
  split; [reflexivity|]. split; [reflexivity|].
  destruct score as [b|z|s].
  - split; reflexivity.
  - split; reflexivity.
  - exists (float_round (s * 100) 2), (float_round s 3).
    rewrite py_mul_hundred. cbn [py_round].
    repeat split; apply float_round_rounds.
Qed.

Lemma confidence_rounding_witness :
  threshold_ok 0.016 = true /\
  extension_ok (extension (filename sample_file)) = true /\
  snd (vendor_result sample_env sample_file empty_world) = inr sample_result /\
  detection_of sample_result = Some sample_detection /\
  score_field sample_detection = JNum (PyFloat 0.02) /\
  (exists v, snd (detect_deepfake sample_env sample_file 0.016 empty_world) = inr v) /\
  forall v, snd (detect_deepfake sample_env sample_file 0.016 empty_world) = inr v ->
    confidence v = py_round (py_mul (PyFloat 0.02) (PyInt 100)) 2 /\
    confidence_score v = py_round (PyFloat 0.02) 3 /\
    exists p c,
      confidence v = PyFloat p /\ rounds_to (0.02 * 100)%float 2 p /\
      confidence_score v = PyFloat c /\ rounds_to 0.02 3 c.
Proof.
  assert (H1 : threshold_ok 0.016 = true) by (vm_compute; reflexivity).
  assert (H2 : extension_ok (extension (filename sample_file)) = true)
    by (vm_compute; reflexivity).
  assert (H3 : snd (vendor_result sample_env sample_file empty_world) = inr sample_result)
    by (vm_compute; reflexivity).
  assert (H4 : detection_of sample_result = Some sample_detection) by reflexivity.
  assert (H5 : score_field sample_detection = JNum (PyFloat 0.02)) by reflexivity.
  repeat (split; [assumption|]).
  destruct (confidence_rounding sample_env sample_file 0.016 empty_world
              sample_result sample_detection (PyFloat 0.02) H1 H2 H3 H4 H5)
    as (Hex & Hall & _).
  split; [exact (proj2 (Hex sample_nan_free) sample_renderable)|exact Hall].
Defined.

(** Five raw scores and what the two roundings make of them; [0.0165] is
    just above the tie in binary and rounds up to [0.017], [2.675] is just
    below its tie and rounds down, and [0.125] and [0.375] are exact ties
    that go to the even neighbour. *)
Example rounding_samples :
  map (fun x => (py_round (py_mul (PyFloat x) (PyInt 100)) 2, py_round (PyFloat x) 3))
      [0.0165; 0.02; 0.123456; 0.9995; 0.0004]%float
  = [(PyFloat 1.65, PyFloat 0.017); (PyFloat 2, PyFloat 0.02);
     (PyFloat 12.35, PyFloat 0.123); (PyFloat 99.95, PyFloat 1);
     (PyFloat 0.04, PyFloat 0)]%float /\
  map (fun x => py_round (PyFloat x) 2) [2.675; 0.125; 0.375]%float
  = [PyFloat 2.67; PyFloat 0.12; PyFloat 0.38]%float.
Proof. split; vm_compute; reflexivity. Qed.

(** C6, amended: for a source mapping whose weights are numbers none of
    which is a NaN, the returned [top_sources] are the first three
    label-weight pairs of the mapping arranged by descending weight, equal
    weights in the order of the mapping; that arrangement is the only one
    there is, and with at most three sources all of them are returned.  A
    verdict is returned exactly when the detection is renderable. *)
Theorem top_sources_ranked
  (E : env) (file : UploadFile) (t : float) (w : world)
  (result : json) (dd : list (string * json)) (weighted : list (string * pynum)) :
  threshold_ok t = true ->
  extension_ok (extension (filename file)) = true ->
  snd (vendor_result E file w) = inr result ->
  detection_of result = Some dd ->
  dict_lookup "possible_sources" dd = Some (as_mapping weighted) ->
  no_nan weighted ->
  ((exists v, snd (detect_deepfake E file t w) = inr v) <-> renderable dd) /\
  (forall v, snd (detect_deepfake E file t w) = inr v ->
   exists ranked,
     top_sources v = firstn 3 ranked /\
     Permutation ranked weighted /\
     StronglySorted weight_ge ranked /\
     (forall x, filter (same_weight x) ranked = filter (same_weight x) weighted) /\
     (forall ranked',
        Permutation ranked' weighted ->
        StronglySorted weight_ge ranked' ->
        (forall x, filter (same_weight x) ranked' = filter (same_weight x) weighted) ->
        ranked' = ranked) /\
     ((length weighted <= 3)%nat -> top_sources v = ranked)).
Proof.
  intros Ht Hx Hr Hd Hs Hn.
  split; [exact (verdict_returned_iff E file t w result dd Ht Hx Hr Hd)|].
  rewrite (detect_outcome E file t w result Ht Hx Hr), (normalize_detection _ _ _ _ Hd).
  assert (Hf : sources_field dd = as_mapping weighted)
    by (unfold sources_field; now rewrite Hs).
  intros v Hv. apply reported_inr_inv, read_detection_inv in Hv.
  destruct Hv as (items & weighted' & score & Hit & Hni & _ & _ & ->).
  assert (weighted' = weighted).
  { rewrite Hf in Hit. unfold as_mapping in Hit. injection Hit as <-.
    rewrite numeric_items_map in Hni. congruence. }
  subst weighted'. exists (sorted_reverse weighted).
  split; [reflexivity|].
  split; [apply sorted_reverse_perm|].
  split; [now apply sorted_reverse_sorted|].
  split; [intros x; apply sorted_reverse_stable|].
  split; [intros ranked' Hp Hso Hst; now apply sorted_reverse_unique|].
  intros Hlen. cbn [make_verdict top_sources].
  apply firstn_all2. now rewrite sorted_reverse_length.
Qed.

Definition sample_weights : list (string * pynum) :=
  [("a", PyFloat 0.5); ("b", PyFloat 0.3); ("c", PyFloat 0.1); ("d", PyFloat 0.05)].

Lemma top_sources_ranked_witness :
  threshold_ok 0.016 = true /\
  extension_ok (extension (filename sample_file)) = true /\
  snd (vendor_result sample_env sample_file empty_world) = inr sample_result /\
  detection_of sample_result = Some sample_detection /\
  dict_lookup "possible_sources" sample_detection = Some (as_mapping sample_weights) /\
  no_nan sample_weights /\
  (exists v, snd (detect_deepfake sample_env sample_file 0.016 empty_world) = inr v) /\
  forall v, snd (detect_deepfake sample_env sample_file 0.016 empty_world) = inr v ->
  exists ranked,
    top_sources v = firstn 3 ranked /\
    Permutation ranked sample_weights /\
    StronglySorted weight_ge ranked /\
    (forall x, filter (same_weight x) ranked = filter (same_weight x) sample_weights) /\
    (forall ranked',
       Permutation ranked' sample_weights ->
       StronglySorted weight_ge ranked' ->
       (forall x, filter (same_weight x) ranked' = filter (same_weight x) sample_weights) ->
       ranked' = ranked) /\
    ((length sample_weights <= 3)%nat -> top_sources v = ranked).
Proof.
  assert (H1 : threshold_ok 0.016 = true) by (vm_compute; reflexivity).
  assert (H2 : extension_ok (extension (filename sample_file)) = true)
    by (vm_compute; reflexivity).
  assert (H3 : snd (vendor_result sample_env sample_file empty_world) = inr sample_result)
    by (vm_compute; reflexivity).
  assert (H4 : detection_of sample_result = Some sample_detection) by reflexivity.
  assert (H5 : dict_lookup "possible_sources" sample_detection
               = Some (as_mapping sample_weights)) by reflexivity.
  assert (H6 : no_nan sample_weights) by (repeat constructor).
  repeat (split; [assumption|]).
  destruct (top_sources_ranked sample_env sample_file 0.016 empty_world
              sample_result sample_detection sample_weights H1 H2 H3 H4 H5 H6)
    as [Hex Hall].
  split; [exact (proj2 Hex sample_renderable)|exact Hall].
Defined.

(** C6 as stated fails on a mapping with a NaN weight: the handler returns
    the two sources in the order of the mapping, and neither this nor any
    other arrangement of them is descending, a NaN being neither above nor
    below nor equal to any weight. *)
Definition nan_weights : list (string * pynum) :=
  [("a", PyFloat nan); ("b", PyFloat 1)].

Definition nan_result : json :=
  JDict [("data", JList [JDict [("is_ai_generated", JNum (PyFloat 0.9));
                               ("possible_sources", as_mapping nan_weights)]])].

Lemma nan_weight_counterexample :
  (exists v,
     snd (detect_deepfake (answering nan_result) sample_file 0.5 empty_world) = inr v /\
     top_sources v = nan_weights) /\
  (forall ranked, Permutation ranked nan_weights -> ~ StronglySorted weight_ge ranked).
Proof.
  split.
  - eexists. split; vm_compute; reflexivity.
  - intros ranked Hp Hs.
    assert (Hlen : length ranked = 2%nat) by (rewrite (Permutation_length Hp); reflexivity).
    destruct ranked as [|x [|y [|z r]]]; try discriminate.
    inversion Hs as [|? ? _ Hall]; subst. inversion Hall as [|? ? Hxy _]; subst.
    assert (Hx : In x nan_weights) by (apply (Permutation_in x Hp); now left).
    assert (Hy : In y nan_weights) by (apply (Permutation_in y Hp); right; now left).
    assert (Hne : x <> y).
    { intros ->. apply Permutation_sym in Hp.
      assert (Ha : In ("a", PyFloat nan) [y; y]) by (apply (Permutation_in _ Hp); now left).
      assert (Hb : In ("b", PyFloat 1) [y; y])
        by (apply (Permutation_in _ Hp); right; now left).
      cbn in Ha, Hb. destruct Ha as [Ha|[Ha|[]]]; destruct Hb as [Hb|[Hb|[]]]; congruence. }
    cbn in Hx, Hy.
    destruct Hx as [<-|[<-|[]]]; destruct Hy as [<-|[<-|[]]];
      try (now apply Hne); vm_compute in Hxy; discriminate.
Qed.

(** The ranking of the specification's example, and a tie kept in the
    order of the mapping. *)
Example ranking_samples :
  map fst (firstn 3 (sorted_reverse sample_weights)) = ["a"; "b"; "c"] /\
  map fst (firstn 3 (sorted_reverse
    [("x", PyFloat 0.1); ("y", PyFloat 0.3); ("z", PyInt 1); ("u", PyFloat 0.3);
     ("v", PyFloat 0.3)])) = ["z"; "y"; "u"] /\
  option_map (fun v => map fst (top_sources v))
    (match snd (detect_deepfake sample_env sample_file 0.016 empty_world) with
     | inr v => Some v | inl _ => None end) = Some ["a"; "b"; "c"].
Proof. repeat split; vm_compute; reflexivity. Qed.

Lemma large_file_encoded_length : len (b64encode (content large_file)) = 180000.
Proof.
  rewrite Base64Facts.b64encode_length. cbn [large_file content].
  rewrite repeat_length, Z2Nat.id by lia. reflexivity.
Qed.

(** C2, amended: the submission strategy depends on the length of the
    base64 encoding alone.  Below 180,000 characters the only vendor call is
    the scoring request with the inline [data:<mime>;base64,<payload>] body
    and no asset header.  From 180,000 on the first call is the reservation
    of [upload_asset], followed by the transfer once the reservation has
    been read, and what [upload_asset] returns decides the rest: after a
    failure nothing more is sent; an asset id that is a string fit for a
    header value is followed by one scoring request that refers to
    [data:<mime>;asset_id,<id>] and carries the id in the
    [NVCF-INPUT-ASSET-REFERENCES] header; an asset id that is [None] is
    followed by one scoring request that refers to
    [data:<mime>;asset_id,None] and has no such header; any other asset id
    is followed by no scoring request. *)
Theorem strategy_by_encoded_length
  (E : env) (file : UploadFile) (t : float) (w : world) :
  threshold_ok t = true ->
  extension_ok (extension (filename file)) = true ->
  api_key_set E = true ->
  let mime := mime_type_of (extension (filename file)) in
  let image_b64 := b64encode (content file) in
  let sent_calls := calls (fst (detect_deepfake E file t w)) in
  let upload :=
    upload_asset E (tmp_name E (extension (filename file))) "Input Image" mime
      (staged E file w) in
  (len image_b64 < 180000 ->
   sent_calls = calls w ++ [scoring_request (inline_submission E mime image_b64)] /\
   fst (inline_submission E mime image_b64)
     = JDict [("input", JList [JStr ("data:" ++ mime ++ ";base64," ++ image_b64)%string])] /\
   dict_lookup "NVCF-INPUT-ASSET-REFERENCES" (snd (inline_submission E mime image_b64))
     = None) /\
  (180000 <= len image_b64 ->
   exists rest,
     sent_calls = calls w ++ reserve_request E mime "Input Image" :: rest /\
     match snd upload with
     | inl _ =>
         rest = [] \/
         exists u, rest = [transfer_request u mime "Input Image" (content file)]
     | inr (JStr asset_id) =>
         if header_value_ok asset_id then
           exists u,
             rest = [transfer_request u mime "Input Image" (content file);
                     scoring_request (asset_submission E mime asset_id)] /\
             fst (asset_submission E mime asset_id)
               = JDict [("input",
                         JList [JStr ("data:" ++ mime ++ ";asset_id," ++ asset_id)%string])] /\
             dict_lookup "NVCF-INPUT-ASSET-REFERENCES"
               (snd (asset_submission E mime asset_id)) = Some asset_id
         else
           exists u, rest = [transfer_request u mime "Input Image" (content file)]
     | inr JNull =>
         exists u,
           rest = [transfer_request u mime "Input Image" (content file);
                   scoring_request (unnamed_submission E mime)] /\
           fst (unnamed_submission E mime)
             = JDict [("input", JList [JStr ("data:" ++ mime ++ ";asset_id,None")%string])] /\
           dict_lookup "NVCF-INPUT-ASSET-REFERENCES" (snd (unnamed_submission E mime))
             = None
     | inr _ =>
         exists u, rest = [transfer_request u mime "Input Image" (content file)]
     end).
Proof.
  intros Ht Hx Hk mime image_b64 sent_calls upload.
  unfold sent_calls. rewrite (detect_calls E file t w Ht Hx).
  rewrite vendor_result_run, Hk. cbn [negb]. cbn zeta.
  rewrite build_request_run. fold mime image_b64.
  split; intros Hlen.
  - apply Z.ltb_lt in Hlen. rewrite Hlen. cbn [fst calls].
    repeat split; reflexivity.
  - apply Z.ltb_ge in Hlen. rewrite Hlen. unfold upload.
    destruct (upload_asset E _ "Input Image" mime (staged E file w)) as [w1 r] eqn:Hup.
    destruct (upload_asset_trace _ _ _ _ _ _ _ Hup) as [_ Htr].
    rewrite staged_lookup in Htr. cbn [snd].
    destruct r as [e|asset].
    + cbn [fst]. destruct Htr as [Hc|(u & data & [= <-] & Hc)]; rewrite Hc.
      * exists []. split; [reflexivity|now left].
      * eexists. split; [reflexivity|]. right. now exists u.
    + destruct Htr as (u & data & [= <-] & Hc & _ & _).
      destruct asset as [|n|asset_id|l|d]; cbn [as_header_value].
      * cbn [fst calls]. rewrite Hc, <- app_assoc. eexists. split; [reflexivity|].
        exists u. repeat split; reflexivity.
      * destruct (str_raises (JNum n)); cbn [fst]; rewrite Hc; eexists;
          (split; [reflexivity|]); now exists u.
      * destruct (header_value_ok asset_id); cbn [fst calls].
        -- rewrite Hc, <- app_assoc. eexists. split; [reflexivity|].
           exists u. repeat split; reflexivity.
        -- rewrite Hc. eexists. split; [reflexivity|]. now exists u.
      * destruct (str_raises (JList l)); cbn [fst]; rewrite Hc; eexists;
          (split; [reflexivity|]); now exists u.
      * destruct (str_raises (JDict d)); cbn [fst]; rewrite Hc; eexists;
          (split; [reflexivity|]); now exists u.
Qed.

Lemma asset_env_upload :
  snd (upload_asset asset_env (tmp_name asset_env (extension (filename large_file)))
         "Input Image" (mime_type_of (extension (filename large_file)))
         (staged asset_env large_file empty_world))
  = inr (JStr "asset-42").
Proof. vm_compute. reflexivity. Qed.

Lemma strategy_by_encoded_length_witness :
  threshold_ok 0.016 = true /\
  extension_ok (extension (filename large_file)) = true /\
  api_key_set asset_env = true /\
  180000 <= len (b64encode (content large_file)) /\
  exists rest,
    calls (fst (detect_deepfake asset_env large_file 0.016 empty_world))
      = calls empty_world ++
        reserve_request asset_env (mime_type_of (extension (filename large_file)))
          "Input Image" :: rest /\
    exists u,
      rest = [transfer_request u (mime_type_of (extension (filename large_file)))
                "Input Image" (content large_file);
              scoring_request
                (asset_submission asset_env
                   (mime_type_of (extension (filename large_file))) "asset-42")] /\
      dict_lookup "NVCF-INPUT-ASSET-REFERENCES"
        (snd (asset_submission asset_env
                (mime_type_of (extension (filename large_file))) "asset-42"))
      = Some "asset-42".
Proof.
  assert (H1 : threshold_ok 0.016 = true) by (vm_compute; reflexivity).
  assert (H2 : extension_ok (extension (filename large_file)) = true)
    by (vm_compute; reflexivity).
  assert (H3 : api_key_set asset_env = true) by reflexivity.
  assert (H4 : 180000 <= len (b64encode (content large_file)))
    by (rewrite large_file_encoded_length; lia).
  repeat (split; [assumption|]).
  destruct (proj2 (strategy_by_encoded_length asset_env large_file 0.016 empty_world
                     H1 H2 H3) H4) as (rest & Hc & Hm).
  exists rest. split; [exact Hc|].
  rewrite asset_env_upload in Hm.
  destruct Hm as (u & Hr & _ & Hh).
  exists u. split; [exact Hr|exact Hh].
Defined.

(** C2 as stated fails when the vendor reserves an asset without an id:
    the upload goes through, and the scoring request that follows refers to
    [asset_id,None] and carries no asset header. *)
Definition null_asset_env : env :=
  mkEnv (Some "nvapi-0123456789")
        (fun rq =>
           if String.eqb (url rq) ASSETS_URL then
             inr (mkResponse 200 "OK"
                    (inr (JDict [("assetId", JNull);
                                 ("uploadUrl", JStr "https://bucket.example/put")])))
           else if String.eqb (method rq) "PUT" then
             inr (mkResponse 200 "OK" (inl "Expecting value: line 1 column 1 (char 0)"))
           else inr (mkResponse 200 "OK" (inr sample_result)))
        (fun suffix => ("/tmp/tmpq1w2e3" ++ suffix)%string).

Lemma null_asset_counterexample :
  180000 <= len (b64encode (content large_file)) /\
  map (fun rq => (method rq, url rq, dict_lookup "NVCF-INPUT-ASSET-REFERENCES" (headers rq)))
      (calls (fst (detect_deepfake null_asset_env large_file 0.016 empty_world)))
  = [("POST", ASSETS_URL, None);
     ("PUT", "https://bucket.example/put", None);
     ("POST", INVOKE_URL, None)] /\
  option_map body
    (last_call (calls (fst (detect_deepfake null_asset_env large_file 0.016 empty_world))))
  = Some (JsonBody (JDict [("input", JList [JStr "data:image/jpeg;asset_id,None"])])) /\
  exists v, snd (detect_deepfake null_asset_env large_file 0.016 empty_world) = inr v.
Proof.
  split; [rewrite large_file_encoded_length; lia|].
  split; [vm_compute; reflexivity|].
  split; [vm_compute; reflexivity|].
  eexists. vm_compute. reflexivity.
Qed.

(** The two strategies at the boundary: 134,997 bytes (179,996 characters)
    go inline in one call; 135,000 bytes (180,000 characters) go through
    the reservation, the transfer and a scoring request that names the
    asset. *)
Example strategy_samples :
  map (fun rq => (method rq, url rq))
      (calls (fst (detect_deepfake asset_env
                     (mkUploadFile "scan.jpeg" (repeat Byte.x00 (Z.to_nat 134997)))
                     0.016 empty_world)))
  = [("POST", INVOKE_URL)] /\
  map (fun rq => (method rq, url rq, dict_lookup "NVCF-INPUT-ASSET-REFERENCES" (headers rq)))
      (calls (fst (detect_deepfake asset_env large_file 0.016 empty_world)))
  = [("POST", ASSETS_URL, None);
     ("PUT", "https://bucket.example/put", None);
     ("POST", INVOKE_URL, Some "asset-42")] /\
  option_map body
    (last_call (calls (fst (detect_deepfake asset_env large_file 0.016 empty_world))))
  = Some (JsonBody (JDict [("input", JList [JStr "data:image/jpeg;asset_id,asset-42"])])).
Proof. repeat split; vm_compute; reflexivity. Qed.

(** The extensions the handler accepts and rejects. *)
Example extension_samples :
  map (fun name => extension_ok (extension name))
      ["a.JPG"; "photo.jpeg"; "x.PnG"; "dir.v2/cat.png";
       "a.gif"; ".png"; "a.png.txt"; "png"; "dir.png/cat"]
  = [true; true; true; true; false; false; false; false; false].
Proof. vm_compute. reflexivity. Qed.

Lemma reserve_not_scoring (E : env) (mime desc : string) :
  is_scoring_call (reserve_request E mime desc) = false.
Proof. reflexivity. Qed.

Lemma transfer_not_scoring (u mime desc : string) (data : list Byte.byte) :
  is_scoring_call (transfer_request u mime desc data) = false.
Proof. reflexivity. Qed.

(** C9, amended: under the asset-upload strategy, a failure of the
    reservation or of the transfer phase of [upload_asset] reaches the
    caller as a response of status 500 whose detail is the text of the
    exception, with nothing that marks it as a failure of the upload, and
    no scoring request is sent; a scoring request is sent only after both
    phases went through. *)
Theorem upload_failure_blocks_scoring
  (E : env) (file : UploadFile) (t : float) (w : world) :
  threshold_ok t = true ->
  extension_ok (extension (filename file)) = true ->
  api_key_set E = true ->
  180000 <= len (b64encode (content file)) ->
  let mime := mime_type_of (extension (filename file)) in
  let upload :=
    upload_asset E (tmp_name E (extension (filename file))) "Input Image" mime
      (staged E file w) in
  (forall e, snd upload = inl e ->
     snd (detect_deepfake E file t w) = inl (HTTPException 500 (exc_str e)) /\
     exists new,
       calls (fst (detect_deepfake E file t w)) = calls w ++ new /\
       existsb is_scoring_call new = false) /\
  (forall new,
     calls (fst (detect_deepfake E file t w)) = calls w ++ new ->
     existsb is_scoring_call new = true ->
     exists asset u,
       snd upload = inr asset /\
       call_succeeded E (reserve_request E mime "Input Image") /\
       call_succeeded E (transfer_request u mime "Input Image" (content file))).
Proof.
  intros Ht Hx Hk Hlen mime upload.
  rewrite (detect_calls E file t w Ht Hx).
  rewrite detect_deepfake_run, Ht, Hx. cbn [negb snd].
  rewrite vendor_result_run, Hk. cbn [negb]. cbn zeta.
  rewrite build_request_run. fold mime.
  apply Z.ltb_ge in Hlen. rewrite Hlen. fold upload.
  destruct upload as [w1 r] eqn:Hup.
  destruct (upload_asset_trace _ _ _ _ _ _ _ Hup) as [_ Htr].
  rewrite staged_lookup in Htr.
  split.
  - intros e He. cbn [snd] in He. subst r. cbn [fst snd ebind reported].
    split; [reflexivity|].
    destruct Htr as [Hc|(u & data & _ & Hc)]; rewrite Hc; eexists;
      (split; [reflexivity|]); reflexivity.
  - intros new Hnew Hsc. destruct r as [e|asset].
    + exfalso. cbn [fst] in Hnew.
      destruct Htr as [Hc|(u & data & _ & Hc)]; rewrite Hc in Hnew;
        apply app_inv_head in Hnew; subst new; discriminate.
    + destruct Htr as (u & data & [= <-] & _ & Hr & Hp).
      now exists asset, u.
Qed.

Lemma reserve_down_upload :
  snd (upload_asset reserve_down (tmp_name reserve_down (extension (filename large_file)))
         "Input Image" (mime_type_of (extension (filename large_file)))
         (staged reserve_down large_file empty_world))
  = inl (RequestException "Read timed out.").
Proof. rewrite upload_asset_run. reflexivity. Qed.

Lemma upload_failure_blocks_scoring_witness :
  threshold_ok 0.016 = true /\
  extension_ok (extension (filename large_file)) = true /\
  api_key_set reserve_down = true /\
  180000 <= len (b64encode (content large_file)) /\
  snd (detect_deepfake reserve_down large_file 0.016 empty_world)
    = inl (HTTPException 500 (exc_str (RequestException "Read timed out."))) /\
  exists new,
    calls (fst (detect_deepfake reserve_down large_file 0.016 empty_world))
      = calls empty_world ++ new /\
    existsb is_scoring_call new = false.
Proof.
  assert (H1 : threshold_ok 0.016 = true) by (vm_compute; reflexivity).
  assert (H2 : extension_ok (extension (filename large_file)) = true)
    by (vm_compute; reflexivity).
  assert (H3 : api_key_set reserve_down = true) by reflexivity.
  assert (H4 : 180000 <= len (b64encode (content large_file)))
    by (rewrite large_file_encoded_length; lia).
  repeat (split; [assumption|]).
  exact (proj1 (upload_failure_blocks_scoring reserve_down large_file 0.016 empty_world
                  H1 H2 H3 H4) _ reserve_down_upload).
Defined.

(** C9 as stated fails: a failed upload does not surface as an upload
    error.  With a vendor that answers every call with the list [["data"]],
    a large image fails in the reservation phase of the upload and a small
    one fails after its scoring request, and the caller gets the same
    response for both. *)
Definition listing_env : env := answering (JList [JStr "data"]).

Lemma upload_error_counterexample :
  180000 <= len (b64encode (content large_file)) /\
  len (b64encode (content sample_file)) < 180000 /\
  snd (upload_asset listing_env (tmp_name listing_env (extension (filename large_file)))
         "Input Image" (mime_type_of (extension (filename large_file)))
         (staged listing_env large_file empty_world))
  = inl (PyError TypeError "list indices must be integers or slices, not str") /\
  snd (detect_deepfake listing_env large_file 0.5 empty_world)
  = inl (HTTPException 500 "list indices must be integers or slices, not str") /\
  existsb is_scoring_call
    (calls (fst (detect_deepfake listing_env large_file 0.5 empty_world))) = false /\
  snd (detect_deepfake listing_env sample_file 0.5 empty_world)
  = inl (HTTPException 500 "list indices must be integers or slices, not str") /\
  existsb is_scoring_call
    (calls (fst (detect_deepfake listing_env sample_file 0.5 empty_world))) = true.
Proof.
  split; [rewrite large_file_encoded_length; lia|].
  repeat split; vm_compute; reflexivity.
Qed.

(** A failed validation is re-raised by the outer [except] like any other
    exception: the world is left as it was, no vendor call is made, and the
    status the caller sees is 500. *)
Lemma validation_failure (E : env) (file : UploadFile) (t : float) (w : world) :
  threshold_ok t && extension_ok (extension (filename file)) = false ->
  fst (detect_deepfake E file t w) = w /\
  exists d,
    snd (detect_body E file t w) = inl (HTTPException 400 d) /\
    snd (detect_deepfake E file t w) = inl (HTTPException 500 ("400: " ++ d)%string).
Proof.
  intros H. rewrite detect_deepfake_run, detect_body_run.
  destruct (threshold_ok t); cbn [negb].
  - cbn [andb] in H. rewrite H. cbn [negb fst snd]. split; [reflexivity|]. now eexists.
  - cbn [fst snd]. split; [reflexivity|]. now eexists.
Qed.

(** Validation passes, that is the body raises no 400, exactly when the
    threshold lies in [0,1] and the lower-cased extension is on the list. *)
Lemma validation_passes_iff (E : env) (file : UploadFile) (t : float) (w : world) :
  (forall d, snd (detect_body E file t w) <> inl (HTTPException 400 d)) <->
  threshold_ok t = true /\ extension_ok (extension (filename file)) = true.
Proof.
  rewrite detect_body_run. split.
  - intros H. destruct (threshold_ok t); cbn [negb] in *.
    + destruct (extension_ok _); cbn [negb] in *; [now split|].
      exfalso. eapply H. reflexivity.
    + exfalso. eapply H. reflexivity.
  - intros [-> ->] d. cbn [negb snd]. intros H.
    destruct (snd (vendor_result E file w)) as [e1|result] eqn:Hr; cbn [ebind] in H.
    + injection H as ->. apply vendor_result_error in Hr. discriminate.
    + apply normalize_error in H. discriminate.
Qed.

(** C3 (the code departs from it): a threshold outside [0,1] and an
    unsupported extension both stop the handler before any vendor call, but
    the [HTTPException(400)] they raise is caught by the handler's own
    [except Exception] and reaches the caller with status 500. *)
Theorem validation_failure_reported_as_500 :
  detect_deepfake sample_env sample_file 1.5 empty_world
    = (empty_world, inl (HTTPException 500 "400: Threshold must be between 0 and 1")) /\
  detect_deepfake sample_env (mkUploadFile "notes.txt" []) 0.5 empty_world
    = (empty_world,
       inl (HTTPException 500
              "400: Invalid file type. Only jpg, jpeg, and png are supported.")).
Proof.
  split.
  - rewrite detect_deepfake_run.
    replace (threshold_ok 1.5) with false by (vm_compute; reflexivity). reflexivity.
  - rewrite detect_deepfake_run.
    replace (threshold_ok 0.5) with true by (vm_compute; reflexivity).
    replace (extension_ok (extension (filename (mkUploadFile "notes.txt" []))))
      with false by (vm_compute; reflexivity).
    reflexivity.
Qed.

(** C7 as stated fails.  First, a failure that is none of the four kinds:
    the input is valid, no vendor call is made and no response exists, yet
    the handler fails because the API key is not configured.  Second, two
    failures of different kinds that reach the caller as the very same
    exception: the reservation of an upload answered with a body that is
    not JSON, and the scoring request answered with such a body. *)
Lemma failure_kinds_counterexample :
  (threshold_ok 0.5 = true /\
   extension_ok (extension (filename sample_file)) = true /\
   detect_deepfake keyless_env sample_file 0.5 empty_world
     = (empty_world,
        inl (HTTPException 500
               "500: Server configuration error: NVIDIA API key not set"))) /\
  (snd (detect_deepfake garbled_env large_file 0.5 empty_world)
     = inl (HTTPException 500 "Expecting value: line 1 column 1 (char 0)") /\
   calls (fst (detect_deepfake garbled_env large_file 0.5 empty_world))
     = [reserve_request garbled_env "image/jpeg" "Input Image"] /\
   snd (detect_deepfake garbled_env sample_file 0.5 empty_world)
     = inl (HTTPException 500 "Expecting value: line 1 column 1 (char 0)") /\
   calls (fst (detect_deepfake garbled_env sample_file 0.5 empty_world))
     = [scoring_request (inline_submission garbled_env "image/png" "TWFu")]).
Proof.
  repeat split; vm_compute; reflexivity.
Qed.

(** C7, amended: every exception of the body reaches the caller as an
    [HTTPException] whose detail is the text of that exception, with status
    500 once validation has passed, whatever the cause (missing API key,
    upload, transport, response format); and a verdict is returned only when
    validation passed, the API key is set and every vendor call of the run
    went through.  Nothing is swallowed, and nothing but the detail text
    tells the causes apart. *)
Theorem failures_reported_not_swallowed
  (E : env) (file : UploadFile) (t : float) (w : world) :
  (forall e0, snd (detect_body E file t w) = inl e0 ->
     exists c,
       snd (detect_deepfake E file t w) = inl (HTTPException c (exc_str e0)) /\
       (threshold_ok t = true -> extension_ok (extension (filename file)) = true ->
        c = 500 /\ raised_after_validation e0)) /\
  (forall e, snd (detect_deepfake E file t w) = inl e ->
     exists e0, snd (detect_body E file t w) = inl e0) /\
  (forall v, snd (detect_deepfake E file t w) = inr v ->
     threshold_ok t = true /\
     extension_ok (extension (filename file)) = true /\
     api_key_set E = true /\
     exists new,
       calls (fst (detect_deepfake E file t w)) = calls w ++ new /\
       Forall (call_succeeded E) new).
Proof.
  rewrite detect_deepfake_body. cbn [fst snd]. split; [|split].
  - intros e0 He. rewrite He. cbn [reported]. exists 500. split; [reflexivity|].
    intros Ht Hx. split; [reflexivity|].
    rewrite detect_body_run, Ht, Hx in He. cbn [negb snd] in He.
    destruct (snd (vendor_result E file w)) as [e1|result] eqn:Hr; cbn [ebind] in He.
    + injection He as <-. eapply vendor_result_error; eauto.
    + eapply normalize_error; eauto.
  - intros e He. destruct (snd (detect_body E file t w)) as [e0|v]; [|discriminate].
    now exists e0.
  - intros v Hv. apply reported_inr_inv in Hv.
    rewrite detect_body_run in Hv |- *.
    destruct (threshold_ok t); cbn [negb] in *; [|discriminate].
    destruct (extension_ok _); cbn [negb] in *; [|discriminate].
    cbn [fst snd] in *.
    destruct (snd (vendor_result E file w)) as [e1|result] eqn:Hr; [discriminate|].
    destruct (vendor_result_success E file w result Hr) as (Hk & new & rq & Hc & Hall & _).
    repeat split; auto.
    exists (new ++ [scoring_request rq]). cbn [cleaned calls]. now split.
Qed.

Lemma failures_reported_not_swallowed_witness :
  snd (detect_body keyless_env sample_file 0.5 empty_world)
    = inl (HTTPException 500 "Server configuration error: NVIDIA API key not set") /\
  exists c,
    snd (detect_deepfake keyless_env sample_file 0.5 empty_world)
      = inl (HTTPException c
               (exc_str (HTTPException 500
                           "Server configuration error: NVIDIA API key not set"))) /\
    (threshold_ok 0.5 = true ->
     extension_ok (extension (filename sample_file)) = true ->
     c = 500 /\
     raised_after_validation
       (HTTPException 500 "Server configuration error: NVIDIA API key not set")).
Proof.
  assert (H : snd (detect_body keyless_env sample_file 0.5 empty_world)
              = inl (HTTPException 500
                       "Server configuration error: NVIDIA API key not set"))
    by (vm_compute; reflexivity).
  split; [assumption|].
  exact (proj1 (failures_reported_not_swallowed keyless_env sample_file 0.5 empty_world)
           _ H).
Defined.

(** C10: the default threshold [0.016] lies in [0,1], so a call that omits
    the threshold runs the handler with a threshold that passes the check
    of line 81: it never raises the threshold error. *)
Theorem default_threshold_passes_validation :
  default_threshold = 0.016%float /\
  threshold_ok default_threshold = true /\
  forall (E : env) (file : UploadFile) (w : world),
    post_detect E file None w = detect_deepfake E file default_threshold w /\
    snd (detect_body E file default_threshold w)
      <> inl (HTTPException 400 "Threshold must be between 0 and 1").
Proof.
  assert (Hd : threshold_ok default_threshold = true) by (vm_compute; reflexivity).
  split; [reflexivity|]. split; [exact Hd|].
  intros E file w. split; [reflexivity|].
  intros H. rewrite detect_body_run, Hd in H. cbn [negb] in H.
  destruct (extension_ok _); cbn [negb snd] in H; [|discriminate].
  destruct (snd (vendor_result E file w)) as [e1|result] eqn:Hr; cbn [ebind] in H.
  - injection H as ->. apply vendor_result_error in Hr. discriminate.
  - apply normalize_error in H. discriminate.
Qed.

End Claims.

(** * Further properties of the relay *)

(** ** The calls and the files of a run *)

Module TraceFacts.
Import Py PyStr Json Http Detector.
Import PyFacts RunFacts NormalizeFacts ErrorFacts.

(** The calls [upload_asset] makes for a MIME type and the bytes to
    transfer, with what it returns. *)
Definition upload_calls (E : env) (mime_type desc : string) (data : list Byte.byte)
  : list request * (exn + json) :=
  let reserve := reserve_request E mime_type desc in
  match checked_json ASSETS_URL (network E reserve) with
  | inl e => ([reserve], inl e)
  | inr j =>
      match py_getitem j "uploadUrl" with
      | inl e => ([reserve], inl e)
      | inr location =>
          match py_getitem j "assetId" with
          | inl e => ([reserve], inl e)
          | inr asset =>
              match as_url location with
              | inl e => ([reserve], inl e)
              | inr u =>
                  let transfer := transfer_request u mime_type desc data in
                  ([reserve; transfer],
                   match checked_status u (network E transfer) with
                   | inl e => inl e
                   | inr _ => inr asset
                   end)
              end
          end
      end
  end.

(** The vendor calls of a run that has passed validation and the key
    check, from the MIME type and the uploaded bytes. *)
Definition vendor_calls (E : env) (mime_type : string) (data : list Byte.byte)
  : list request :=
  let image_b64 := b64encode data in
  if (len image_b64 <? 180000)%Z then
    [scoring_request (inline_submission E mime_type image_b64)]
  else
    match upload_calls E mime_type "Input Image" data with
    | (cs, inl _) => cs
    | (cs, inr asset) =>
        match as_header_value asset with
        | inl _ => cs
        | inr ref => cs ++ [scoring_request (referenced_submission E mime_type ref)]
        end
    end.

Definition run_calls (E : env) (file : UploadFile) (t : float) : list request :=
  if threshold_ok t && extension_ok (extension (filename file)) && api_key_set E
  then vendor_calls E (mime_type_of (extension (filename file))) (content file)
  else [].

Lemma upload_asset_calls (E : env) (path desc mime_type : string) (w : world)
  (data : list Byte.byte) :
  dict_lookup path (files w) = Some data ->
  upload_asset E path desc mime_type w =
  (mkWorld (calls w ++ fst (upload_calls E mime_type desc data)) (files w),
   snd (upload_calls E mime_type desc data)).
Proof.
  intros Hd. rewrite upload_asset_run. unfold upload_calls. cbn zeta. rewrite Hd.
  destruct (checked_json ASSETS_URL _) as [e|j]; [reflexivity|].
  destruct (py_getitem j "uploadUrl") as [e|location]; [reflexivity|].
  destruct (py_getitem j "assetId") as [e|asset]; [reflexivity|].
  destruct (as_url location) as [e|u]; [reflexivity|].
  unfold sent. cbn [fst snd calls files]. now rewrite <- app_assoc.
Qed.

Lemma vendor_result_world (E : env) (file : UploadFile) (w : world) :
  fst (vendor_result E file w) =
  mkWorld
    (calls w ++ if api_key_set E
                then vendor_calls E (mime_type_of (extension (filename file))) (content file)
                else [])
    (files (staged E file w)).
Proof.
  rewrite vendor_result_run. cbn zeta.
  destruct (api_key_set E); cbn [negb fst].
  - rewrite build_request_run. unfold vendor_calls.
    destruct (len _ <? 180000)%Z.
    + reflexivity.
    + rewrite (upload_asset_calls E _ "Input Image" _ _ _ (staged_lookup E file w)).
      destruct (upload_calls E _ "Input Image" (content file)) as [cs [e|asset]];
        cbn [fst snd].
      * reflexivity.
      * destruct (as_header_value asset) as [e|asset_id]; cbn [fst calls files].
        -- reflexivity.
        -- now rewrite <- app_assoc.
  - unfold staged. cbn [calls files]. now rewrite app_nil_r.
Qed.

Lemma remove_file_idem (path : string) (fs : list (string * list Byte.byte)) :
  remove_file path (remove_file path fs) = remove_file path fs.
Proof.
  induction fs as [|[p c] r IH]; [reflexivity|].
  cbn [remove_file]. destruct (String.eqb p path) eqn:Hp; [exact IH|].
  cbn [remove_file]. now rewrite Hp, IH.
Qed.

Lemma detect_world (E : env) (file : UploadFile) (t : float) (w : world) :
  fst (detect_deepfake E file t w) =
  if threshold_ok t && extension_ok (extension (filename file)) then
    mkWorld (calls w ++ run_calls E file t)
            (remove_file (tmp_name E (extension (filename file))) (files w))
  else w.
Proof.
  rewrite detect_deepfake_run. unfold run_calls.
  destruct (threshold_ok t); cbn [negb andb]; [|reflexivity].
  destruct (extension_ok _); cbn [negb andb fst]; [|reflexivity].
  rewrite vendor_result_world. unfold cleaned, staged. cbn [calls files remove_file].
  now rewrite String.eqb_refl, remove_file_idem.
Qed.

Lemma dict_lookup_remove_same (path : string) (fs : list (string * list Byte.byte)) :
  dict_lookup path (remove_file path fs) = None.
Proof.
  induction fs as [|[p c] r IH]; [reflexivity|].
  cbn [remove_file]. destruct (String.eqb p path) eqn:Hp; [exact IH|].
  cbn [dict_lookup]. rewrite String.eqb_sym, Hp. exact IH.
Qed.

Lemma dict_lookup_remove_other (p path : string) (fs : list (string * list Byte.byte)) :
  p <> path -> dict_lookup p (remove_file path fs) = dict_lookup p fs.
Proof.
  intros Hne. induction fs as [|[q c] r IH]; [reflexivity|].
  cbn [remove_file dict_lookup]. destruct (String.eqb q path) eqn:Hq.
  - apply String.eqb_eq in Hq. subst q.
    destruct (String.eqb p path) eqn:Hp; [|exact IH].
    apply String.eqb_eq in Hp. contradiction.
  - cbn [dict_lookup]. now rewrite IH.
Qed.

End TraceFacts.

(** ** More scenarios *)

Module MoreScenarios.
Import Py PyStr Json Http Detector Scenarios.

(** The same bytes under another name and folder. *)
Definition renamed_file : UploadFile :=
  mkUploadFile "holiday/IMG_0042.png" [Byte.x4d; Byte.x61; Byte.x6e].

(** A world in which other files already exist. *)
Definition busy_world : world :=
  mkWorld [] [("/tmp/tmpq1w2e3.png", [Byte.x00]); ("/etc/hosts", [Byte.x31; Byte.x32])].

End MoreScenarios.

(** ** What a run sends and leaves behind *)

Module RunExtras.
Import Py PyStr Json Http Detector.
Import PyFacts RunFacts NormalizeFacts ErrorFacts TraceFacts Scenarios MoreScenarios.

(** Where a call of the relay may go and what it may carry: a PUT of the
    uploaded bytes without the bearer token, or a POST to one of the two
    vendor endpoints with it. *)
Definition permitted_call (E : env) (data : list Byte.byte) (rq : request) : Prop :=
  (method rq = "PUT" /\ body rq = DataBody data /\
   dict_lookup "Authorization" (headers rq) = None) \/
  (method rq = "POST" /\ (url rq = ASSETS_URL \/ url rq = INVOKE_URL) /\
   dict_lookup "Authorization" (headers rq) = Some (HEADER_AUTH E)).

Lemma reserve_permitted E mime desc data :
  permitted_call E data (reserve_request E mime desc).
Proof. right. repeat split; auto. Qed.

Lemma transfer_permitted E u mime desc data :
  permitted_call E data (transfer_request u mime desc data).
Proof. left. repeat split; auto. Qed.

Lemma scoring_inline_permitted E mime b64 data :
  permitted_call E data (scoring_request (inline_submission E mime b64)).
Proof. right. repeat split; auto. Qed.

Lemma scoring_referenced_permitted E mime ref data :
  permitted_call E data (scoring_request (referenced_submission E mime ref)).
Proof. right. destruct ref as [s [v|]]; repeat split; auto. Qed.

Lemma upload_calls_shape E mime desc data :
  (fst (upload_calls E mime desc data) = [reserve_request E mime desc] /\
   exists e, snd (upload_calls E mime desc data) = inl e) \/
  exists u, fst (upload_calls E mime desc data)
            = [reserve_request E mime desc; transfer_request u mime desc data].
Proof.
  unfold upload_calls. cbn zeta.
  destruct (checked_json ASSETS_URL _) as [e|j]; [left; split; [reflexivity|eexists; reflexivity]|].
  destruct (py_getitem j "uploadUrl") as [e|location]; [left; split; [reflexivity|eexists; reflexivity]|].
  destruct (py_getitem j "assetId") as [e|asset]; [left; split; [reflexivity|eexists; reflexivity]|].
  destruct (as_url location) as [e|u]; [left; split; [reflexivity|eexists; reflexivity]|].
  right. now exists u.
Qed.

(** The shapes of the calls of a run. *)
Lemma vendor_calls_shape E mime data :
  vendor_calls E mime data = [scoring_request (inline_submission E mime (b64encode data))] \/
  vendor_calls E mime data = [reserve_request E mime "Input Image"] \/
  (exists u, vendor_calls E mime data
             = [reserve_request E mime "Input Image";
                transfer_request u mime "Input Image" data]) \/
  (exists u ref, vendor_calls E mime data
             = [reserve_request E mime "Input Image";
                transfer_request u mime "Input Image" data;
                scoring_request (referenced_submission E mime ref)]).
Proof.
  unfold vendor_calls. cbn zeta.
  destruct (len _ <? 180000)%Z; [now left|]. right.
  destruct (upload_calls_shape E mime "Input Image" data) as [[H [e0 He]]|[u H]];
    destruct (upload_calls E mime "Input Image" data) as [cs [e|asset]];
    cbn [fst snd] in *; subst cs; try discriminate.
  - now left.
  - right. left. now exists u.
  - destruct (as_header_value asset) as [e|ref].
    + right. left. now exists u.
    + right. right. now exists u, ref.
Qed.

Lemma vendor_calls_permitted E mime data :
  Forall (permitted_call E data) (vendor_calls E mime data).
Proof.
  destruct (vendor_calls_shape E mime data) as [H|[H|[[u H]|[u [a H]]]]]; rewrite H;
    repeat (constructor;
            [first [apply reserve_permitted | apply transfer_permitted
                   | apply scoring_inline_permitted | apply scoring_referenced_permitted]|]);
    constructor.
Qed.

(** The calls depend on the process through its API key and the answers
    of the vendor only. *)
Lemma upload_calls_env (E1 E2 : env) (mime desc : string) (data : list Byte.byte) :
  NVIDIA_API_KEY E1 = NVIDIA_API_KEY E2 ->
  (forall rq, network E1 rq = network E2 rq) ->
  upload_calls E1 mime desc data = upload_calls E2 mime desc data.
Proof.
  intros Hk Hn. unfold upload_calls. cbn zeta.
  assert (Hr : reserve_request E1 mime desc = reserve_request E2 mime desc)
    by (unfold reserve_request, HEADER_AUTH; now rewrite Hk).
  rewrite Hr, Hn.
  destruct (checked_json ASSETS_URL _) as [e|j]; [reflexivity|].
  destruct (py_getitem j "uploadUrl") as [e|location]; [reflexivity|].
  destruct (py_getitem j "assetId") as [e|asset]; [reflexivity|].
  destruct (as_url location) as [e|u]; [reflexivity|].
  now rewrite Hn.
Qed.

Lemma vendor_calls_env (E1 E2 : env) (mime : string) (data : list Byte.byte) :
  NVIDIA_API_KEY E1 = NVIDIA_API_KEY E2 ->
  (forall rq, network E1 rq = network E2 rq) ->
  vendor_calls E1 mime data = vendor_calls E2 mime data.
Proof.
  intros Hk Hn. unfold vendor_calls. cbn zeta.
  destruct (len _ <? 180000)%Z.
  - unfold inline_submission, HEADER_AUTH. now rewrite Hk.
  - rewrite (upload_calls_env E1 E2 _ _ _ Hk Hn).
    destruct (upload_calls E2 mime "Input Image" data) as [cs [e|asset]]; [reflexivity|].
    destruct (as_header_value asset) as [e|ref]; [reflexivity|].
    unfold referenced_submission, HEADER_AUTH. now rewrite Hk.
Qed.

(** A process like [asset_env] in its key and its vendor, which names its
    temporary files otherwise. *)
Definition other_tmp_env : env :=
  mkEnv (NVIDIA_API_KEY asset_env) (network asset_env)
        (fun suffix => ("/var/tmp/upload" ++ suffix)%string).

(** The same bytes as [large_file] under another name. *)
Definition renamed_large_file : UploadFile :=
  mkUploadFile "archive/scan-2.JPG" (content large_file).

(** X1: what the vendor is sent depends on the uploaded bytes and their
    MIME type, on the API key of the process and on what the vendor answers
    along the way, and on nothing else: two valid requests with the same
    bytes and the same type, in processes with the same key and a vendor
    that answers the calls of both alike, make the same calls, whatever the
    file names, the thresholds, the temporary names and the worlds they
    start from.  (A vendor that reserves a new asset for each upload does
    not answer both alike once the asset-upload strategy is used.) *)
Theorem vendor_sees_type_and_bytes_only
  (E1 E2 : env) (f1 f2 : UploadFile) (t1 t2 : float) (w1 w2 : world) :
  threshold_ok t1 = true -> threshold_ok t2 = true ->
  extension_ok (extension (filename f1)) = true ->
  extension_ok (extension (filename f2)) = true ->
  NVIDIA_API_KEY E1 = NVIDIA_API_KEY E2 ->
  (forall rq, network E1 rq = network E2 rq) ->
  mime_type_of (extension (filename f1)) = mime_type_of (extension (filename f2)) ->
  content f1 = content f2 ->
  exists new,
    calls (fst (detect_deepfake E1 f1 t1 w1)) = calls w1 ++ new /\
    calls (fst (detect_deepfake E2 f2 t2 w2)) = calls w2 ++ new.
Proof.
  intros Ht1 Ht2 Hx1 Hx2 Hk Hn Hm Hc.
  exists (run_calls E1 f1 t1).
  rewrite !detect_world, Ht1, Ht2, Hx1, Hx2. cbn [andb calls].
  split; [reflexivity|].
  unfold run_calls, api_key_set. rewrite Ht1, Ht2, Hx1, Hx2, Hm, Hc, Hk.
  now rewrite (vendor_calls_env E1 E2 _ _ Hk Hn).
Qed.

Lemma vendor_sees_type_and_bytes_only_witness :
  threshold_ok 0.016 = true /\ threshold_ok 0.5 = true /\
  extension_ok (extension (filename large_file)) = true /\
  extension_ok (extension (filename renamed_large_file)) = true /\
  NVIDIA_API_KEY asset_env = NVIDIA_API_KEY other_tmp_env /\
  (forall rq, network asset_env rq = network other_tmp_env rq) /\
  mime_type_of (extension (filename large_file))
    = mime_type_of (extension (filename renamed_large_file)) /\
  content large_file = content renamed_large_file /\
  (180000 <= len (b64encode (content large_file)))%Z /\
  exists new,
    calls (fst (detect_deepfake asset_env large_file 0.016 empty_world))
      = calls empty_world ++ new /\
    calls (fst (detect_deepfake other_tmp_env renamed_large_file 0.5 busy_world))
      = calls busy_world ++ new.
Proof.
  assert (H1 : threshold_ok 0.016 = true) by (vm_compute; reflexivity).
  assert (H2 : threshold_ok 0.5 = true) by (vm_compute; reflexivity).
  assert (H3 : extension_ok (extension (filename large_file)) = true)
    by (vm_compute; reflexivity).
  assert (H4 : extension_ok (extension (filename renamed_large_file)) = true)
    by (vm_compute; reflexivity).
  assert (H5 : NVIDIA_API_KEY asset_env = NVIDIA_API_KEY other_tmp_env) by reflexivity.
  assert (H6 : forall rq, network asset_env rq = network other_tmp_env rq)
    by (intros rq; reflexivity).
  assert (H7 : mime_type_of (extension (filename large_file))
               = mime_type_of (extension (filename renamed_large_file)))
    by (vm_compute; reflexivity).
  assert (H8 : content large_file = content renamed_large_file) by reflexivity.
  assert (H9 : (180000 <= len (b64encode (content large_file)))%Z)
    by (rewrite Base64Facts.b64encode_length; cbn [large_file content];
        rewrite repeat_length, Z2Nat.id by lia; vm_compute; discriminate).
  repeat (split; [assumption|]).
  exact (vendor_sees_type_and_bytes_only asset_env other_tmp_env large_file
           renamed_large_file 0.016 0.5 empty_world busy_world H1 H2 H3 H4 H5 H6 H7 H8).
Defined.

(** X2: in every run, each call made is either the PUT of the uploaded
    bytes, which never carries the [Authorization] header, or a POST to one
    of the two vendor endpoints carrying the bearer token; the token goes
    nowhere else, in particular not to the pre-signed upload URL. *)
Theorem bearer_token_only_to_vendor_endpoints
  (E : env) (file : UploadFile) (t : float) (w : world) :
  exists new,
    calls (fst (detect_deepfake E file t w)) = calls w ++ new /\
    Forall (permitted_call E (content file)) new.
Proof.
  rewrite detect_world.
  destruct (threshold_ok t && extension_ok (extension (filename file))) eqn:Hv.
  - exists (run_calls E file t). split; [reflexivity|].
    unfold run_calls. rewrite Hv. cbn [andb].
    destruct (api_key_set E); [apply vendor_calls_permitted|constructor].
  - exists []. split; [now rewrite app_nil_r|constructor].
Qed.

(** X3: a run makes at most three vendor calls, and a scoring request, if
    there is one, is the last of them: nothing is sent after the scoring
    request and it is never repeated. *)
Theorem call_budget (E : env) (file : UploadFile) (t : float) (w : world) :
  exists new,
    calls (fst (detect_deepfake E file t w)) = calls w ++ new /\
    (length new <= 3)%nat /\
    existsb is_scoring_call (removelast new) = false.
Proof.
  rewrite detect_world.
  destruct (threshold_ok t && extension_ok (extension (filename file))) eqn:Hv.
  - exists (run_calls E file t). split; [reflexivity|].
    unfold run_calls. rewrite Hv. cbn [andb].
    destruct (api_key_set E); [|split; [cbn; lia|reflexivity]].
    destruct (vendor_calls_shape E (mime_type_of (extension (filename file)))
                (content file)) as [H|[H|[[u H]|[u [a H]]]]]; rewrite H;
      (split; [cbn; lia|reflexivity]).
  - exists []. split; [now rewrite app_nil_r|]. split; [cbn; lia|reflexivity].
Qed.

(** X4: with [NVIDIA_API_KEY] unset or empty, a valid request fails with
    the configuration error before any vendor call is made; the key check
    comes after the upload was staged, and the staged file is removed. *)
Theorem no_call_without_api_key
  (E : env) (file : UploadFile) (t : float) (w : world) :
  threshold_ok t = true ->
  extension_ok (extension (filename file)) = true ->
  api_key_set E = false ->
  snd (detect_deepfake E file t w)
    = inl (HTTPException 500 "500: Server configuration error: NVIDIA API key not set") /\
  calls (fst (detect_deepfake E file t w)) = calls w /\
  dict_lookup (tmp_name E (extension (filename file)))
    (files (fst (detect_deepfake E file t w))) = None.
Proof.
  intros Ht Hx Hk. rewrite detect_world, Ht, Hx. cbn [andb calls files].
  unfold run_calls. rewrite Ht, Hx, Hk. cbn [andb]. rewrite app_nil_r.
  split; [|split; [reflexivity|apply dict_lookup_remove_same]].
  rewrite detect_deepfake_run, Ht, Hx. cbn [negb snd].
  rewrite vendor_result_run, Hk. reflexivity.
Qed.

Lemma no_call_without_api_key_witness :
  threshold_ok 0.5 = true /\
  extension_ok (extension (filename sample_file)) = true /\
  api_key_set (mkEnv (Some "") (network sample_env) (tmp_name sample_env)) = false /\
  snd (detect_deepfake (mkEnv (Some "") (network sample_env) (tmp_name sample_env))
         sample_file 0.5 empty_world)
    = inl (HTTPException 500 "500: Server configuration error: NVIDIA API key not set") /\
  calls (fst (detect_deepfake (mkEnv (Some "") (network sample_env) (tmp_name sample_env))
                sample_file 0.5 empty_world)) = calls empty_world.
Proof.
  assert (H1 : threshold_ok 0.5 = true) by (vm_compute; reflexivity).
  assert (H2 : extension_ok (extension (filename sample_file)) = true)
    by (vm_compute; reflexivity).
  assert (H3 : api_key_set (mkEnv (Some "") (network sample_env) (tmp_name sample_env))
               = false) by reflexivity.
  repeat (split; [assumption|]).
  pose proof (no_call_without_api_key _ sample_file 0.5 empty_world H1 H2 H3) as [Ha [Hb _]].
  split; assumption.
Defined.

Lemma build_request_files (E : env) (path mime b64 : string) (w : world) :
  files (fst (build_request E path mime b64 w)) = files w.
Proof.
  rewrite build_request_run. destruct (len b64 <? 180000)%Z; [reflexivity|].
  destruct (upload_asset E path "Input Image" mime w) as [w1 r] eqn:Hup.
  destruct (upload_asset_trace _ _ _ _ _ _ _ Hup) as [Hf _].
  destruct r as [e|asset]; [exact Hf|].
  now destruct (as_header_value asset).
Qed.

(** Fetching the vendor's result creates and removes no file. *)
Lemma fetch_result_files (E : env) (ext tmp_path : string) (w : world) :
  files (fst (fetch_result E ext tmp_path w)) = files w.
Proof.
  unfold fetch_result. cbn zeta. unfold bind at 1, open_rb.
  destruct (dict_lookup tmp_path (files w)) as [data|]; [|reflexivity].
  destruct (negb (api_key_set E)); [reflexivity|].
  unfold bind at 1.
  pose proof (build_request_files E tmp_path
                (if str_in ext [".jpg"; ".jpeg"] then "image/jpeg" else "image/png")
                (b64encode data) w) as Hf.
  destruct (build_request _ _ _ _ _) as [w2 [e|rq]]; cbn [fst] in Hf; [exact Hf|].
  unfold bind, requests_post, send, raise_for_status, response_json, raise, ret.
  destruct (network E _) as [msg|resp]; [exact Hf|].
  destruct ((400 <=? status_code resp) && (status_code resp <? 500))%Z; [exact Hf|].
  destruct ((500 <=? status_code resp) && (status_code resp <? 600))%Z; [exact Hf|].
  now destruct (json_result resp).
Qed.

(** The handler with the staging step left open, once validation has
    passed. *)
Lemma detect_deepfake_with_run (E : env) (stage : string -> list Byte.byte -> M string)
  (file : UploadFile) (t : float) (w : world) :
  threshold_ok t = true ->
  extension_ok (extension (filename file)) = true ->
  detect_deepfake_with E stage file t w =
  match stage (extension (filename file)) (content file) w with
  | (w1, inl e) => (w1, inl (HTTPException 500 (exc_str e)))
  | (w1, inr tmp_path) =>
      let r := fetch_result E (extension (filename file)) tmp_path w1 in
      (mkWorld (calls (fst r)) (remove_file tmp_path (files (fst r))),
       reported (ebind (snd r) (normalize (filename file) t)))
  end.
Proof.
  intros Ht Hx.
  unfold detect_deepfake_with, detect_body_with, try_except, raise.
  rewrite Ht, Hx. cbn [negb]. cbn zeta. unfold bind at 1.
  destruct (stage _ _ w) as [w1 [e|tmp_path]]; [reflexivity|].
  unfold try_finally, bind, lift, remove_if_exists.
  destruct (fetch_result _ _ _ _) as [w2 [e|result]]; cbn [fst snd ebind reported];
    [reflexivity|].
  now destruct (normalize (filename file) t result).
Qed.

(** A staging step that fails after it has created the file: the disk is
    full. *)
Definition disk_full (E : env) (suffix : string) (content : list Byte.byte) : M string :=
  fun w =>
    (mkWorld (calls w) ((tmp_name E suffix, []) :: remove_file (tmp_name E suffix) (files w)),
     inl (PyError OSError "[Errno 28] No space left on device")).

(** X5: the temporary copy of the upload is removed by the [finally] of
    the inner [try], which is entered once the copy has been written.  When
    validation has passed and the staging step (lines 96-100) has returned
    the path, that path names no file when the handler returns, on success
    and on every later failure, and every other file is as the staging step
    left it.  When the staging step itself raises, the handler reports the
    exception and leaves the world as that step left it: nothing is
    removed, and a file the step has created stays. *)
Theorem temp_file_released
  (E : env) (stage : string -> list Byte.byte -> M string)
  (file : UploadFile) (t : float) (w : world) :
  threshold_ok t = true ->
  extension_ok (extension (filename file)) = true ->
  let w' := fst (detect_deepfake_with E stage file t w) in
  match stage (extension (filename file)) (content file) w with
  | (w1, inr tmp_path) =>
      dict_lookup tmp_path (files w') = None /\
      forall p, p <> tmp_path -> dict_lookup p (files w') = dict_lookup p (files w1)
  | (w1, inl e) =>
      detect_deepfake_with E stage file t w = (w1, inl (HTTPException 500 (exc_str e)))
  end.
Proof.
  intros Ht Hx w'. unfold w'.
  rewrite (detect_deepfake_with_run E stage file t w Ht Hx).
  destruct (stage _ _ w) as [w1 [e|tmp_path]]; [reflexivity|].
  cbn zeta. cbn [fst files]. rewrite fetch_result_files. split.
  - apply dict_lookup_remove_same.
  - intros p Hp. now apply dict_lookup_remove_other.
Qed.

Lemma temp_file_released_witness :
  threshold_ok 0.5 = true /\
  extension_ok (extension (filename renamed_file)) = true /\
  (dict_lookup (tmp_name sample_env (extension (filename renamed_file)))
     (files (fst (detect_deepfake sample_env renamed_file 0.5 busy_world))) = None /\
   forall p, p <> tmp_name sample_env (extension (filename renamed_file)) ->
     dict_lookup p (files (fst (detect_deepfake sample_env renamed_file 0.5 busy_world)))
     = dict_lookup p (files (staged sample_env renamed_file busy_world))) /\
  detect_deepfake_with sample_env (disk_full sample_env) renamed_file 0.5 busy_world
  = (mkWorld [] [("/tmp/tmpq1w2e3.png", []); ("/etc/hosts", [Byte.x31; Byte.x32])],
     inl (HTTPException 500 "[Errno 28] No space left on device")).
Proof.
  assert (H1 : threshold_ok 0.5 = true) by (vm_compute; reflexivity).
  assert (H2 : extension_ok (extension (filename renamed_file)) = true)
    by (vm_compute; reflexivity).
  repeat (split; [assumption|]).
  split.
  - exact (temp_file_released sample_env (named_temporary_file sample_env) renamed_file
             0.5 busy_world H1 H2).
  - exact (temp_file_released sample_env (disk_full sample_env) renamed_file
             0.5 busy_world H1 H2).
Defined.

(** X6: a request that fails validation leaves the world exactly as it
    was (no temporary file, no vendor call); the threshold is checked
    first, so its message wins when both checks fail. *)
Theorem invalid_input_changes_nothing
  (E : env) (file : UploadFile) (t : float) (w : world) :
  threshold_ok t && extension_ok (extension (filename file)) = false ->
  detect_deepfake E file t w =
  (w, inl (HTTPException 500
             (if threshold_ok t
              then "400: Invalid file type. Only jpg, jpeg, and png are supported."
              else "400: Threshold must be between 0 and 1"))).
Proof.
  intros H. rewrite detect_deepfake_run.
  destruct (threshold_ok t); cbn [negb andb] in *; [|reflexivity].
  now rewrite H.
Qed.

Lemma invalid_input_changes_nothing_witness :
  threshold_ok nan && extension_ok (extension (filename (mkUploadFile "notes.txt" []))) = false /\
  detect_deepfake sample_env (mkUploadFile "notes.txt" []) nan busy_world =
  (busy_world, inl (HTTPException 500 "400: Threshold must be between 0 and 1")).
Proof.
  assert (H : threshold_ok nan
              && extension_ok (extension (filename (mkUploadFile "notes.txt" []))) = false)
    by (vm_compute; reflexivity).
  split; [assumption|].
  exact (invalid_input_changes_nothing sample_env (mkUploadFile "notes.txt" []) nan
           busy_world H).
Defined.

End RunExtras.

(** ** The upload helper and the verdict, further *)

Module VerdictExtras.
Import Py PyStr Json Http Detector.
Import PyFacts FloatBridge Base64Facts RankFacts RunFacts NormalizeFacts ErrorFacts.
Import TraceFacts Scenarios MoreScenarios.
Local Open Scope Z_scope.

Lemma status_accept (c : Z) :
  ((400 <=? c) && (c <? 600))%Z = false ->
  ((400 <=? c) && (c <? 500))%Z = false /\ ((500 <=? c) && (c <? 600))%Z = false.
Proof. rewrite !andb_false_iff, !Z.leb_gt, !Z.ltb_ge. lia. Qed.

Lemma checked_status_accept (u : string) (resp : response) :
  ((400 <=? status_code resp) && (status_code resp <? 600))%Z = false ->
  checked_status u (inr resp) = inr resp.
Proof.
  intros H. destruct (status_accept _ H) as [H4 H5].
  unfold checked_status. cbn zeta. now rewrite H4, H5.
Qed.

Lemma checked_json_accept (u : string) (resp : response) (j : json) :
  ((400 <=? status_code resp) && (status_code resp <? 600))%Z = false ->
  json_result resp = inr j ->
  checked_json u (inr resp) = inr j.
Proof.
  intros H Hj. destruct (status_accept _ H) as [H4 H5].
  unfold checked_json. cbn zeta. now rewrite H4, H5, Hj.
Qed.

(** X7: when the reservation is answered with a success status and an
    object holding a string [uploadUrl] and an [assetId], and the transfer
    to that URL is answered with a success status, [upload_asset] makes
    exactly these two calls, sends the file's bytes in the second, and
    returns the reserved asset id; the body of the transfer's answer is
    never read. *)
Theorem upload_asset_returns_reserved_id
  (E : env) (path desc mime_type : string) (w : world) (data : list Byte.byte)
  (resp resp2 : response) (d : list (string * json)) (u : string) (asset : json) :
  dict_lookup path (files w) = Some data ->
  network E (reserve_request E mime_type desc) = inr resp ->
  ((400 <=? status_code resp) && (status_code resp <? 600))%Z = false ->
  json_result resp = inr (JDict d) ->
  dict_lookup "uploadUrl" d = Some (JStr u) ->
  dict_lookup "assetId" d = Some asset ->
  network E (transfer_request u mime_type desc data) = inr resp2 ->
  ((400 <=? status_code resp2) && (status_code resp2 <? 600))%Z = false ->
  upload_asset E path desc mime_type w =
  (mkWorld (calls w ++ [reserve_request E mime_type desc;
                        transfer_request u mime_type desc data]) (files w),
   inr asset).
Proof.
  intros Hd Hn Hs Hj Hu Ha Hn2 Hs2.
  rewrite (upload_asset_calls E path desc mime_type w data Hd).
  unfold upload_calls. cbn zeta.
  rewrite Hn, (checked_json_accept _ _ _ Hs Hj).
  cbn [py_getitem]. rewrite Hu, Ha. cbn [as_url].
  rewrite Hn2, (checked_status_accept _ _ Hs2). reflexivity.
Qed.

Lemma upload_asset_returns_reserved_id_witness :
  exists w1,
    upload_asset asset_env "/tmp/tmpq1w2e3.png" "Input Image" "image/png"
      (mkWorld [] [("/tmp/tmpq1w2e3.png", [Byte.x4d])]) = (w1, inr (JStr "asset-42")) /\
    map (fun rq => (method rq, url rq, body rq)) (calls w1)
    = [("POST", ASSETS_URL,
        JsonBody (JDict [("contentType", JStr "image/png");
                         ("description", JStr "Input Image")]));
       ("PUT", "https://bucket.example/put", DataBody [Byte.x4d])].
Proof.
  eexists. split.
  - eapply (upload_asset_returns_reserved_id asset_env "/tmp/tmpq1w2e3.png" "Input Image"
              "image/png" _ [Byte.x4d]); reflexivity.
  - reflexivity.
Defined.

(** X8: when the reservation is answered with a success status and an
    object that lacks [uploadUrl], or has it but lacks [assetId],
    [upload_asset] raises the [KeyError] of the missing key after the
    reservation alone: nothing is transferred. *)
Theorem upload_asset_missing_key_sends_no_transfer
  (E : env) (path desc mime_type : string) (w : world)
  (resp : response) (d : list (string * json)) :
  network E (reserve_request E mime_type desc) = inr resp ->
  ((400 <=? status_code resp) && (status_code resp <? 600))%Z = false ->
  json_result resp = inr (JDict d) ->
  dict_lookup "uploadUrl" d = None \/ dict_lookup "assetId" d = None ->
  upload_asset E path desc mime_type w =
  (mkWorld (calls w ++ [reserve_request E mime_type desc]) (files w),
   inl (PyError KeyError
          (match dict_lookup "uploadUrl" d with
           | None => "'uploadUrl'"
           | Some _ => "'assetId'"
           end))).
Proof.
  intros Hn Hs Hj Hk. rewrite upload_asset_run. cbn zeta.
  rewrite Hn, (checked_json_accept _ _ _ Hs Hj). cbn [py_getitem].
  destruct (dict_lookup "uploadUrl" d) as [x|]; [|reflexivity].
  destruct Hk as [Hk|Hk]; [discriminate|]. now rewrite Hk.
Qed.

Lemma upload_asset_missing_key_sends_no_transfer_witness :
  upload_asset (answering (JDict [("uploadUrl", JStr "https://bucket.example/put")]))
    "/tmp/tmpq1w2e3.png" "Input Image" "image/png" empty_world =
  (mkWorld [reserve_request (answering (JDict [("uploadUrl",
                                                JStr "https://bucket.example/put")]))
              "image/png" "Input Image"] [],
   inl (PyError KeyError "'assetId'")).
Proof.
  exact (upload_asset_missing_key_sends_no_transfer
           (answering (JDict [("uploadUrl", JStr "https://bucket.example/put")]))
           "/tmp/tmpq1w2e3.png" "Input Image" "image/png" empty_world
           (mkResponse 200 "OK"
              (inr (JDict [("uploadUrl", JStr "https://bucket.example/put")])))
           [("uploadUrl", JStr "https://bucket.example/put")]
           eq_refl eq_refl eq_refl (or_intror eq_refl)).
Defined.

(** X9: the thresholds the handler accepts are exactly the finite floats
    whose value lies between 0 and 1, both included; a NaN and the
    infinities are refused. *)
Theorem accepted_threshold_range (t : float) :
  threshold_ok t = true <->
  exists q, float_val t = XFin q /\ (0 <= q)%Q /\ (q <= 1)%Q.
Proof.
  unfold threshold_ok, py_le, py_compare. cbn [num_val int_of_bool].
  destruct (float_val t) as [|[]|q].
  - cbn [xcompare]. split; [discriminate|]. intros (q & H & _). discriminate.
  - cbn [xcompare]. split; [discriminate|]. intros (q & H & _). discriminate.
  - cbn [xcompare]. split; [discriminate|]. intros (q & H & _). discriminate.
  - rewrite !xcompare_fin. split.
    + intros H. apply andb_prop in H. destruct H as [H0 H1].
      exists q. split; [reflexivity|]. split; apply Qle_alt.
      * change 0%Q with (inject_Z 0). intros Hc. rewrite Hc in H0. discriminate.
      * change 1%Q with (inject_Z 1). intros Hc. rewrite Hc in H1. discriminate.
    + intros (q' & [= <-] & H0 & H1).
      pose proof (proj1 (Qle_alt _ _) H0) as G0.
      pose proof (proj1 (Qle_alt _ _) H1) as G1.
      destruct (inject_Z 0 ?= q)%Q eqn:C0; [| |exfalso; apply G0; exact C0];
        (destruct (q ?= inject_Z 1)%Q eqn:C1;
         [reflexivity|reflexivity|exfalso; apply G1; exact C1]).
Qed.

Lemma StronglySorted_app_cross {A} (R : A -> A -> Prop) (a b : list A) :
  StronglySorted R (a ++ b) -> forall x y, In x a -> In y b -> R x y.
Proof.
  induction a as [|h a IH]; intros Hs x y Hx Hy; [contradiction|].
  cbn [app] in Hs. inversion Hs as [|? ? Hs' Hh]; subst.
  destruct Hx as [->|Hx].
  - rewrite Forall_forall in Hh. apply Hh, in_or_app. now right.
  - now apply IH.
Qed.

(** X10: what is left out of [top_sources] never outranks what is in it:
    the sources split into the returned ones and the rest, every returned
    weight is at least every remaining weight, and exactly
    [min 3 (number of sources)] are returned. *)
Theorem unreturned_sources_rank_no_higher
  (E : env) (file : UploadFile) (t : float) (w : world)
  (result : json) (dd : list (string * json)) (weighted : list (string * pynum))
  (v : verdict) :
  threshold_ok t = true ->
  extension_ok (extension (filename file)) = true ->
  snd (vendor_result E file w) = inr result ->
  detection_of result = Some dd ->
  dict_lookup "possible_sources" dd = Some (as_mapping weighted) ->
  no_nan weighted ->
  snd (detect_deepfake E file t w) = inr v ->
  length (top_sources v) = Nat.min 3 (length weighted) /\
  exists rest,
    Permutation (top_sources v ++ rest) weighted /\
    forall x y, In x (top_sources v) -> In y rest -> weight_ge x y.
Proof.
  intros Ht Hx Hr Hd Hs Hn Hv.
  rewrite (Claims.detect_outcome E file t w result Ht Hx Hr) in Hv.
  rewrite (normalize_detection _ _ _ _ Hd) in Hv.
  apply Claims.reported_inr_inv, read_detection_inv in Hv.
  destruct Hv as (items & weighted' & score & Hit & Hni & _ & _ & ->).
  assert (weighted' = weighted).
  { unfold sources_field in Hit. rewrite Hs in Hit. unfold as_mapping in Hit.
    injection Hit as <-. rewrite numeric_items_map in Hni. congruence. }
  subst weighted'. cbn [make_verdict top_sources]. split.
  - now rewrite length_firstn, sorted_reverse_length.
  - exists (skipn 3 (sorted_reverse weighted)). split.
    + rewrite firstn_skipn. apply sorted_reverse_perm.
    + apply StronglySorted_app_cross. rewrite firstn_skipn.
      now apply sorted_reverse_sorted.
Qed.

Definition five_weights : list (string * pynum) :=
  [("sd", PyFloat 0.2); ("mj", PyFloat 0.7); ("dalle", PyInt 0); ("flux", PyFloat 0.7);
   ("gan", PyFloat 0.05)].

Definition five_detection : list (string * json) :=
  [("possible_sources", as_mapping five_weights); ("is_ai_generated", JNum (PyFloat 0.9))].

Definition five_result : json :=
  JDict [("status", JStr "ok"); ("data", JList [JDict five_detection; JNull])].

Lemma unreturned_sources_rank_no_higher_witness :
  exists v,
    snd (detect_deepfake (answering five_result) sample_file 0.5 empty_world) = inr v /\
    map fst (top_sources v) = ["mj"; "flux"; "sd"] /\
    length (top_sources v) = Nat.min 3 (length five_weights) /\
    exists rest,
      Permutation (top_sources v ++ rest) five_weights /\
      forall x y, In x (top_sources v) -> In y rest -> weight_ge x y.
Proof.
  assert (H1 : threshold_ok 0.5 = true) by (vm_compute; reflexivity).
  assert (H2 : extension_ok (extension (filename sample_file)) = true)
    by (vm_compute; reflexivity).
  assert (H3 : snd (vendor_result (answering five_result) sample_file empty_world)
               = inr five_result) by (vm_compute; reflexivity).
  assert (H4 : detection_of five_result = Some five_detection) by reflexivity.
  assert (H5 : dict_lookup "possible_sources" five_detection
               = Some (as_mapping five_weights)) by reflexivity.
  assert (H6 : no_nan five_weights) by (repeat constructor).
  assert (H7 : snd (detect_deepfake (answering five_result) sample_file 0.5 empty_world)
               = inr (make_verdict "cat.PNG" 0.5 (PyFloat 0.9) five_weights))
    by (vm_compute; reflexivity).
  eexists. split; [exact H7|]. split; [vm_compute; reflexivity|].
  exact (unreturned_sources_rank_no_higher (answering five_result) sample_file 0.5
           empty_world five_result five_detection five_weights _ H1 H2 H3 H4 H5 H6 H7).
Defined.

Lemma xcompare_gt_le_trans (s a b : xval) :
  xcompare s b = Some Gt ->
  (xcompare a b = Some Lt \/ xcompare a b = Some Eq) ->
  xcompare s a = Some Gt.
Proof.
  destruct s as [|[]|p], a as [|[]|q], b as [|[]|r];
    try (cbn [xcompare]; intros H [H'|H']; first [discriminate|reflexivity]).
  rewrite !xcompare_fin. intros [= H] H'. f_equal.
  apply Qgt_alt. apply Qgt_alt in H.
  apply Qle_lt_trans with r; [|exact H].
  destruct H' as [[= H']|[= H']].
  - apply Qlt_le_weak. now apply Qlt_alt.
  - apply Qeq_alt in H'. rewrite H'. apply Qle_refl.
Qed.

Lemma py_gt_le_trans (s a b : pynum) :
  py_gt s b = true -> py_le a b = true -> py_gt s a = true.
Proof.
  unfold py_gt, py_le, py_compare. intros H1 H2.
  rewrite (xcompare_gt_le_trans (num_val s) (num_val a) (num_val b)); [reflexivity| |].
  - now destruct (xcompare (num_val s) (num_val b)) as [[]|].
  - destruct (xcompare (num_val a) (num_val b)) as [[]|]; auto; discriminate.
Qed.

(** Whether the two f-strings of a verdict can be evaluated does not
    depend on the file name and the threshold. *)
Lemma formatted_verdict_indep (name name' : string) (t t' : float) (score : pynum)
  (weighted : list (string * pynum)) :
  formatted (sources_message (make_verdict name t score weighted))
  = formatted (sources_message (make_verdict name' t' score weighted)) /\
  formatted (message (make_verdict name t score weighted))
  = formatted (message (make_verdict name' t' score weighted)).
Proof.
  split; [reflexivity|].
  unfold make_verdict.
  cbn [message formatted formatted_piece str_prints ebind]. reflexivity.
Qed.

(** The score and the weighted sources of a response, read as the
    normalisation reads them (lines 155-158 and the operands of the sort, of
    the rounding and of the two f-strings). *)
Definition read_response (result : json) : exn + (pynum * list (string * pynum)) :=
  ebind (has_results result) (fun ok =>
  if ok then
    ebind (py_getitem result "data") (fun d =>
    ebind (py_first d) (fun detection_data =>
    ebind (py_get detection_data "is_ai_generated" (JNum (PyInt 0))) (fun score_json =>
    ebind (py_get detection_data "possible_sources" (JDict [])) (fun possible_sources =>
    ebind (py_items possible_sources) (fun items =>
    ebind (numeric_items items) (fun weighted =>
    ebind (as_number score_json) (fun score =>
    let v := make_verdict EmptyString 0 score weighted in
    ebind (formatted (sources_message v)) (fun _ =>
    ebind (formatted (message v)) (fun _ =>
    inr (score, weighted))))))))))
  else inl (HTTPException 500 "Invalid response format from NVIDIA API")).

Lemma normalize_read_response (name : string) (t : float) (result : json) :
  normalize name t result =
  ebind (read_response result) (fun p => inr (make_verdict name t (fst p) (snd p))).
Proof.
  unfold normalize, read_response.
  repeat match goal with
         | |- context [ebind ?r _] =>
             lazymatch r with
             | formatted _ => fail
             | ebind _ _ => fail
             | _ => idtac
             end;
             is_var r || (destruct r as [?e|?]; cbn [ebind]; [reflexivity|])
         | |- context [if ?b then _ else _] => destruct b; [|reflexivity]
         end.
  cbn zeta.
  match goal with
  | |- context [make_verdict name t ?s ?w] =>
      destruct (formatted_verdict_indep name EmptyString t 0 s w) as [H1 H2]
  end.
  rewrite H1, H2.
  destruct (formatted (sources_message _)) as [e|u1]; [reflexivity|]. cbn [ebind].
  now destruct (formatted (message _)) as [e|u2].
Qed.

(** Where the threshold enters: the outcome of a valid request is the
    verdict made of what was read from the vendor. *)
Lemma detect_outcome_read (E : env) (file : UploadFile) (t : float) (w : world) :
  threshold_ok t = true ->
  extension_ok (extension (filename file)) = true ->
  snd (detect_deepfake E file t w) =
  reported (ebind (ebind (snd (vendor_result E file w)) read_response)
              (fun p => inr (make_verdict (filename file) t (fst p) (snd p)))).
Proof.
  intros Ht Hx. rewrite detect_deepfake_run, Ht, Hx. cbn [negb snd].
  destruct (snd (vendor_result E file w)) as [e|result]; [reflexivity|].
  cbn [ebind]. now rewrite normalize_read_response.
Qed.

(** X11: raising the threshold never flags more: if an image is flagged at
    a threshold it is flagged at every valid lower threshold, the vendor
    answering the same. *)
Theorem flag_antitone_in_threshold
  (E : env) (file : UploadFile) (t1 t2 : float) (w : world) (v1 v2 : verdict) :
  threshold_ok t1 = true -> threshold_ok t2 = true ->
  extension_ok (extension (filename file)) = true ->
  py_le (PyFloat t1) (PyFloat t2) = true ->
  snd (detect_deepfake E file t1 w) = inr v1 ->
  snd (detect_deepfake E file t2 w) = inr v2 ->
  is_ai_generated v2 = true -> is_ai_generated v1 = true.
Proof.
  intros Ht1 Ht2 Hx Hle H1 H2.
  rewrite (detect_outcome_read E file t1 w Ht1 Hx) in H1.
  rewrite (detect_outcome_read E file t2 w Ht2 Hx) in H2.
  apply Claims.reported_inr_inv in H1, H2.
  destruct (ebind (snd (vendor_result E file w)) read_response) as [e|[score weighted]];
    [discriminate|].
  cbn [ebind fst snd] in H1, H2. injection H1 as <-. injection H2 as <-.
  cbn [make_verdict is_ai_generated]. intros H. eapply py_gt_le_trans; eauto.
Qed.

Lemma flag_antitone_in_threshold_witness :
  exists v1 v2,
    snd (detect_deepfake sample_env sample_file 0.016 empty_world) = inr v1 /\
    snd (detect_deepfake sample_env sample_file 0.019 empty_world) = inr v2 /\
    is_ai_generated v2 = true /\ is_ai_generated v1 = true.
Proof.
  assert (H1 : threshold_ok 0.016 = true) by (vm_compute; reflexivity).
  assert (H2 : threshold_ok 0.019 = true) by (vm_compute; reflexivity).
  assert (H3 : extension_ok (extension (filename sample_file)) = true)
    by (vm_compute; reflexivity).
  assert (H4 : py_le (PyFloat 0.016) (PyFloat 0.019) = true) by (vm_compute; reflexivity).
  assert (H5 : snd (detect_deepfake sample_env sample_file 0.016 empty_world)
               = inr (make_verdict "cat.PNG" 0.016 (PyFloat 0.02)
                        [("a", PyFloat 0.5); ("b", PyFloat 0.3); ("c", PyFloat 0.1);
                         ("d", PyFloat 0.05)]))
    by (vm_compute; reflexivity).
  assert (H6 : snd (detect_deepfake sample_env sample_file 0.019 empty_world)
               = inr (make_verdict "cat.PNG" 0.019 (PyFloat 0.02)
                        [("a", PyFloat 0.5); ("b", PyFloat 0.3); ("c", PyFloat 0.1);
                         ("d", PyFloat 0.05)]))
    by (vm_compute; reflexivity).
  assert (H7 : is_ai_generated (make_verdict "cat.PNG" 0.019 (PyFloat 0.02)
                        [("a", PyFloat 0.5); ("b", PyFloat 0.3); ("c", PyFloat 0.1);
                         ("d", PyFloat 0.05)]) = true)
    by (vm_compute; reflexivity).
  eexists _, _. split; [exact H5|]. split; [exact H6|]. split; [exact H7|].
  exact (flag_antitone_in_threshold sample_env sample_file 0.016 0.019 empty_world _ _
           H1 H2 H3 H4 H5 H6 H7).
Defined.

(** X12: among valid thresholds, the threshold decides nothing but the
    flag, the message and its own echo: the world after the run, whether
    the run fails and with which exception, and the rounded confidences,
    the ranked sources, their message, the file name and the status of the
    verdict are the same at any two of them. *)
Theorem threshold_affects_flag_only
  (E : env) (file : UploadFile) (t1 t2 : float) (w : world) :
  threshold_ok t1 = true -> threshold_ok t2 = true ->
  extension_ok (extension (filename file)) = true ->
  fst (detect_deepfake E file t1 w) = fst (detect_deepfake E file t2 w) /\
  match snd (detect_deepfake E file t1 w), snd (detect_deepfake E file t2 w) with
  | inl e1, inl e2 => e1 = e2
  | inr v1, inr v2 =>
      confidence v1 = confidence v2 /\
      confidence_score v1 = confidence_score v2 /\
      top_sources v1 = top_sources v2 /\
      sources_message v1 = sources_message v2 /\
      v_filename v1 = v_filename v2 /\
      status v1 = status v2 /\
      threshold v1 = t1 /\ threshold v2 = t2
  | _, _ => False
  end.
Proof.
  intros Ht1 Ht2 Hx. split.
  - rewrite !detect_world, Ht1, Ht2, Hx. cbn [andb]. unfold run_calls.
    now rewrite Ht1, Ht2, Hx.
  - rewrite (detect_outcome_read E file t1 w Ht1 Hx).
    rewrite (detect_outcome_read E file t2 w Ht2 Hx).
    destruct (ebind (snd (vendor_result E file w)) read_response) as [e|[score weighted]];
      cbn [ebind reported fst snd]; [reflexivity|].
    repeat split; reflexivity.
Qed.

Lemma threshold_affects_flag_only_witness :
  fst (detect_deepfake sample_env sample_file 0 empty_world)
    = fst (detect_deepfake sample_env sample_file 1 empty_world) /\
  match snd (detect_deepfake sample_env sample_file 0 empty_world),
        snd (detect_deepfake sample_env sample_file 1 empty_world) with
  | inl e1, inl e2 => e1 = e2
  | inr v1, inr v2 =>
      confidence v1 = confidence v2 /\
      confidence_score v1 = confidence_score v2 /\
      top_sources v1 = top_sources v2 /\
      sources_message v1 = sources_message v2 /\
      v_filename v1 = v_filename v2 /\
      status v1 = status v2 /\
      threshold v1 = 0%float /\ threshold v2 = 1%float
  | _, _ => False
  end.
Proof.
  assert (H1 : threshold_ok 0 = true) by (vm_compute; reflexivity).
  assert (H2 : threshold_ok 1 = true) by (vm_compute; reflexivity).
  assert (H3 : extension_ok (extension (filename sample_file)) = true)
    by (vm_compute; reflexivity).
  exact (threshold_affects_flag_only sample_env sample_file 0 1 empty_world H1 H2 H3).
Defined.

(** X13: only the first entry of [data], and in it only the fields
    [is_ai_generated] and [possible_sources], reach the verdict: two
    responses whose first entries agree on these two fields are normalised
    alike, whatever else they hold. *)
Theorem only_first_detection_counts
  (name : string) (t : float) (r1 r2 : json) (d1 d2 : list (string * json)) :
  detection_of r1 = Some d1 ->
  detection_of r2 = Some d2 ->
  dict_lookup "is_ai_generated" d1 = dict_lookup "is_ai_generated" d2 ->
  dict_lookup "possible_sources" d1 = dict_lookup "possible_sources" d2 ->
  normalize name t r1 = normalize name t r2.
Proof.
  intros H1 H2 Hs Hp.
  rewrite (normalize_detection _ _ _ _ H1), (normalize_detection _ _ _ _ H2).
  unfold read_detection, sources_field, score_field. now rewrite Hs, Hp.
Qed.

Definition annotated_detection : list (string * json) :=
  ("model", JStr "v3") :: five_detection.

Definition annotated_result : json :=
  JDict [("data", JList [JDict annotated_detection;
                         JDict [("is_ai_generated", JNum (PyFloat 0.1))]])].

Lemma only_first_detection_counts_witness :
  normalize "cat.PNG" 0.5 five_result = normalize "cat.PNG" 0.5 annotated_result.
Proof.
  exact (only_first_detection_counts "cat.PNG" 0.5 five_result annotated_result
           five_detection annotated_detection eq_refl eq_refl eq_refl eq_refl).
Defined.

(** X14: in bytes, the boundary of the two strategies: with a valid
    request and the key set, an upload of at most 134,997 bytes is sent
    inline in a single call, and from 134,998 bytes on the first call is the
    reservation of an asset. *)
Theorem inline_iff_small_upload
  (E : env) (file : UploadFile) (t : float) (w : world) :
  threshold_ok t = true ->
  extension_ok (extension (filename file)) = true ->
  api_key_set E = true ->
  let mime := mime_type_of (extension (filename file)) in
  let size := Z.of_nat (length (content file)) in
  (size <= 134997 ->
   calls (fst (detect_deepfake E file t w))
   = calls w ++ [scoring_request (inline_submission E mime (b64encode (content file)))]) /\
  (134998 <= size ->
   exists rest,
     calls (fst (detect_deepfake E file t w))
     = calls w ++ reserve_request E mime "Input Image" :: rest).
Proof.
  intros Ht Hx Hk mime size.
  rewrite detect_world, Ht, Hx. cbn [andb calls]. unfold run_calls.
  rewrite Ht, Hx, Hk. cbn [andb]. fold mime. unfold vendor_calls. cbn zeta.
  split; intros Hs.
  - apply b64encode_below_threshold in Hs. apply Z.ltb_lt in Hs. now rewrite Hs.
  - assert (Hn : (len (b64encode (content file)) <? 180000) = false).
    { apply Z.ltb_ge. destruct (Z.lt_ge_cases (len (b64encode (content file))) 180000)
        as [Hlt|Hge]; [|exact Hge].
      apply b64encode_below_threshold in Hlt. unfold size in Hs. lia. }
    rewrite Hn.
    destruct (upload_calls E mime "Input Image" (content file)) as [cs r] eqn:Hu.
    assert (Hc : exists rest, cs = reserve_request E mime "Input Image" :: rest).
    { unfold upload_calls in Hu. cbn zeta in Hu.
      destruct (checked_json ASSETS_URL _) as [e|j]; [injection Hu as <- _; eauto|].
      destruct (py_getitem j "uploadUrl") as [e|location]; [injection Hu as <- _; eauto|].
      destruct (py_getitem j "assetId") as [e|asset]; [injection Hu as <- _; eauto|].
      destruct (as_url location) as [e|u]; injection Hu as <- _; eauto. }
    destruct Hc as [rest0 ->].
    destruct r as [e|asset]; [eauto|].
    destruct (as_header_value asset); cbn [app]; eauto.
Qed.

Lemma inline_iff_small_upload_witness :
  threshold_ok 0.016 = true /\
  extension_ok (extension (filename large_file)) = true /\
  api_key_set asset_env = true /\
  134998 <= Z.of_nat (length (content large_file)) /\
  exists rest,
    calls (fst (detect_deepfake asset_env large_file 0.016 empty_world))
    = calls empty_world
      ++ reserve_request asset_env (mime_type_of (extension (filename large_file)))
           "Input Image" :: rest.
Proof.
  assert (H1 : threshold_ok 0.016 = true) by (vm_compute; reflexivity).
  assert (H2 : extension_ok (extension (filename large_file)) = true)
    by (vm_compute; reflexivity).
  assert (H3 : api_key_set asset_env = true) by reflexivity.
  assert (H4 : 134998 <= Z.of_nat (length (content large_file))).
  { cbn [large_file content]. rewrite repeat_length, Z2Nat.id by lia. lia. }
  repeat (split; [assumption|]).
  exact (proj2 (inline_iff_small_upload asset_env large_file 0.016 empty_world H1 H2 H3) H4).
Defined.

End VerdictExtras.

(** ** Which file names are accepted *)

Module NameFacts.
Import Py PyStr Json Http Detector.

(** [c in s]. *)
Fixpoint occurs (c : ascii) (s : string) : bool :=
  match s with
  | EmptyString => false
  | String a r => Ascii.eqb a c || occurs c r
  end.

(** [posixpath.basename]: what follows the last separator. *)
Definition basename (p : string) : string :=
  slice p (rfind "/"%char p + 1) (len p).

Lemma rfind_from_spec (c : ascii) (s : string) (i found : Z) :
  rfind_from c s i found = if occurs c s then i + rfind c s else found.
Proof.
  revert i found. induction s as [|a r IH]; intros i found; [reflexivity|].
  unfold rfind. cbn [rfind_from occurs]. rewrite (IH (i + 1)), (IH (0 + 1)).
  destruct (occurs c r); [rewrite orb_true_r; lia|].
  rewrite orb_false_r. destruct (Ascii.eqb a c); lia.
Qed.

Lemma rfind_cons (c a : ascii) (r : string) :
  rfind c (String a r) =
  if occurs c r then 1 + rfind c r else if Ascii.eqb a c then 0 else -1.
Proof. unfold rfind at 1. cbn [rfind_from]. now rewrite rfind_from_spec. Qed.

Lemma rfind_absent (c : ascii) (s : string) : occurs c s = false -> rfind c s = -1.
Proof. intros H. unfold rfind. now rewrite rfind_from_spec, H. Qed.

Lemma rfind_bounds (c : ascii) (s : string) : -1 <= rfind c s < len s.
Proof.
  induction s as [|a r IH]; [cbn; lia|].
  rewrite rfind_cons. unfold len in *. cbn [String.length].
  destruct (occurs c r); [lia|]. destruct (Ascii.eqb a c); lia.
Qed.

Lemma rfind_present (c : ascii) (s : string) : occurs c s = true -> 0 <= rfind c s.
Proof.
  induction s as [|a r IH]; [discriminate|].
  rewrite rfind_cons. cbn [occurs].
  destruct (occurs c r); [intros _; specialize (IH eq_refl); lia|].
  rewrite orb_false_r. intros ->. lia.
Qed.

Lemma occurs_app (c : ascii) (p q : string) :
  occurs c (p ++ q)%string = occurs c p || occurs c q.
Proof.
  induction p as [|a r IH]; [reflexivity|].
  cbn [append occurs]. now rewrite IH, orb_assoc.
Qed.

Lemma len_app (p q : string) : len (p ++ q)%string = len p + len q.
Proof.
  unfold len. induction p as [|a r IH]; [reflexivity|].
  cbn [append String.length]. lia.
Qed.

Lemma rfind_app (c : ascii) (p q : string) :
  rfind c (p ++ q)%string = if occurs c q then len p + rfind c q else rfind c p.
Proof.
  induction p as [|a r IH].
  - cbn [append]. destruct (occurs c q) eqn:Hq; [unfold len; cbn; lia|].
    now rewrite rfind_absent.
  - cbn [append]. rewrite !rfind_cons, occurs_app, IH.
    unfold len. cbn [String.length].
    destruct (occurs c q); [rewrite orb_true_r; lia|].
    now rewrite orb_false_r.
Qed.

Lemma occurs_split (c : ascii) (s : string) :
  occurs c s = true -> exists p e, s = (p ++ String c e)%string /\ occurs c e = false.
Proof.
  induction s as [|a r IH]; [discriminate|].
  cbn [occurs]. destruct (occurs c r) eqn:Hr.
  - intros _. destruct (IH eq_refl) as (p & e & -> & He).
    now exists (String a p), e.
  - rewrite orb_false_r. intros Ha. apply Ascii.eqb_eq in Ha. subst a.
    now exists EmptyString, r.
Qed.

Lemma substring_prefix (p q : string) : substring 0 (String.length p) (p ++ q)%string = p.
Proof.
  induction p as [|a r IH]; [now destruct q|]. cbn. now rewrite IH.
Qed.

Lemma substring_all (q : string) : substring 0 (String.length q) q = q.
Proof. induction q as [|a r IH]; [reflexivity|]. cbn. now rewrite IH. Qed.

Lemma substring_skip (p q : string) (m : nat) :
  substring (String.length p) m (p ++ q)%string = substring 0 m q.
Proof. induction p as [|a r IH]; [reflexivity|]. cbn. exact IH. Qed.

Lemma substring_within (p q : string) (n m : nat) :
  (n + m <= String.length p)%nat -> substring n m (p ++ q)%string = substring n m p.
Proof.
  revert n m. induction p as [|a r IH]; intros n m H.
  - cbn in H. assert (n = 0%nat) by lia. assert (m = 0%nat) by lia. subst.
    now destruct q.
  - destruct n as [|n].
    + destruct m as [|m]; [reflexivity|]. cbn. f_equal. apply (IH 0%nat). cbn in H. lia.
    + cbn. apply IH. cbn in H. lia.
Qed.

Lemma lower_char_dot (a : ascii) :
  Ascii.eqb (lower_char a) "."%char = Ascii.eqb a "."%char.
Proof. destruct a as [[] [] [] [] [] [] [] []]; reflexivity. Qed.

Lemma lower_char_sep (a : ascii) :
  Ascii.eqb (lower_char a) "/"%char = Ascii.eqb a "/"%char.
Proof. destruct a as [[] [] [] [] [] [] [] []]; reflexivity. Qed.

Lemma occurs_lower_dot (s : string) : occurs "."%char (lower s) = occurs "."%char s.
Proof.
  induction s as [|a r IH]; [reflexivity|].
  cbn [lower occurs]. now rewrite lower_char_dot, IH.
Qed.

Lemma occurs_lower_sep (s : string) : occurs "/"%char (lower s) = occurs "/"%char s.
Proof.
  induction s as [|a r IH]; [reflexivity|].
  cbn [lower occurs]. now rewrite lower_char_sep, IH.
Qed.

(** The split of a name at a dot after which neither a dot nor a
    separator follows. *)
Lemma splitext_last_dot (stem e : string) :
  occurs "."%char e = false -> occurs "/"%char e = false ->
  splitext (stem ++ String "."%char e)%string =
  if has_non_dot (basename stem)
  then (stem, String "."%char e)
  else ((stem ++ String "."%char e)%string, EmptyString).
Proof.
  intros Hd Hs. unfold splitext, basename. cbn zeta.
  assert (Hsep : rfind "/"%char (stem ++ String "."%char e)%string = rfind "/"%char stem).
  { rewrite rfind_app. cbn [occurs]. now rewrite Hs. }
  assert (Hdot : rfind "."%char (stem ++ String "."%char e)%string = len stem).
  { rewrite rfind_app. cbn [occurs Ascii.eqb Bool.eqb orb].
    rewrite rfind_cons, Hd. cbn. lia. }
  rewrite Hsep, Hdot.
  pose proof (rfind_bounds "/"%char stem) as Hb.
  assert (Hgt : (len stem >? rfind "/"%char stem) = true) by (apply Z.gtb_lt; lia).
  rewrite Hgt. cbn [andb].
  assert (Hseg : slice (stem ++ String "."%char e)%string (rfind "/"%char stem + 1) (len stem)
                 = slice stem (rfind "/"%char stem + 1) (len stem)).
  { unfold slice. apply substring_within. unfold len in *. lia. }
  rewrite Hseg.
  destruct (has_non_dot _); [|reflexivity].
  f_equal.
  - unfold slice, len. rewrite Z.sub_0_r, Nat2Z.id. cbn [Z.to_nat]. apply substring_prefix.
  - unfold slice. rewrite len_app.
    replace (len stem + len (String "."%char e) - len stem)
      with (len (String "."%char e)) by lia.
    unfold len. rewrite !Nat2Z.id, substring_skip. apply substring_all.
Qed.

Lemma splitext_no_dot (name : string) :
  occurs "."%char name = false -> splitext name = (name, EmptyString).
Proof.
  intros H. unfold splitext. cbn zeta. rewrite (rfind_absent _ _ H).
  pose proof (rfind_bounds "/"%char name).
  assert (Hgt : (-1 >? rfind "/"%char name) = false) by (rewrite Z.gtb_ltb; apply Z.ltb_ge; lia).
  now rewrite Hgt.
Qed.

Lemma splitext_sep_after_dot (stem e : string) :
  occurs "."%char e = false -> occurs "/"%char e = true ->
  splitext (stem ++ String "."%char e)%string = ((stem ++ String "."%char e)%string, EmptyString).
Proof.
  intros Hd Hs. unfold splitext. cbn zeta.
  rewrite !rfind_app. cbn [occurs Ascii.eqb Bool.eqb orb]. rewrite Hs. 
  rewrite !rfind_cons, Hd, Hs. cbn [Ascii.eqb Bool.eqb].
  pose proof (rfind_present _ _ Hs).
  assert (Hgt : (len stem + 0 >? len stem + (1 + rfind "/"%char e)) = false)
    by (rewrite Z.gtb_ltb; apply Z.ltb_ge; lia).
  now rewrite Hgt.
Qed.

Lemma extension_ok_inv (x : string) :
  extension_ok x = true ->
  exists e, x = String "."%char e /\ In e ["jpg"; "jpeg"; "png"].
Proof.
  unfold extension_ok, str_in. cbn [existsb]. rewrite !orb_true_iff, !String.eqb_eq.
  intros [->|[->|[->|H]]]; [| | |discriminate]; eexists; (split; [reflexivity|]); cbn; auto.
Qed.

(** X15: which file names pass the extension check: those that end in a dot
    and one of [jpg], [jpeg], [png] in any case, the part before the dot
    having in its base name a character other than the dot; so [.png],
    [photos/.jpg] and [shot.png/raw] are refused and [a.b.JpEg] passes. *)
Theorem accepted_name_shape (name : string) :
  extension_ok (extension name) = true <->
  exists stem e,
    name = (stem ++ String "."%char e)%string /\
    has_non_dot (basename stem) = true /\
    In (lower e) ["jpg"; "jpeg"; "png"].
Proof.
  unfold extension. split.
  - intros H. destruct (occurs "."%char name) eqn:Hn.
    + destruct (occurs_split _ _ Hn) as (stem & e & -> & Hd).
      destruct (occurs "/"%char e) eqn:Hs.
      * rewrite splitext_sep_after_dot in H by assumption. discriminate.
      * rewrite splitext_last_dot in H by assumption.
        destruct (has_non_dot (basename stem)) eqn:Hb; [|discriminate].
        exists stem, e. split; [reflexivity|]. split; [exact Hb|].
        cbn [snd lower] in H. apply extension_ok_inv in H.
        destruct H as (x & Hx & Hin). injection Hx as <-. exact Hin.
    + rewrite splitext_no_dot in H by assumption. discriminate.
  - intros (stem & e & -> & Hb & Hin).
    assert (Hd : occurs "."%char e = false).
    { rewrite <- occurs_lower_dot. cbn in Hin.
      destruct Hin as [<-|[<-|[<-|[]]]]; reflexivity. }
    assert (Hs : occurs "/"%char e = false).
    { rewrite <- occurs_lower_sep. cbn in Hin.
      destruct Hin as [<-|[<-|[<-|[]]]]; reflexivity. }
    rewrite splitext_last_dot, Hb by assumption. cbn [snd lower].
    cbn in Hin. destruct Hin as [<-|[<-|[<-|[]]]]; reflexivity.
Qed.

Example name_samples :
  extension_ok (extension ".png") = false /\
  extension_ok (extension "photos/.jpg") = false /\
  extension_ok (extension "shot.png/raw") = false /\
  extension_ok (extension "a.b.JpEg") = true.
Proof. repeat split; vm_compute; reflexivity. Qed.

End NameFacts.


(** * The batch scripts

    [batch_ai_generation_detector_api.py] and [sightapitets.py] send every
    image of a directory to another vendor and write one CSV row per image.
    Their [process_image] is the same function; [print] and [time.sleep]
    leave no trace in the state modelled here. *)

Module Sight.
Import Py PyStr Json Detector NameFacts.

(** [requests.post(url, files=files, data=params)]: a multipart form with
    the text fields of [data] and, for each entry of [files], the bytes read
    from the open file. *)
Record form := mkForm {
  form_url : string;
  form_data : list (string * string);
  form_files : list (string * list Byte.byte)
}.

(** A line handed to the [csv.DictWriter]: the header, or the dict passed
    to [writerow]. *)
Inductive line :=
| Header (fieldnames : list string)
| Row (cells : list (string * json)).

(** The exceptions of the scripts: those of [Json.exn], and three more of
    the interpreter. *)
Inductive exc :=
| Lib (e : exn)
| UnboundLocalError (name : string)
| ValueError (msg : string)
| OverflowError (msg : string).

(** The surroundings of a run: the vendor side of the network (the status
    line is never looked at, only the text of the answer), the directory
    listing [Path(d).glob('*')] as paths, [PurePath.suffix], [float] on a
    string ([None] where it raises), and the two credentials sent with
    every call. *)
Record env := mkEnv {
  vendor : form -> string + Http.response;
  glob : string -> list string;
  suffix : string -> string;
  float_of_str : string -> option float;
  api_user : string;
  api_secret : string
}.

(** The state: the calls made, the files that can be read, the handles
    opened for reading and not yet closed, and the CSV files written. *)
Record world := mkWorld {
  posts : list form;
  disk : list (string * list Byte.byte);
  open_files : list string;
  sheets : list (string * list line)
}.

Definition M (A : Type) : Type := world -> world * (exc + A).

Definition ret {A} (a : A) : M A := fun w => (w, inr a).

Definition raise {A} (e : exc) : M A := fun w => (w, inl e).

Definition bind {A B} (m : M A) (k : A -> M B) : M B :=
  fun w => match m w with
           | (w1, inl e) => (w1, inl e)
           | (w1, inr a) => k a w1
           end.

Definition lift {A} (r : exc + A) : M A := fun w => (w, r).

Definition of_lib {A} (r : exn + A) : exc + A :=
  match r with
  | inl e => inl (Lib e)
  | inr a => inr a
  end.

Declare Scope sight_scope.
Delimit Scope sight_scope with sight.
Notation "x <- m ;; k" := (bind m (fun x => k))
  (at level 61, m at next level, right associativity) : sight_scope.
Notation "m ;;; k" := (bind m (fun _ => k))
  (at level 61, right associativity) : sight_scope.

Local Open Scope sight_scope.

(** [open(path, 'rb')]: the handle is the path with the bytes behind it. *)
Definition open_rb (path : string) : M (list Byte.byte) :=
  fun w => match dict_lookup path (disk w) with
           | Some data =>
               (mkWorld (posts w) (disk w) (path :: open_files w) (sheets w), inr data)
           | None =>
               (w, inl (Lib (PyError FileNotFoundError
                      ("[Errno 2] No such file or directory: '" ++ path ++ "'")%string)))
           end.

Fixpoint remove_one (path : string) (l : list string) : list string :=
  match l with
  | [] => []
  | p :: r => if String.eqb p path then r else p :: remove_one path r
  end.

(** [f.close()]. *)
Definition close (path : string) : M unit :=
  fun w => (mkWorld (posts w) (disk w) (remove_one path (open_files w)) (sheets w), inr tt).

Definition requests_post (E : env) (u : string) (files : list (string * list Byte.byte))
  (data : list (string * string)) : M Http.response :=
  fun w =>
    let rq := mkForm u data files in
    (mkWorld (posts w ++ [rq]) (disk w) (open_files w) (sheets w),
     match vendor E rq with
     | inl msg => inl (Lib (RequestException msg))
     | inr r => inr r
     end).

(** [json.loads(r.text)]: a [JSONDecodeError], which is a [ValueError],
    when the text is not JSON. *)
Definition json_loads (r : Http.response) : exc + json :=
  match Http.json_result r with
  | inl msg => inl (ValueError msg)
  | inr j => inr j
  end.

Definition SIGHT_URL : string := "https://api.sightengine.com/1.0/check.json".

(** [output.get('type', {}).get('ai_generated', 0)]. *)
Definition ai_score_of (output : json) : exn + json :=
  ebind (py_get output "type" (JDict []))
        (fun t => py_get t "ai_generated" (JNum (PyInt 0))).

(** The body of the [try] of [process_image] once the file is open. *)
Definition score_image (E : env) (image_path : string) (media : list Byte.byte)
  (params : list (string * string)) : M (list (string * json)) :=
  r <- requests_post E SIGHT_URL [("media", media)] params ;;
  output <- lift (json_loads r) ;;
  ai_score <- lift (of_lib (ai_score_of output)) ;;
  ret [("filename", JStr (basename image_path)); ("ai_generated_score", ai_score)].

Definition error_result (image_path : string) : list (string * json) :=
  [("filename", JStr (basename image_path)); ("ai_generated_score", JStr "ERROR")].

(** [process_image] (the same in both scripts).  When [open] raises,
    [files] is never bound: the handler prepares its row, and the [finally]
    clause, reading [files], raises [UnboundLocalError] in its place. *)
Definition process_image (E : env) (image_path : string) (params : list (string * string))
  : M (list (string * json)) :=
  fun w =>
    match open_rb image_path w with
    | (w0, inl _) => (w0, inl (UnboundLocalError "files"))
    | (w0, inr media) =>
        match score_image E image_path media params w0 with
        | (w1, outcome) =>
            let result := match outcome with
                          | inl _ => error_result image_path
                          | inr row => row
                          end in
            (close image_path ;;; ret result) w1
        end
    end.

(** [params] of [process_directory]. *)
Definition params (E : env) : list (string * string) :=
  [("models", "genai"); ("api_user", api_user E); ("api_secret", api_secret E)].

Definition image_extensions : list string := [".jpg"; ".jpeg"; ".png"; ".gif"; ".bmp"].

(** [[f for f in Path(directory_path).glob('*')
      if f.suffix.lower() in image_extensions]]. *)
Definition image_files (E : env) (directory_path : string) : list string :=
  filter (fun f => str_in (lower (suffix E f)) image_extensions) (glob E directory_path).

Fixpoint sheet_put (path : string) (ls : list line) (s : list (string * list line)) :=
  match s with
  | [] => [(path, ls)]
  | (p, old) :: r => if String.eqb p path then (p, ls) :: r else (p, old) :: sheet_put path ls r
  end.

(** [open(output_csv, 'w', newline='')]: the file is created or emptied. *)
Definition open_w (path : string) : M unit :=
  fun w => (mkWorld (posts w) (disk w) (open_files w) (sheet_put path [] (sheets w)), inr tt).

Definition written (path : string) (w : world) : list line :=
  match dict_lookup path (sheets w) with
  | Some ls => ls
  | None => []
  end.

(** [writer.writeheader()] and [writer.writerow(row)]. *)
Definition write_line (path : string) (l : line) : M unit :=
  fun w => (mkWorld (posts w) (disk w) (open_files w)
              (sheet_put path (written path w ++ [l]) (sheets w)), inr tt).

(** [d[key] = v]. *)
Fixpoint dict_set {A} (key : string) (v : A) (d : list (string * A)) : list (string * A) :=
  match d with
  | [] => [(key, v)]
  | (k, old) :: r => if String.eqb k key then (k, v) :: r else (k, old) :: dict_set key v r
  end.

(** [float(v)]. *)
Definition py_float (E : env) (v : json) : exc + float :=
  match v with
  | JNum (PyInt z) =>
      let f := float_of_int z in
      if PrimFloat.is_infinity f then inl (OverflowError "int too large to convert to float")
      else inr f
  | JNum n => inr (float_of_num n)
  | JStr s =>
      match float_of_str E s with
      | Some f => inr f
      | None => inl (ValueError ("could not convert string to float: '" ++ s ++ "'")%string)
      end
  | _ => inl (Lib (PyError TypeError
            ("float() argument must be a string or a real number, not '"
             ++ type_name v ++ "'")%string))
  end.

End Sight.

(** [batch_ai_generation_detector_api.py] *)
Module BatchDetector.
Import Py PyStr Json Detector NameFacts Sight.
Local Open Scope sight_scope.

(** ['Yes' if float(result['ai_generated_score']) > threshold else 'No']. *)
Definition yes_no (E : env) (threshold : float) (result : list (string * json))
  : exc + string :=
  match of_lib (py_getitem (JDict result) "ai_generated_score") with
  | inl e => inl e
  | inr score =>
      match py_float E score with
      | inl e => inl e
      | inr x => inr (if py_gt (PyFloat x) (PyFloat threshold) then "Yes" else "No")
      end
  end.

(** The loop of [process_directory] over the images left. *)
Fixpoint each_image (E : env) (output_csv : string) (threshold : float)
  (images : list string) : M unit :=
  match images with
  | [] => ret tt
  | image_path :: rest =>
      result <- process_image E image_path (params E) ;;
      flag <- lift (yes_no E threshold result) ;;
      write_line output_csv (Row (dict_set "is_ai_generated" (JStr flag) result)) ;;;
      each_image E output_csv threshold rest
  end.

Definition process_directory (E : env) (directory_path output_csv : string)
  (threshold : float) : M unit :=
  let images := image_files E directory_path in
  open_w output_csv ;;;
  write_line output_csv (Header ["filename"; "ai_generated_score"; "is_ai_generated"]) ;;;
  each_image E output_csv threshold images.

End BatchDetector.

(** [sightapitets.py] *)
Module SightApiTets.
Import Py PyStr Json Detector NameFacts Sight.
Local Open Scope sight_scope.

Fixpoint each_image (E : env) (output_csv : string) (images : list string) : M unit :=
  match images with
  | [] => ret tt
  | image_path :: rest =>
      result <- process_image E image_path (params E) ;;
      write_line output_csv (Row result) ;;;
      each_image E output_csv rest
  end.

Definition process_directory (E : env) (directory_path output_csv : string) : M unit :=
  let images := image_files E directory_path in
  open_w output_csv ;;;
  write_line output_csv (Header ["filename"; "ai_generated_score"]) ;;;
  each_image E output_csv images.

End SightApiTets.

(** ** What the batch scripts do *)

Module SightFacts.
Import Py PyStr Json Detector NameFacts Sight.
Local Open Scope sight_scope.

(** The call [process_image] makes for the bytes of an image. *)
Definition submission (ps : list (string * string)) (data : list Byte.byte) : form :=
  mkForm SIGHT_URL ps [("media", data)].

(** What [process_image] puts under [ai_generated_score] for the bytes of
    an image that could be opened. *)
Definition score_cell (E : env) (ps : list (string * string)) (data : list Byte.byte)
  : json :=
  match vendor E (submission ps data) with
  | inl _ => JStr "ERROR"
  | inr r =>
      match json_loads r with
      | inl _ => JStr "ERROR"
      | inr output =>
          match ai_score_of output with
          | inl _ => JStr "ERROR"
          | inr s => s
          end
      end
  end.

Definition result_of (image_path : string) (score : json) : list (string * json) :=
  [("filename", JStr (basename image_path)); ("ai_generated_score", score)].

Definition after_call (ps : list (string * string)) (data : list Byte.byte) (w : world)
  : world :=
  mkWorld (posts w ++ [submission ps data]) (disk w) (open_files w) (sheets w).

Lemma process_image_readable (E : env) (p : string) (ps : list (string * string))
  (w : world) (data : list Byte.byte) :
  dict_lookup p (disk w) = Some data ->
  process_image E p ps w = (after_call ps data w, inr (result_of p (score_cell E ps data))).
Proof.
  intros H. unfold process_image, open_rb. rewrite H.
  unfold score_image, bind, requests_post, lift, ret, close, score_cell, after_call.
  fold (submission ps data). cbn [posts disk open_files sheets].
  destruct (vendor E (submission ps data)) as [msg|r];
    [cbn [posts disk open_files sheets remove_one]; now rewrite String.eqb_refl|].
  destruct (json_loads r) as [e|output];
    [cbn [posts disk open_files sheets remove_one]; now rewrite String.eqb_refl|].
  destruct (ai_score_of output) as [e|s];
    cbn [of_lib posts disk open_files sheets remove_one]; now rewrite String.eqb_refl.
Qed.

Lemma process_image_unreadable (E : env) (p : string) (ps : list (string * string))
  (w : world) :
  dict_lookup p (disk w) = None ->
  process_image E p ps w = (w, inl (UnboundLocalError "files")).
Proof. intros H. unfold process_image, open_rb. now rewrite H. Qed.

Lemma dict_lookup_sheet_put (path : string) (ls : list line) (s : list (string * list line)) :
  dict_lookup path (sheet_put path ls s) = Some ls.
Proof.
  induction s as [|[p old] r IH]; cbn [sheet_put dict_lookup].
  - now rewrite String.eqb_refl.
  - destruct (String.eqb p path) eqn:Hp; cbn [dict_lookup]; rewrite String.eqb_sym, Hp;
      [reflexivity|exact IH].
Qed.

Lemma written_write_line (path : string) (l : line) (w : world) :
  written path (fst (write_line path l w)) = written path w ++ [l].
Proof.
  unfold write_line, written at 1. cbn [fst sheets]. now rewrite dict_lookup_sheet_put.
Qed.

Lemma written_open_w (path : string) (w : world) :
  written path (fst (open_w path w)) = [].
Proof.
  unfold open_w, written. cbn [fst sheets]. now rewrite dict_lookup_sheet_put.
Qed.

(** The images that can be read, with their bytes. *)
Definition readable (d : list (string * list Byte.byte)) (p : string) : Prop :=
  dict_lookup p d <> None.

Definition bytes_of (d : list (string * list Byte.byte)) (p : string) : list Byte.byte :=
  match dict_lookup p d with
  | Some data => data
  | None => []
  end.

Lemma readable_bytes (d : list (string * list Byte.byte)) (p : string) :
  readable d p -> dict_lookup p d = Some (bytes_of d p).
Proof. unfold readable, bytes_of. now destruct (dict_lookup p d). Qed.

(** The row written for a readable image by [sightapitets.py]. *)
Definition plain_row (E : env) (d : list (string * list Byte.byte)) (p : string) : line :=
  Row (result_of p (score_cell E (params E) (bytes_of d p))).

Definition calls_for (E : env) (d : list (string * list Byte.byte)) (images : list string)
  : list form :=
  map (fun p => submission (params E) (bytes_of d p)) images.

(** A run of the loop of [sightapitets.py] over readable images. *)
Lemma tets_each_image_prefix (E : env) (csv : string) (pre rest : list string) (w : world) :
  Forall (readable (disk w)) pre ->
  exists w1,
    SightApiTets.each_image E csv (pre ++ rest) w = SightApiTets.each_image E csv rest w1 /\
    posts w1 = posts w ++ calls_for E (disk w) pre /\
    disk w1 = disk w /\
    open_files w1 = open_files w /\
    written csv w1 = written csv w ++ map (plain_row E (disk w)) pre.
Proof.
  revert w. induction pre as [|p pre IH]; intros w Hr.
  - exists w. cbn [app map calls_for]. now rewrite !app_nil_r.
  - inversion Hr as [|? ? Hp Hpre]; subst.
    cbn [app SightApiTets.each_image]. unfold bind at 1.
    rewrite (process_image_readable E p (params E) w _ (readable_bytes _ _ Hp)).
    unfold bind at 1.
    set (row := Row (result_of p (score_cell E (params E) (bytes_of (disk w) p)))).
    set (w0 := after_call (params E) (bytes_of (disk w) p) w).
    pose proof (written_write_line csv row w0) as Hw.
    destruct (write_line csv row w0) as [w2 r] eqn:Hwl.
    assert (Hr2 : r = inr tt) by (unfold write_line in Hwl; now injection Hwl as _ <-).
    assert (Hf : posts w2 = posts w0 /\ disk w2 = disk w0 /\ open_files w2 = open_files w0)
      by (unfold write_line in Hwl; injection Hwl as <- _; now cbn).
    destruct Hf as (Hp2 & Hd2 & Ho2). subst r. cbn [fst] in Hw.
    assert (Hd : disk w2 = disk w) by (rewrite Hd2; reflexivity).
    destruct (IH w2) as (w1 & Hrun & Hposts & Hdisk & Hopen & Hwritten).
    { now rewrite Hd. }
    exists w1. split; [exact Hrun|].
    rewrite Hposts, Hdisk, Hopen, Hwritten, Hw, Hp2, Ho2, Hd.
    unfold w0, after_call, calls_for, plain_row, written. cbn [posts disk open_files sheets map].
    rewrite <- !app_assoc. repeat split; reflexivity.
Qed.

(** What the threshold column of [batch_ai_generation_detector_api.py]
    makes of a result of [process_image]. *)
Lemma yes_no_result (E : env) (t : float) (p : string) (c : json) :
  BatchDetector.yes_no E t (result_of p c) =
  match py_float E c with
  | inl e => inl e
  | inr x => inr (if (t <? x)%float then "Yes" else "No")
  end.
Proof.
  unfold BatchDetector.yes_no, result_of. cbn [py_getitem dict_lookup of_lib].
  change (String.eqb "ai_generated_score" "filename") with false.
  change (String.eqb "ai_generated_score" "ai_generated_score") with true.
  cbn [of_lib]. destruct (py_float E c) as [e|x]; [reflexivity|].
  now rewrite FloatBridge.py_gt_float.
Qed.

(** An image with a score that [float] accepts, and its row in the batch
    CSV. *)
Definition numeric (E : env) (d : list (string * list Byte.byte)) (p : string) : Prop :=
  exists data x,
    dict_lookup p d = Some data /\ py_float E (score_cell E (params E) data) = inr x.

Definition labelled (E : env) (t : float) (d : list (string * list Byte.byte))
  (p : string) (l : line) : Prop :=
  exists data x,
    dict_lookup p d = Some data /\
    py_float E (score_cell E (params E) data) = inr x /\
    l = Row [("filename", JStr (basename p));
             ("ai_generated_score", score_cell E (params E) data);
             ("is_ai_generated", JStr (if (t <? x)%float then "Yes" else "No"))].

Lemma numeric_readable (E : env) (d : list (string * list Byte.byte)) (p : string) :
  numeric E d p -> readable d p.
Proof. intros (data & x & H & _). unfold readable. now rewrite H. Qed.

(** A run of the loop of the batch script over images with numeric
    scores. *)
Lemma batch_each_image_prefix (E : env) (csv : string) (t : float)
  (pre rest : list string) (w : world) :
  Forall (numeric E (disk w)) pre ->
  exists w1 lines,
    BatchDetector.each_image E csv t (pre ++ rest) w
      = BatchDetector.each_image E csv t rest w1 /\
    posts w1 = posts w ++ calls_for E (disk w) pre /\
    disk w1 = disk w /\
    open_files w1 = open_files w /\
    written csv w1 = written csv w ++ lines /\
    Forall2 (labelled E t (disk w)) pre lines.
Proof.
  revert w. induction pre as [|p pre IH]; intros w Hr.
  - exists w, []. cbn [app map calls_for]. rewrite !app_nil_r. repeat split. constructor.
  - inversion Hr as [|? ? Hp Hpre]; subst.
    destruct Hp as (data & x & Hdata & Hx).
    cbn [app BatchDetector.each_image]. unfold bind at 1.
    rewrite (process_image_readable E p (params E) w data Hdata).
    unfold bind at 1, lift at 1. rewrite yes_no_result, Hx.
    unfold bind at 1.
    set (row := Row (dict_set "is_ai_generated" _ _)).
    set (w0 := after_call (params E) data w).
    pose proof (written_write_line csv row w0) as Hw.
    destruct (write_line csv row w0) as [w2 r] eqn:Hwl.
    assert (Hr2 : r = inr tt) by (unfold write_line in Hwl; now injection Hwl as _ <-).
    assert (Hf : posts w2 = posts w0 /\ disk w2 = disk w0 /\ open_files w2 = open_files w0)
      by (unfold write_line in Hwl; injection Hwl as <- _; now cbn).
    destruct Hf as (Hp2 & Hd2 & Ho2). subst r. cbn [fst] in Hw.
    assert (Hd : disk w2 = disk w) by (rewrite Hd2; reflexivity).
    destruct (IH w2) as (w1 & lines & Hrun & Hposts & Hdisk & Hopen & Hwritten & Hall).
    { now rewrite Hd. }
    exists w1, (row :: lines). split; [exact Hrun|].
    rewrite Hposts, Hdisk, Hopen, Hwritten, Hw, Hp2, Ho2, Hd.
    unfold w0, after_call, calls_for, written. cbn [posts disk open_files sheets map].
    replace (bytes_of (disk w) p) with data by (unfold bytes_of; now rewrite Hdata).
    rewrite <- !app_assoc. repeat split; try reflexivity.
    constructor; [|now rewrite <- Hd].
    exists data, x. repeat split; assumption || reflexivity.
Qed.

(** The state in which the loop of [process_directory] starts: the CSV
    emptied and the header written. *)
Definition started (csv : string) (header : line) (w : world) : world :=
  fst (write_line csv header (fst (open_w csv w))).

Lemma started_fields (csv : string) (header : line) (w : world) :
  posts (started csv header w) = posts w /\
  disk (started csv header w) = disk w /\
  open_files (started csv header w) = open_files w /\
  written csv (started csv header w) = [header].
Proof.
  unfold started. rewrite written_write_line, written_open_w. repeat split.
Qed.

Lemma tets_process_directory_run (E : env) (dir csv : string) (w : world) :
  SightApiTets.process_directory E dir csv w =
  SightApiTets.each_image E csv (image_files E dir)
    (started csv (Header ["filename"; "ai_generated_score"]) w).
Proof. reflexivity. Qed.

Lemma batch_process_directory_run (E : env) (dir csv : string) (t : float) (w : world) :
  BatchDetector.process_directory E dir csv t w =
  BatchDetector.each_image E csv t (image_files E dir)
    (started csv (Header ["filename"; "ai_generated_score"; "is_ai_generated"]) w).
Proof. reflexivity. Qed.

End SightFacts.

(** ** Scenarios for the batch scripts *)

Module SightScenarios.
Import Py PyStr Json Detector NameFacts Sight SightFacts.

Definition scored_answer : Http.response :=
  Http.mkResponse 200 "OK"
    (inr (JDict [("status", JStr "success");
                 ("type", JDict [("ai_generated", JNum (PyFloat 0.5))])])).

(** What the vendor says to a call it refuses. *)
Definition refusal : Http.response :=
  Http.mkResponse 401 "Unauthorized"
    (inr (JDict [("status", JStr "failure");
                 ("error", JDict [("type", JStr "authentification_error")])])).

(** A vendor that scores every image but those starting with byte 2, where
    the connection drops, and those starting with byte 3, which it refuses. *)
Definition sight_vendor (rq : form) : string + Http.response :=
  match form_files rq with
  | [(_, Byte.x02 :: _)] => inl "Connection aborted."
  | [(_, Byte.x03 :: _)] => inr refusal
  | _ => inr scored_answer
  end.

Definition sight_env (listing : list string) : env :=
  mkEnv sight_vendor (fun _ => listing) (fun f => snd (splitext f)) (fun _ => None)
        "user" "secret".

Definition pictures : world :=
  mkWorld [] [("pics/a.jpg", [Byte.x01]); ("pics/b.PNG", [Byte.x02]);
              ("pics/c.gif", [Byte.x03]); ("pics/d.bmp", [Byte.x04])]
          [] [("out.csv", [Row [("filename", JStr "old.jpg")]])].

End SightScenarios.

(** ** Properties of the batch scripts *)

Module SightExtras.
Import Py PyStr Json Detector NameFacts Sight SightFacts SightScenarios.
Local Open Scope sight_scope.

Lemma py_le_not_gt (a b : pynum) : py_le a b = true -> py_gt a b = false.
Proof. unfold py_le, py_gt. now destruct (py_compare a b) as [[]|]. Qed.

Lemma each_image_nil_tets (E : env) (csv : string) (w : world) :
  SightApiTets.each_image E csv [] w = (w, inr tt).
Proof. reflexivity. Qed.

(** X16: [process_image] never looks at the HTTP status: when the vendor
    answers a readable image with a JSON object that has no [type] key, as
    it does when it refuses a call, the image is given the score 0, and the
    batch script labels it [No] at every threshold that is not negative. *)
Theorem vendor_refusal_scored_zero
  (E : env) (p : string) (ps : list (string * string)) (w : world)
  (data : list Byte.byte) (r : Http.response) (d : list (string * json)) (t : float) :
  dict_lookup p (disk w) = Some data ->
  vendor E (submission ps data) = inr r ->
  Http.json_result r = inr (JDict d) ->
  dict_lookup "type" d = None ->
  (0 <=? t)%float = true ->
  snd (process_image E p ps w)
    = inr [("filename", JStr (basename p)); ("ai_generated_score", JNum (PyInt 0))] /\
  BatchDetector.yes_no E t
    [("filename", JStr (basename p)); ("ai_generated_score", JNum (PyInt 0))] = inr "No".
Proof.
  intros Hd Hv Hj Ht Hle. split.
  - rewrite (process_image_readable E p ps w data Hd). cbn [snd].
    unfold score_cell, json_loads, ai_score_of. rewrite Hv, Hj.
    cbn [py_get ebind]. now rewrite Ht.
  - fold (result_of p (JNum (PyInt 0))). rewrite yes_no_result.
    assert (Hf : py_float E (JNum (PyInt 0)) = inr 0%float) by (vm_compute; reflexivity).
    rewrite Hf. rewrite <- FloatBridge.py_gt_float, py_le_not_gt; [reflexivity|].
    now rewrite FloatBridge.py_le_float.
Qed.

Lemma vendor_refusal_scored_zero_witness :
  snd (process_image (sight_env []) "pics/c.gif" (params (sight_env [])) pictures)
    = inr [("filename", JStr (basename "pics/c.gif")); ("ai_generated_score", JNum (PyInt 0))] /\
  BatchDetector.yes_no (sight_env []) 0.016
    [("filename", JStr (basename "pics/c.gif")); ("ai_generated_score", JNum (PyInt 0))]
    = inr "No".
Proof.
  exact (vendor_refusal_scored_zero (sight_env []) "pics/c.gif" (params (sight_env []))
           pictures [Byte.x03] refusal _ 0.016 eq_refl eq_refl eq_refl eq_refl eq_refl).
Defined.

(** X17: [sightapitets.py] does not give up on a vendor failure: when every
    listed image can be opened, the run ends normally with the header and
    one row per image in listing order (the row of a failed call holding
    [ERROR]), after one call per image, and with every handle closed;
    what the CSV held before is gone. *)
Theorem every_image_gets_a_row (E : env) (dir csv : string) (w : world) :
  Forall (readable (disk w)) (image_files E dir) ->
  let run := SightApiTets.process_directory E dir csv w in
  snd run = inr tt /\
  written csv (fst run)
    = Header ["filename"; "ai_generated_score"]
      :: map (plain_row E (disk w)) (image_files E dir) /\
  posts (fst run) = posts w ++ calls_for E (disk w) (image_files E dir) /\
  open_files (fst run) = open_files w /\
  forall p msg,
    vendor E (submission (params E) (bytes_of (disk w) p)) = inl msg ->
    plain_row E (disk w) p = Row (error_result p).
Proof.
  intros Hr run. unfold run. rewrite tets_process_directory_run.
  set (w2 := started csv (Header ["filename"; "ai_generated_score"]) w).
  destruct (started_fields csv (Header ["filename"; "ai_generated_score"]) w)
    as (Hp2 & Hd2 & Ho2 & Hw). fold w2 in Hp2, Hd2, Ho2, Hw.
  destruct (tets_each_image_prefix E csv (image_files E dir) [] w2)
    as (w1 & Hrun & Hposts & Hdisk & Hopen & Hwritten).
  { now rewrite Hd2. }
  rewrite app_nil_r, each_image_nil_tets in Hrun. rewrite Hrun. cbn [fst snd].
  rewrite Hposts, Hopen, Hwritten, Hw, Hp2, Hd2, Ho2.
  repeat split; try reflexivity.
  intros p msg Hv. unfold plain_row, score_cell. now rewrite Hv.
Qed.

Lemma every_image_gets_a_row_witness :
  let E := sight_env ["pics/a.jpg"; "pics/notes.txt"; "pics/b.PNG"; "pics/c.gif"] in
  let run := SightApiTets.process_directory E "pics" "out.csv" pictures in
  snd run = inr tt /\
  written "out.csv" (fst run)
    = [Header ["filename"; "ai_generated_score"];
       Row [("filename", JStr "a.jpg"); ("ai_generated_score", JNum (PyFloat 0.5))];
       Row [("filename", JStr "b.PNG"); ("ai_generated_score", JStr "ERROR")];
       Row [("filename", JStr "c.gif"); ("ai_generated_score", JNum (PyInt 0))]].
Proof.
  intros E run.
  assert (Hr : Forall (readable (disk pictures)) (image_files E "pics")).
  { repeat constructor; unfold readable; vm_compute; discriminate. }
  destruct (every_image_gets_a_row E "pics" "out.csv" pictures Hr) as (H1 & H2 & _).
  split; [exact H1|]. etransitivity; [exact H2|]. vm_compute. reflexivity.
Defined.

(** X18: an image that cannot be opened ends the run of [sightapitets.py]
    with [UnboundLocalError]: the [finally] clause of [process_image] reads
    [files], which was never bound, so the [ERROR] row prepared by the
    handler is lost; the rows of the readable images listed before it are
    written, and neither it nor any image after it is sent to the vendor. *)
Theorem unreadable_image_ends_run
  (E : env) (dir csv : string) (w : world) (pre post : list string) (bad : string) :
  image_files E dir = pre ++ bad :: post ->
  Forall (readable (disk w)) pre ->
  dict_lookup bad (disk w) = None ->
  let run := SightApiTets.process_directory E dir csv w in
  snd run = inl (UnboundLocalError "files") /\
  written csv (fst run)
    = Header ["filename"; "ai_generated_score"] :: map (plain_row E (disk w)) pre /\
  posts (fst run) = posts w ++ calls_for E (disk w) pre.
Proof.
  intros Hfiles Hr Hbad run. unfold run. rewrite tets_process_directory_run, Hfiles.
  set (w2 := started csv (Header ["filename"; "ai_generated_score"]) w).
  destruct (started_fields csv (Header ["filename"; "ai_generated_score"]) w)
    as (Hp2 & Hd2 & Ho2 & Hw). fold w2 in Hp2, Hd2, Ho2, Hw.
  destruct (tets_each_image_prefix E csv pre (bad :: post) w2)
    as (w1 & Hrun & Hposts & Hdisk & Hopen & Hwritten).
  { now rewrite Hd2. }
  assert (Hend : SightApiTets.each_image E csv (bad :: post) w1
                 = (w1, inl (UnboundLocalError "files"))).
  { cbn [SightApiTets.each_image]. unfold bind at 1.
    now rewrite process_image_unreadable by (rewrite Hdisk, Hd2; exact Hbad). }
  rewrite Hrun, Hend. cbn [fst snd]. rewrite Hposts, Hwritten, Hw, Hp2, Hd2.
  repeat split; reflexivity.
Qed.

Lemma unreadable_image_ends_run_witness :
  let E := sight_env ["pics/a.jpg"; "pics/gone.jpeg"; "pics/d.bmp"] in
  let run := SightApiTets.process_directory E "pics" "out.csv" pictures in
  snd run = inl (UnboundLocalError "files") /\
  written "out.csv" (fst run)
    = [Header ["filename"; "ai_generated_score"];
       Row [("filename", JStr "a.jpg"); ("ai_generated_score", JNum (PyFloat 0.5))]] /\
  List.length (posts (fst run)) = 1%nat.
Proof.
  intros E run.
  assert (Hf : image_files E "pics" = ["pics/a.jpg"] ++ "pics/gone.jpeg" :: ["pics/d.bmp"])
    by (vm_compute; reflexivity).
  assert (Hr : Forall (readable (disk pictures)) ["pics/a.jpg"]).
  { repeat constructor; unfold readable; vm_compute; discriminate. }
  assert (Hb : dict_lookup "pics/gone.jpeg" (disk pictures) = None) by reflexivity.
  destruct (unreadable_image_ends_run E "pics" "out.csv" pictures _ _ _ Hf Hr Hb)
    as (H1 & H2 & H3).
  split; [exact H1|]. split.
  - etransitivity; [exact H2|]. vm_compute. reflexivity.
  - unfold run. rewrite H3. reflexivity.
Defined.

(** X19: the batch script with the threshold column cannot write an
    [ERROR] row: at the first image whose score is [ERROR] (a failed call,
    an answer that is not JSON or not of the expected shape), [float]
    raises [ValueError] and the run ends there; the images before it keep
    their rows, it has been sent to the vendor, and no image after it is. *)
Theorem batch_ends_at_error_row
  (E : env) (dir csv : string) (t : float) (w : world)
  (pre post : list string) (bad : string) (data : list Byte.byte) :
  image_files E dir = pre ++ bad :: post ->
  Forall (numeric E (disk w)) pre ->
  dict_lookup bad (disk w) = Some data ->
  score_cell E (params E) data = JStr "ERROR" ->
  float_of_str E "ERROR" = None ->
  let run := BatchDetector.process_directory E dir csv t w in
  snd run = inl (ValueError "could not convert string to float: 'ERROR'") /\
  (exists lines,
     written csv (fst run)
       = Header ["filename"; "ai_generated_score"; "is_ai_generated"] :: lines /\
     Forall2 (labelled E t (disk w)) pre lines) /\
  posts (fst run) = posts w ++ calls_for E (disk w) (pre ++ [bad]).
Proof.
  intros Hfiles Hr Hbad Hcell Hfloat run.
  unfold run. rewrite batch_process_directory_run, Hfiles.
  set (w2 := started csv (Header ["filename"; "ai_generated_score"; "is_ai_generated"]) w).
  destruct (started_fields csv
              (Header ["filename"; "ai_generated_score"; "is_ai_generated"]) w)
    as (Hp2 & Hd2 & Ho2 & Hw). fold w2 in Hp2, Hd2, Ho2, Hw.
  destruct (batch_each_image_prefix E csv t pre (bad :: post) w2)
    as (w1 & lines & Hrun & Hposts & Hdisk & Hopen & Hwritten & Hall).
  { now rewrite Hd2. }
  assert (Hend : BatchDetector.each_image E csv t (bad :: post) w1
                 = (after_call (params E) data w1,
                    inl (ValueError "could not convert string to float: 'ERROR'"))).
  { cbn [BatchDetector.each_image]. unfold bind at 1.
    rewrite (process_image_readable E bad (params E) w1 data)
      by (rewrite Hdisk, Hd2; exact Hbad).
    unfold bind at 1, lift at 1. rewrite yes_no_result, Hcell.
    cbn [py_float]. now rewrite Hfloat. }
  rewrite Hrun, Hend. cbn [fst snd].
  assert (Hsame : written csv (after_call (params E) data w1) = written csv w1)
    by reflexivity.
  rewrite Hsame. cbn [after_call posts].
  rewrite Hposts, Hwritten, Hw, Hp2, Hd2. split; [reflexivity|]. split.
  - exists lines. split; [reflexivity|]. now rewrite <- Hd2.
  - unfold calls_for. rewrite map_app, <- app_assoc. cbn [map].
    replace (bytes_of (disk w) bad) with data by (unfold bytes_of; now rewrite Hbad).
    reflexivity.
Qed.

Lemma batch_ends_at_error_row_witness :
  let E := sight_env ["pics/a.jpg"; "pics/b.PNG"; "pics/d.bmp"] in
  let run := BatchDetector.process_directory E "pics" "out.csv" 0.016 pictures in
  snd run = inl (ValueError "could not convert string to float: 'ERROR'") /\
  List.length (posts (fst run)) = 2%nat.
Proof.
  intros E run.
  assert (Hf : image_files E "pics" = ["pics/a.jpg"] ++ "pics/b.PNG" :: ["pics/d.bmp"])
    by (vm_compute; reflexivity).
  assert (Hr : Forall (numeric E (disk pictures)) ["pics/a.jpg"]).
  { repeat constructor. exists [Byte.x01], 0.5%float. split; vm_compute; reflexivity. }
  assert (Hb : dict_lookup "pics/b.PNG" (disk pictures) = Some [Byte.x02]) by reflexivity.
  assert (Hc : score_cell E (params E) [Byte.x02] = JStr "ERROR") by reflexivity.
  assert (Hn : float_of_str E "ERROR" = None) by reflexivity.
  destruct (batch_ends_at_error_row E "pics" "out.csv" 0.016 pictures _ _ _ _ Hf Hr Hb Hc Hn)
    as (H1 & _ & H3).
  split; [exact H1|]. unfold run. rewrite H3. reflexivity.
Defined.

(** X20: when every listed image can be opened and gets a score that
    [float] accepts, the batch script ends normally and writes, after the
    header, one row per image in listing order, labelled [Yes] exactly when
    the score as a float is above the threshold, and [No] otherwise. *)
Theorem batch_rows_labelled
  (E : env) (dir csv : string) (t : float) (w : world) :
  Forall (numeric E (disk w)) (image_files E dir) ->
  let run := BatchDetector.process_directory E dir csv t w in
  snd run = inr tt /\
  exists lines,
    written csv (fst run)
      = Header ["filename"; "ai_generated_score"; "is_ai_generated"] :: lines /\
    Forall2 (labelled E t (disk w)) (image_files E dir) lines.
Proof.
  intros Hr run. unfold run. rewrite batch_process_directory_run.
  set (w2 := started csv (Header ["filename"; "ai_generated_score"; "is_ai_generated"]) w).
  destruct (started_fields csv
              (Header ["filename"; "ai_generated_score"; "is_ai_generated"]) w)
    as (Hp2 & Hd2 & Ho2 & Hw). fold w2 in Hp2, Hd2, Ho2, Hw.
  destruct (batch_each_image_prefix E csv t (image_files E dir) [] w2)
    as (w1 & lines & Hrun & Hposts & Hdisk & Hopen & Hwritten & Hall).
  { now rewrite Hd2. }
  rewrite app_nil_r in Hrun. rewrite Hrun. cbn [BatchDetector.each_image ret fst snd].
  split; [reflexivity|]. exists lines. rewrite Hwritten, Hw.
  split; [reflexivity|]. now rewrite <- Hd2.
Qed.

Lemma batch_rows_labelled_witness :
  let E := sight_env ["pics/a.jpg"; "pics/c.gif"] in
  let run := BatchDetector.process_directory E "pics" "out.csv" 0.016 pictures in
  snd run = inr tt /\
  exists lines,
    written "out.csv" (fst run)
      = Header ["filename"; "ai_generated_score"; "is_ai_generated"] :: lines /\
    Forall2 (labelled E 0.016 (disk pictures)) (image_files E "pics") lines.
Proof.
  intros E run.
  assert (Hr : Forall (numeric E (disk pictures)) (image_files E "pics")).
  { repeat constructor.
    - exists [Byte.x01], 0.5%float. split; vm_compute; reflexivity.
    - exists [Byte.x03], 0%float. split; vm_compute; reflexivity. }
  exact (batch_rows_labelled E "pics" "out.csv" 0.016 pictures Hr).
Defined.

End SightExtras.

(** * The test client ([test_api.py])

    [test_single_image] sends one image to the [/detect] endpoint of a
    deployed relay.  What it prints is kept as a list of events, one per
    [print], holding the values the line interpolates; [time.sleep] leaves
    no trace. *)

Module TestApi.
Import Py PyStr Json.

(** A call handed to [requests]: [requests.get(url)], or
    [requests.post(url, files={field: (filename, f, content_type)},
    timeout=...)] with the bytes read from [f]. *)
Inductive call :=
| Get (url : string)
| PostFile (url field filename : string) (sent : list Byte.byte)
           (content_type : string) (timeout : Z).

Inductive event :=
| ServerStatus (status_code : Z)
| ServerConnectionError (msg : string)
| FileSize (bytes : Z)
| ResponseStatus (status_code : Z)
| ResponseHeaders
| Results
| Field (label : string) (value : json)
| AttemptFailed (attempt : Z) (msg : string)
| Retrying (seconds : Z)
| AllAttemptsFailed (msg : string)
| FileNotFound (path : string)
| UnexpectedError (msg : string).

(** The relay as the client meets it.  [requests] prepares a call before
    it sends it: it checks the URL first ([url_error] is the message of
    the [MissingSchema] or [InvalidURL] it raises then), and reads the file
    to the end after that; every later failure ([ConnectionError],
    [Timeout], ...) is the [inl] of [server]. *)
Record env := mkEnv {
  url_error : string -> option string;
  server : call -> string + Http.response
}.

Record world := mkWorld {
  calls : list call;
  printed : list event;
  disk : list (string * list Byte.byte)
}.

Definition M (A : Type) : Type := world -> world * (exn + A).

Definition ret {A} (a : A) : M A := fun w => (w, inr a).

Definition raise {A} (e : exn) : M A := fun w => (w, inl e).

Definition bind {A B} (m : M A) (k : A -> M B) : M B :=
  fun w => match m w with
           | (w1, inl e) => (w1, inl e)
           | (w1, inr a) => k a w1
           end.

Definition lift {A} (r : exn + A) : M A := fun w => (w, r).

(** [try: m except Exception as e: h e]. *)
Definition try_except {A} (m : M A) (h : exn -> M A) : M A :=
  fun w => match m w with
           | (w1, inl e) => h e w1
           | (w1, inr a) => (w1, inr a)
           end.

Declare Scope client_scope.
Delimit Scope client_scope with client.
Notation "x <- m ;; k" := (bind m (fun x => k))
  (at level 61, m at next level, right associativity) : client_scope.
Notation "m ;;; k" := (bind m (fun _ => k))
  (at level 61, right associativity) : client_scope.

Local Open Scope client_scope.

Definition print (e : event) : M unit :=
  fun w => (mkWorld (calls w) (printed w ++ [e]) (disk w), inr tt).

Definition outcome (E : env) (c : call) : exn + Http.response :=
  match server E c with
  | inl msg => inl (RequestException msg)
  | inr r => inr r
  end.

Definition requests_get (E : env) (u : string) : M Http.response :=
  fun w =>
    match url_error E u with
    | Some msg => (w, inl (RequestException msg))
    | None => (mkWorld (calls w ++ [Get u]) (printed w) (disk w), outcome E (Get u))
    end.

(** [requests.post(url, files=files, timeout=t)] on an open file of which
    [image_file] is still unread: the call carries what is left of the
    file, and nothing is left after it.  The result comes with the new
    state of the file. *)
Definition requests_post (E : env) (u field filename : string)
  (image_file : list Byte.byte) (content_type : string) (t : Z) (w : world)
  : world * list Byte.byte * (exn + Http.response) :=
  match url_error E u with
  | Some msg => (w, image_file, inl (RequestException msg))
  | None =>
      let c := PostFile u field filename image_file content_type t in
      (mkWorld (calls w ++ [c]) (printed w) (disk w), [], outcome E c)
  end.

(** [response.raise_for_status()]. *)
Definition raise_for_status (u : string) (r : Http.response) : M unit :=
  let c := Http.status_code r in
  if ((400 <=? c) && (c <? 500))%Z then
    raise (RequestException
      (str_of_int c ++ " Client Error: " ++ Http.reason r ++ " for url: " ++ u)%string)
  else if ((500 <=? c) && (c <? 600))%Z then
    raise (RequestException
      (str_of_int c ++ " Server Error: " ++ Http.reason r ++ " for url: " ++ u)%string)
  else ret tt.

(** [response.json()]. *)
Definition response_json (r : Http.response) : M json :=
  match Http.json_result r with
  | inl msg => raise (RequestException msg)
  | inr j => ret j
  end.

(** [os.path.getsize(path)]. *)
Definition getsize (path : string) : M Z :=
  fun w => match dict_lookup path (disk w) with
           | Some data => (w, inr (Z.of_nat (List.length data)))
           | None => (w, inl (PyError FileNotFoundError
                        ("[Errno 2] No such file or directory: '" ++ path ++ "'")%string))
           end.

(** [open(path, 'rb')]: the file with all of it unread. *)
Definition open_rb (path : string) : M (list Byte.byte) :=
  fun w => match dict_lookup path (disk w) with
           | Some data => (w, inr data)
           | None => (w, inl (PyError FileNotFoundError
                        ("[Errno 2] No such file or directory: '" ++ path ++ "'")%string))
           end.

Definition test_api_connection (E : env) (api_url : string) : M unit :=
  try_except
    (response <- requests_get E api_url ;;
     print (ServerStatus (Http.status_code response)))
    (fun e => print (ServerConnectionError (exc_str e))).

Definition max_retries : Z := 3.
Definition retry_delay : Z := 5.

(** [print(f"<label>: {result[key]}")]. *)
Definition print_field (label : string) (result : json) (key : string) : M unit :=
  v <- lift (py_getitem result key) ;;
  print (Field label v).

(** The [try] body of an attempt once [requests.post] has returned. *)
Definition report (u : string) (response : Http.response) : M unit :=
  print (ResponseStatus (Http.status_code response)) ;;;
  print ResponseHeaders ;;;
  raise_for_status u response ;;;
  result <- response_json response ;;
  print Results ;;;
  print_field "Filename" result "filename" ;;;
  print_field "Is AI Generated" result "is_ai_generated" ;;;
  print_field "Confidence" result "confidence" ;;;
  print_field "Confidence Score" result "confidence_score" ;;;
  print_field "Message" result "message".

(** [for attempt in range(max_retries)], from [attempt] on with [left]
    rounds to go; [image_file] is what is unread of the open file. *)
Fixpoint attempts (E : env) (u image_path : string) (image_file : list Byte.byte)
  (attempt : Z) (left : nat) : M unit :=
  match left with
  | O => ret tt
  | S left' =>
      fun w =>
        match requests_post E u "file" image_path image_file "image/jpeg" 30 w with
        | (w1, image_file', sent) =>
            match (response <- lift sent ;; report u response) w1 with
            | (w2, inr _) => (w2, inr tt)
            | (w2, inl (RequestException msg)) =>
                if (attempt <? max_retries - 1)%Z then
                  (print (AttemptFailed (attempt + 1) msg) ;;;
                   print (Retrying retry_delay) ;;;
                   attempts E u image_path image_file' (attempt + 1) left') w2
                else
                  (print (AllAttemptsFailed msg) ;;;
                   raise (RequestException msg)) w2
            | (w2, inl e) => (w2, inl e)
            end
        end
  end.

Definition test_single_image (E : env) (image_path api_url : string) : M unit :=
  test_api_connection E api_url ;;;
  file_size <- getsize image_path ;;
  print (FileSize file_size) ;;;
  let u := (api_url ++ "/detect")%string in
  fun w =>
    match (image_file <- open_rb image_path ;;
           attempts E u image_path image_file 0 (Z.to_nat max_retries)) w with
    | (w1, inr _) => (w1, inr tt)
    | (w1, inl (PyError FileNotFoundError _)) => print (FileNotFound image_path) w1
    | (w1, inl e) => print (UnexpectedError (exc_str e)) w1
    end.

End TestApi.

(** ** What the test client sends *)

Module TestApiFacts.
Import Py PyStr Json TestApi.
Local Open Scope client_scope.

(** A step that makes no call and leaves the disk alone. *)
Definition quiet {A} (m : M A) : Prop :=
  forall w, calls (fst (m w)) = calls w /\ disk (fst (m w)) = disk w.

Lemma quiet_ret {A} (a : A) : quiet (ret a).
Proof. now intros w. Qed.

Lemma quiet_raise {A} (e : exn) : quiet (@raise A e).
Proof. now intros w. Qed.

Lemma quiet_lift {A} (r : exn + A) : quiet (lift r).
Proof. now intros w. Qed.

Lemma quiet_print (e : event) : quiet (print e).
Proof. now intros w. Qed.

Lemma quiet_bind {A B} (m : M A) (k : A -> M B) :
  quiet m -> (forall a, quiet (k a)) -> quiet (bind m k).
Proof.
  intros Hm Hk w. unfold bind. specialize (Hm w).
  destruct (m w) as [w1 [e|a]]; cbn [fst] in *; [exact Hm|].
  destruct (Hk a w1) as [H1 H2]. destruct Hm as [H3 H4]. split; congruence.
Qed.

Lemma quiet_raise_for_status (u : string) (r : Http.response) : quiet (raise_for_status u r).
Proof.
  unfold raise_for_status. cbn zeta.
  destruct (_ && _); [apply quiet_raise|].
  destruct (_ && _); [apply quiet_raise|apply quiet_ret].
Qed.

Lemma quiet_response_json (r : Http.response) : quiet (response_json r).
Proof.
  unfold response_json. destruct (Http.json_result r); [apply quiet_raise|apply quiet_ret].
Qed.

Lemma quiet_print_field (label : string) (result : json) (key : string) :
  quiet (print_field label result key).
Proof. apply quiet_bind; [apply quiet_lift|intros; apply quiet_print]. Qed.

Lemma quiet_report (u : string) (r : Http.response) : quiet (report u r).
Proof.
  unfold report.
  repeat (apply quiet_bind;
          [first [apply quiet_print | apply quiet_raise_for_status
                 | apply quiet_response_json | apply quiet_print_field]|intros]).
  apply quiet_print_field.
Qed.

(** The upload of an attempt, and the uploads of [n] attempts on a file of
    which [image_file] is unread: the first carries it, the later ones
    nothing. *)
Definition upload (u image_path : string) (sent : list Byte.byte) : call :=
  PostFile u "file" image_path sent "image/jpeg" 30.

Definition uploads (u image_path : string) (image_file : list Byte.byte) (n : nat)
  : list call :=
  match n with
  | O => []
  | S k => upload u image_path image_file :: repeat (upload u image_path []) k
  end.

Lemma uploads_empty (u image_path : string) (n : nat) :
  uploads u image_path [] n = repeat (upload u image_path []) n.
Proof. now destruct n. Qed.

Lemma attempts_calls (E : env) (u image_path : string) (image_file : list Byte.byte)
  (attempt : Z) (left : nat) (w : world) :
  exists n,
    (n <= left)%nat /\
    (url_error E u = None -> (0 < left)%nat -> (0 < n)%nat) /\
    calls (fst (attempts E u image_path image_file attempt left w))
      = calls w ++ uploads u image_path image_file n /\
    disk (fst (attempts E u image_path image_file attempt left w)) = disk w.
Proof.
  revert image_file attempt w.
  induction left as [|left IH]; intros image_file attempt w.
  - exists 0%nat. cbn. rewrite app_nil_r. repeat split; lia.
  - cbn [attempts]. unfold requests_post.
    destruct (url_error E u) as [msg|].
    + unfold bind, lift.
      destruct (attempt <? max_retries - 1)%Z.
      * unfold bind, print.
        destruct (IH image_file (attempt + 1)%Z
                    (mkWorld (calls w) ((printed w ++ [AttemptFailed (attempt + 1) msg])
                                        ++ [Retrying retry_delay]) (disk w)))
          as (n & Hn & _ & Hc & Hd).
        exists n. cbn [calls disk] in Hc, Hd.
        split; [lia|]. split; [discriminate|]. split; assumption.
      * exists 0%nat. cbn. rewrite app_nil_r.
        split; [lia|]. split; [discriminate|]. split; reflexivity.
    + set (w1 := mkWorld (calls w ++ [PostFile u "file" image_path image_file "image/jpeg" 30])
                         (printed w) (disk w)).
      fold (upload u image_path image_file) in w1.
      unfold bind, lift.
      destruct (outcome E _) as [e|response].
      * destruct e as [c d|msg|k msg].
        -- exists 1%nat. cbn. split; [lia|]. split; [lia|]. split; reflexivity.
        -- destruct (attempt <? max_retries - 1)%Z.
           ++ unfold bind, print.
              destruct (IH [] (attempt + 1)%Z
                          (mkWorld (calls w1)
                             ((printed w1 ++ [AttemptFailed (attempt + 1) msg])
                              ++ [Retrying retry_delay]) (disk w1)))
                as (n & Hn & _ & Hc & Hd).
              exists (S n). cbn [calls disk] in Hc, Hd. split; [lia|]. split; [lia|].
              split; [|exact Hd]. etransitivity; [exact Hc|]. unfold w1.
              cbn [calls uploads]. now rewrite <- app_assoc, uploads_empty.
           ++ exists 1%nat. cbn. split; [lia|]. split; [lia|]. split; reflexivity.
        -- exists 1%nat. cbn. split; [lia|]. split; [lia|]. split; reflexivity.
      * destruct (quiet_report u response w1) as [Hq Hqd].
        destruct (report u response w1) as [w2 [e|[]]]; cbn [fst] in Hq, Hqd.
        -- destruct e as [c d|msg|k msg].
           ++ exists 1%nat. cbn [fst uploads repeat]. rewrite Hq, Hqd.
              split; [lia|]. split; [lia|]. split; reflexivity.
           ++ destruct (attempt <? max_retries - 1)%Z.
              ** unfold bind, print.
                 destruct (IH [] (attempt + 1)%Z
                             (mkWorld (calls w2)
                                ((printed w2 ++ [AttemptFailed (attempt + 1) msg])
                                 ++ [Retrying retry_delay]) (disk w2)))
                   as (n & Hn & _ & Hc & Hd).
                 exists (S n). cbn [calls disk] in Hc, Hd. split; [lia|]. split; [lia|].
                 split; [|etransitivity; [exact Hd|exact Hqd]].
                 etransitivity; [exact Hc|]. rewrite Hq. unfold w1.
                 cbn [calls uploads]. now rewrite <- app_assoc, uploads_empty.
              ** exists 1%nat. cbn [bind print raise fst calls disk uploads repeat].
                 rewrite Hq, Hqd. split; [lia|]. split; [lia|]. split; reflexivity.
           ++ exists 1%nat. cbn [fst uploads repeat]. rewrite Hq, Hqd.
              split; [lia|]. split; [lia|]. split; reflexivity.
        -- exists 1%nat. cbn [fst uploads repeat]. rewrite Hq, Hqd.
           split; [lia|]. split; [lia|]. split; reflexivity.
Qed.

(** An attempt that fails inside [requests] with rounds to go. *)
Lemma attempts_failed (E : env) (u image_path : string) (image_file : list Byte.byte)
  (attempt : Z) (left : nat) (w : world) (msg : string) :
  url_error E u = None ->
  server E (upload u image_path image_file) = inl msg ->
  (attempt <? max_retries - 1)%Z = true ->
  attempts E u image_path image_file attempt (S left) w =
  attempts E u image_path [] (attempt + 1) left
    (mkWorld (calls w ++ [upload u image_path image_file])
             ((printed w ++ [AttemptFailed (attempt + 1) msg]) ++ [Retrying retry_delay])
             (disk w)).
Proof.
  intros Hu Hs Ha. cbn [attempts]. unfold requests_post. rewrite Hu.
  unfold bind at 1, lift at 1, outcome.
  fold (upload u image_path image_file). rewrite Hs, Ha.
  reflexivity.
Qed.

(** [test_api_connection] always returns, after at most the GET and one
    printed line. *)
Lemma test_api_connection_run (E : env) (api_url : string) (w : world) :
  exists gets e,
    (gets = [] \/ gets = [Get api_url]) /\
    ((exists c, e = ServerStatus c) \/ (exists msg, e = ServerConnectionError msg)) /\
    test_api_connection E api_url w
      = (mkWorld (calls w ++ gets) (printed w ++ [e]) (disk w), inr tt).
Proof.
  unfold test_api_connection, try_except, bind, requests_get, print.
  destruct (url_error E api_url) as [msg|].
  - exists [], (ServerConnectionError msg). split; [now left|]. split; [right; eauto|].
    cbn. now rewrite app_nil_r.
  - destruct (outcome E (Get api_url)) as [e|r].
    + exists [Get api_url], (ServerConnectionError (exc_str e)).
      split; [now right|]. split; [right; eauto|reflexivity].
    + exists [Get api_url], (ServerStatus (Http.status_code r)).
      split; [now right|]. split; [left; eauto|reflexivity].
Qed.

(** What is behind a path, nothing for a path that is not there. *)
Definition file_bytes (d : list (string * list Byte.byte)) (path : string)
  : list Byte.byte :=
  match dict_lookup path d with
  | Some data => data
  | None => []
  end.

(** A run from the size check on, the connection test done. *)
Definition after_connection (E : env) (image_path api_url : string) : M unit :=
  file_size <- getsize image_path ;;
  print (FileSize file_size) ;;;
  let u := (api_url ++ "/detect")%string in
  fun w =>
    match (image_file <- open_rb image_path ;;
           attempts E u image_path image_file 0 (Z.to_nat max_retries)) w with
    | (w1, inr _) => (w1, inr tt)
    | (w1, inl (PyError FileNotFoundError _)) => print (FileNotFound image_path) w1
    | (w1, inl e) => print (UnexpectedError (exc_str e)) w1
    end.

Lemma test_single_image_run (E : env) (image_path api_url : string) (w : world) :
  exists gets e,
    (gets = [] \/ gets = [Get api_url]) /\
    ((exists c, e = ServerStatus c) \/ (exists msg, e = ServerConnectionError msg)) /\
    test_single_image E image_path api_url w
      = after_connection E image_path api_url
          (mkWorld (calls w ++ gets) (printed w ++ [e]) (disk w)).
Proof.
  destruct (test_api_connection_run E api_url w) as (gets & e & Hg & He & Hrun).
  exists gets, e. split; [exact Hg|]. split; [exact He|].
  unfold test_single_image. unfold bind at 1. now rewrite Hrun.
Qed.

Lemma after_connection_missing (E : env) (image_path api_url : string) (w : world) :
  dict_lookup image_path (disk w) = None ->
  after_connection E image_path api_url w
    = (w, inl (PyError FileNotFoundError
                 ("[Errno 2] No such file or directory: '" ++ image_path ++ "'")%string)).
Proof.
  intros H. unfold after_connection, bind at 1, getsize. now rewrite H.
Qed.

Lemma after_connection_unfold (E : env) (image_path api_url : string) (w : world)
  (data : list Byte.byte) :
  dict_lookup image_path (disk w) = Some data ->
  after_connection E image_path api_url w =
  match attempts E (api_url ++ "/detect")%string image_path data 0 (Z.to_nat max_retries)
          (mkWorld (calls w) (printed w ++ [FileSize (Z.of_nat (List.length data))])
                   (disk w)) with
  | (w1, inr _) => (w1, inr tt)
  | (w1, inl (PyError FileNotFoundError _)) => print (FileNotFound image_path) w1
  | (w1, inl e) => print (UnexpectedError (exc_str e)) w1
  end.
Proof.
  intros H. unfold after_connection, bind at 1, getsize. rewrite H.
  unfold bind at 1, print at 1. cbn zeta.
  unfold bind at 1, open_rb. cbn [disk]. now rewrite H.
Qed.

(** With the image there, the run ends normally, whatever the attempts
    came to. *)
Lemma after_connection_present (E : env) (image_path api_url : string) (w : world)
  (data : list Byte.byte) :
  dict_lookup image_path (disk w) = Some data ->
  let w0 := mkWorld (calls w) (printed w ++ [FileSize (Z.of_nat (List.length data))])
                    (disk w) in
  let tried := attempts E (api_url ++ "/detect")%string image_path data 0
                 (Z.to_nat max_retries) w0 in
  snd (after_connection E image_path api_url w) = inr tt /\
  calls (fst (after_connection E image_path api_url w)) = calls (fst tried) /\
  disk (fst (after_connection E image_path api_url w)) = disk (fst tried).
Proof.
  intros H w0 tried.
  rewrite (after_connection_unfold E image_path api_url w data H). fold w0. fold tried.
  destruct tried as [w1 [e|[]]]; cbn [fst snd]; [|repeat split].
  destruct e as [c d|msg|[] msg]; repeat split.
Qed.

End TestApiFacts.

(** ** Properties of the test client *)

Module TestApiExtras.
Import Py PyStr Json TestApi TestApiFacts.
Local Open Scope client_scope.

(** A relay that wakes up slowly: the first upload times out, an empty
    upload is refused. *)
Definition sleepy : env :=
  mkEnv (fun _ => None)
        (fun c => match c with
                  | Get _ => inr (Http.mkResponse 200 "OK" (inl "Expecting value"))
                  | PostFile _ _ _ [] _ _ =>
                      inr (Http.mkResponse 500 "Internal Server Error"
                             (inr (JDict [("detail", JStr "cannot identify image")])))
                  | PostFile _ _ _ _ _ _ => inl "Read timed out. (read timeout=30)"
                  end).

Definition desk : world :=
  mkWorld [] [] [("shots/cat.png", [Byte.x89; Byte.x50; Byte.x4e; Byte.x47])].

(** X21: a missing image is not reported by the handler written for it:
    [os.path.getsize] raises [FileNotFoundError] before the [try] is
    entered, so the exception leaves [test_single_image]; by then only the
    connection test has run, nothing was uploaded and only its line was
    printed. *)
Theorem missing_image_escapes (E : env) (image_path api_url : string) (w : world) :
  dict_lookup image_path (disk w) = None ->
  let run := test_single_image E image_path api_url w in
  snd run = inl (PyError FileNotFoundError
                   ("[Errno 2] No such file or directory: '" ++ image_path ++ "'")%string) /\
  exists gets e,
    (gets = [] \/ gets = [Get api_url]) /\
    calls (fst run) = calls w ++ gets /\
    printed (fst run) = printed w ++ [e] /\
    e <> FileNotFound image_path.
Proof.
  intros H run. unfold run.
  destruct (test_single_image_run E image_path api_url w) as (gets & e & Hg & He & Hrun).
  rewrite Hrun, after_connection_missing by exact H. cbn [fst snd calls printed].
  split; [reflexivity|]. exists gets, e. repeat split; try assumption.
  destruct He as [[c ->]|[msg ->]]; discriminate.
Qed.

Lemma missing_image_escapes_witness :
  snd (test_single_image sleepy "shots/dog.png" "https://relay.example" desk)
    = inl (PyError FileNotFoundError
             "[Errno 2] No such file or directory: 'shots/dog.png'") /\
  calls (fst (test_single_image sleepy "shots/dog.png" "https://relay.example" desk))
    = [Get "https://relay.example"].
Proof.
  assert (H : dict_lookup "shots/dog.png" (disk desk) = None) by reflexivity.
  destruct (missing_image_escapes sleepy "shots/dog.png" "https://relay.example" desk H)
    as [H1 _].
  split; [exact H1|reflexivity].
Defined.

(** X22: the calls of a run are at most one GET of the relay followed by
    at most three uploads to its [/detect]; the first upload carries the
    whole file and every later one an empty body, the open file having
    been read to its end by the first attempt and never rewound. *)
Theorem retries_upload_nothing (E : env) (image_path api_url : string) (w : world) :
  exists gets n,
    (gets = [] \/ gets = [Get api_url]) /\
    (n <= 3)%nat /\
    calls (fst (test_single_image E image_path api_url w))
      = calls w ++ gets
        ++ uploads (api_url ++ "/detect")%string image_path
             (file_bytes (disk w) image_path) n.
Proof.
  destruct (test_single_image_run E image_path api_url w) as (gets & e & Hg & He & Hrun).
  rewrite Hrun. exists gets.
  set (w0 := mkWorld (calls w ++ gets) (printed w ++ [e]) (disk w)).
  destruct (dict_lookup image_path (disk w)) as [data|] eqn:Hd.
  - destruct (after_connection_present E image_path api_url w0 data Hd) as (_ & Hc & _).
    rewrite Hc.
    destruct (attempts_calls E (api_url ++ "/detect")%string image_path data 0
                (Z.to_nat max_retries)
                (mkWorld (calls w0)
                   (printed w0 ++ [FileSize (Z.of_nat (List.length data))]) (disk w0)))
      as (n & Hn & _ & Hcalls & _).
    exists n. split; [exact Hg|]. split; [exact Hn|].
    rewrite Hcalls. unfold file_bytes. rewrite Hd. cbn [calls w0].
    now rewrite <- app_assoc.
  - exists 0%nat. split; [exact Hg|]. split; [lia|].
    rewrite after_connection_missing by exact Hd. cbn [fst calls w0 uploads].
    now rewrite app_nil_r.
Qed.

(** X23: with the image on disk, [test_single_image] never raises: a
    refused URL, a failed connection, an error status, an answer that is
    not JSON or lacks a key all end in a printed line and a normal
    return. *)
Theorem present_image_never_raises
  (E : env) (image_path api_url : string) (w : world) (data : list Byte.byte) :
  dict_lookup image_path (disk w) = Some data ->
  snd (test_single_image E image_path api_url w) = inr tt.
Proof.
  intros H.
  destruct (test_single_image_run E image_path api_url w) as (gets & e & _ & _ & Hrun).
  rewrite Hrun.
  now destruct (after_connection_present E image_path api_url
                  (mkWorld (calls w ++ gets) (printed w ++ [e]) (disk w)) data H).
Qed.

Lemma present_image_never_raises_witness :
  snd (test_single_image sleepy "shots/cat.png" "https://relay.example" desk) = inr tt.
Proof.
  exact (present_image_never_raises sleepy "shots/cat.png" "https://relay.example" desk
           _ eq_refl).
Defined.

(** X24: the retry does not repeat the upload: when the URL is accepted
    and the first upload fails inside [requests] (a timeout, a dropped
    connection), a second upload is made, and it carries no bytes. *)
Theorem failed_upload_retried_empty
  (E : env) (image_path api_url : string) (w : world) (data : list Byte.byte)
  (msg : string) :
  dict_lookup image_path (disk w) = Some data ->
  url_error E (api_url ++ "/detect")%string = None ->
  server E (upload (api_url ++ "/detect")%string image_path data) = inl msg ->
  exists gets rest,
    calls (fst (test_single_image E image_path api_url w))
      = calls w ++ gets
        ++ upload (api_url ++ "/detect")%string image_path data
        :: upload (api_url ++ "/detect")%string image_path []
        :: rest.
Proof.
  intros Hd Hu Hs.
  destruct (test_single_image_run E image_path api_url w) as (gets & e & _ & _ & Hrun).
  rewrite Hrun. exists gets.
  set (w0 := mkWorld (calls w ++ gets) (printed w ++ [e]) (disk w)).
  destruct (after_connection_present E image_path api_url w0 data Hd) as (_ & Hc & _).
  rewrite Hc. clear Hc.
  change (Z.to_nat max_retries) with 3%nat.
  rewrite (attempts_failed E _ image_path data 0 2 _ msg Hu Hs eq_refl).
  match goal with
  | |- context [attempts E ?u ?p [] ?a 2 ?w1] =>
      destruct (attempts_calls E u p [] a 2 w1) as (n & Hn & Hpos & Hcalls & _)
  end.
  specialize (Hpos Hu ltac:(lia)).
  destruct n as [|n]; [lia|].
  exists (repeat (upload (api_url ++ "/detect")%string image_path []) n).
  cbn [fst] in Hcalls |- *. etransitivity; [exact Hcalls|].
  cbn [calls w0 uploads]. now rewrite <- !app_assoc.
Qed.

Lemma failed_upload_retried_empty_witness :
  exists gets rest,
    calls (fst (test_single_image sleepy "shots/cat.png" "https://relay.example" desk))
    = calls desk ++ gets
      ++ upload "https://relay.example/detect" "shots/cat.png"
           [Byte.x89; Byte.x50; Byte.x4e; Byte.x47]
      :: upload "https://relay.example/detect" "shots/cat.png" []
      :: rest.
Proof.
  exact (failed_upload_retried_empty sleepy "shots/cat.png" "https://relay.example" desk
           [Byte.x89; Byte.x50; Byte.x4e; Byte.x47] "Read timed out. (read timeout=30)"
           eq_refl eq_refl eq_refl).
Defined.

(** The run against the slow relay: three uploads, the last two empty, and
    what is printed. *)
Example sleepy_run :
  test_single_image sleepy "shots/cat.png" "https://relay.example" desk =
  (mkWorld
     [Get "https://relay.example";
      upload "https://relay.example/detect" "shots/cat.png"
        [Byte.x89; Byte.x50; Byte.x4e; Byte.x47];
      upload "https://relay.example/detect" "shots/cat.png" [];
      upload "https://relay.example/detect" "shots/cat.png" []]
     [ServerStatus 200; FileSize 4;
      AttemptFailed 1 "Read timed out. (read timeout=30)"; Retrying 5;
      ResponseStatus 500; ResponseHeaders;
      AttemptFailed 2
        "500 Server Error: Internal Server Error for url: https://relay.example/detect";
      Retrying 5;
      ResponseStatus 500; ResponseHeaders;
      AllAttemptsFailed
        "500 Server Error: Internal Server Error for url: https://relay.example/detect";
      UnexpectedError
        "500 Server Error: Internal Server Error for url: https://relay.example/detect"]
     (disk desk),
   inr tt).
Proof. vm_compute. reflexivity. Qed.

End TestApiExtras.
